(** * dhlab-newsletter: the digest mailer of [server.js]

    A shallow embedding of the two variants of [server.js] (the SQLite-backed
    server and the Google-Sheets-backed server) and the properties of the
    evaluate-and-send cycle, the preview enrichment and the submission
    endpoint.

    Conventions of the embedding.
    - A JavaScript string is the list of its UTF-16 code units.
    - A [Date] object holds a time value in milliseconds since the epoch, or
      is an Invalid Date; arithmetic on time values is exact on integers.
    - The built-ins [new Date(string)], [Number(string)] and
      [toISOString] are variables of the sections that use them, so that
      every statement holds for whatever the engine computes; concrete
      versions on date-only ISO strings and decimal numerals serve the
      examples.
    - Local time is UTC plus a fixed offset, an answer of the environment.
    - Everything outside the process (database, spreadsheet, preview
      fetcher, mail provider, clock) answers through an environment record
      that is an argument of the handlers. *)

From Stdlib Require Import String Ascii DecimalString.
From Stdlib Require Import ZArith NArith List Bool Lia Permutation Sorted.
Import ListNotations.
Open Scope Z_scope.

(* ================================================================== *)
(** * JavaScript strings *)

Definition JSString := list N.

(** A source literal, as code units. *)
Definition lit (s : string) : JSString :=
  map N_of_ascii (list_ascii_of_string s).

Definition JSString_eqb (a b : JSString) : bool :=
  if list_eq_dec N.eq_dec a b then true else false.

(** ToBoolean on a string: the empty string is falsy. *)
Definition truthy (s : JSString) : bool :=
  match s with [] => false | _ :: _ => true end.

(** ToBoolean on an optional string ([undefined] is falsy). *)
Definition truthy_opt (s : option JSString) : bool :=
  match s with None => false | Some s => truthy s end.

(** WhiteSpace and LineTerminator code points of ECMAScript, the ones
    [String.prototype.trim] strips. *)
Definition is_whitespace (c : N) : bool :=
  match c with
  | 9 | 10 | 11 | 12 | 13 | 32 | 160 | 5760
  | 8192 | 8193 | 8194 | 8195 | 8196 | 8197 | 8198 | 8199 | 8200 | 8201 | 8202
  | 8232 | 8233 | 8239 | 8287 | 12288 | 65279 => true
  | _ => false
  end%N.

Fixpoint trimStart (s : JSString) : JSString :=
  match s with
  | [] => []
  | c :: s' => if is_whitespace c then trimStart s' else s
  end.

Definition trimEnd (s : JSString) : JSString := rev (trimStart (rev s)).

(** [String.prototype.trim]. *)
Definition trim (s : JSString) : JSString := trimEnd (trimStart s).

Fixpoint startsWith (p s : JSString) : bool :=
  match p, s with
  | [], _ => true
  | _ :: _, [] => false
  | a :: p', b :: s' => N.eqb a b && startsWith p' s'
  end.

(** [String.prototype.includes]. *)
Fixpoint includes (s p : JSString) : bool :=
  startsWith p s ||
  match s with
  | [] => false
  | _ :: s' => includes s' p
  end.

(** [Array.prototype.includes] on an array of strings. *)
Definition array_includes (l : list JSString) (x : JSString) : bool :=
  existsb (JSString_eqb x) l.

(** Comparison of two strings code unit by code unit: JavaScript's [<] on
    strings.  SQLite compares TEXT by the bytes of its UTF-8 form, which is
    the same order on strings without surrogate code units, so on ASCII
    text; the order of a [SELECT] is stated below for such keys only. *)
Fixpoint text_compare (a b : JSString) : comparison :=
  match a, b with
  | [], [] => Eq
  | [], _ :: _ => Lt
  | _ :: _, [] => Gt
  | x :: a', y :: b' =>
      match N.compare x y with
      | Eq => text_compare a' b'
      | c => c
      end
  end.

Definition text_leb (a b : JSString) : bool :=
  match text_compare a b with Gt => false | _ => true end.

(** [Number.prototype.toString] on an integer. *)
Definition Z_toString (z : Z) : JSString :=
  lit (NilZero.string_of_int (Z.to_int z)).

(* ================================================================== *)
(** * Dates and time values *)

Definition msPerDay : Z := 24 * 60 * 60 * 1000.

(** The largest time value a Date can hold. *)
Definition maxTime : Z := 8640000000000000.

Inductive Date : Type :=
| InvalidDate
| TimeValue (t : Z).

(** [new Date(n)] on a number: TimeClip. *)
Definition TimeClip (n : Z) : Date :=
  if Z.abs n <=? maxTime then TimeValue n else InvalidDate.

(** [a <= b] on two Dates: both are converted to numbers, and a comparison
    with NaN is false. *)
Definition Date_le (a b : Date) : bool :=
  match a, b with
  | TimeValue x, TimeValue y => x <=? y
  | _, _ => false
  end.

(** [a < b] on two Dates. *)
Definition Date_lt (a b : Date) : bool :=
  match a, b with
  | TimeValue x, TimeValue y => x <? y
  | _, _ => false
  end.

(** [a - b] on two Dates; [None] is NaN. *)
Definition Date_sub (a b : Date) : option Z :=
  match a, b with
  | TimeValue x, TimeValue y => Some (x - y)
  | _, _ => None
  end.

(** [x > c] for a number [x] that may be NaN. *)
Definition num_gt (x : option Z) (c : Z) : bool :=
  match x with
  | Some v => c <? v
  | None => false
  end.

(** [d.setHours(0, 0, 0, 0)] in a zone whose local time is UTC plus [tz]
    milliseconds: the start of the local day that contains [d]. *)
Definition setHours0 (tz : Z) (d : Date) : Date :=
  match d with
  | InvalidDate => InvalidDate
  | TimeValue t => TimeClip (((t + tz) / msPerDay) * msPerDay - tz)
  end.

(** ** Date-only ISO strings

    [YYYY-MM-DD], which [Date.parse] reads as midnight UTC of that day. *)

Definition digit (c : N) : option Z :=
  if ((48 <=? c) && (c <=? 57))%N then Some (Z.of_N c - 48) else None.

Definition iso_ymd (s : JSString) : option (Z * Z * Z) :=
  match s with
  | [y1; y2; y3; y4; h1; m1; m2; h2; d1; d2] =>
      match digit y1, digit y2, digit y3, digit y4,
            digit m1, digit m2, digit d1, digit d2 with
      | Some a, Some b, Some c, Some d, Some e, Some f, Some g, Some h =>
          let m := 10 * e + f in
          let dd := 10 * g + h in
          if (N.eqb h1 45 && N.eqb h2 45
              && (1 <=? m) && (m <=? 12) && (1 <=? dd) && (dd <=? 31))%bool
          then Some (1000 * a + 100 * b + 10 * c + d, m, dd)
          else None
      | _, _, _, _, _, _, _, _ => None
      end
  | _ => None
  end.

(** Days from 1970-01-01 to the civil date [y]-[m]-[d]. *)
Definition days_from_civil (y m d : Z) : Z :=
  let y' := if m <=? 2 then y - 1 else y in
  let era := y' / 400 in
  let yoe := y' - era * 400 in
  let mp := if 2 <? m then m - 3 else m + 9 in
  let doy := (153 * mp + 2) / 5 + d - 1 in
  let doe := yoe * 365 + yoe / 4 - yoe / 100 + doy in
  era * 146097 + doe - 719468.

(** [new Date(s)] restricted to date-only ISO strings; any other string is
    an Invalid Date for this parser. *)
Definition Date_parse_iso (s : JSString) : Date :=
  match iso_ymd s with
  | Some (y, m, d) => TimeValue (days_from_civil y m d * msPerDay)
  | None => InvalidDate
  end.


(* ================================================================== *)
(** * Values shared by the two servers *)

(** The [id] of an entry: an INTEGER rowid in the SQLite server, the string
    of cell A in the Sheets server. *)
Inductive IdVal : Type :=
| IdNum (n : Z)
| IdStr (s : JSString).

Definition IdVal_eqb (a b : IdVal) : bool :=
  match a, b with
  | IdNum x, IdNum y => x =? y
  | IdStr x, IdStr y => JSString_eqb x y
  | _, _ => false
  end.

(** [a < b] on two ids of the same kind (numbers by value, strings by code
    units). *)
Definition IdVal_ltb (a b : IdVal) : bool :=
  match a, b with
  | IdNum x, IdNum y => x <? y
  | IdStr x, IdStr y =>
      match text_compare x y with Lt => true | _ => false end
  | _, _ => false
  end.

(** A number of which the code only asks whether it is [0] or [1]:
    every result that is not an integer (NaN, a fraction, an infinity) is
    [NotInteger]. *)
Inductive JSNumber : Type :=
| NotInteger
| Integer (z : Z).

Definition is_zero (n : JSNumber) : bool :=
  match n with
  | Integer 0 => true
  | _ => false
  end.

(** One row of [entries], as the handlers see it. *)
Record Entry : Type := mkEntry {
  id : IdVal;
  url : JSString;
  event_date : JSString;
  created_at : JSString;
  emailed : JSNumber
}.

(** What [getLinkPreview] resolves to; an absent property is [None]. *)
Record Preview : Type := mkPreview {
  p_title : option JSString;
  p_description : option JSString;
  p_images : option (list JSString)
}.

(** [x || y] where [x] is an optional string and [y] a string. *)
Definition or_else (x : option JSString) (y : JSString) : JSString :=
  match x with
  | Some s => if truthy s then s else y
  | None => y
  end.

(** [preview.images?.[0] || null]; [None] is [null]. *)
Definition first_image (imgs : option (list JSString)) : option JSString :=
  match imgs with
  | Some (i :: _) => if truthy i then Some i else None
  | _ => None
  end.

(** An error value, with its [message]. *)
Record Error : Type := mkError { message : JSString }.

(** The outcome of an awaited call inside [try]. *)
Inductive Result (A : Type) : Type :=
| Ok (a : A)
| Throw (e : Error).
Arguments Ok {A} a.
Arguments Throw {A} e.

(** What [resend.emails.send] does with a request: it resolves to
    [{data}], resolves to [{error}], or rejects. *)
Inductive SendOutcome : Type :=
| SendData (data_id : option JSString)
| SendError (e : Error)
| SendRejects (e : Error).

Definition send_failed (o : SendOutcome) : Prop :=
  match o with
  | SendData _ => False
  | _ => True
  end.

(** Lines written with [console.log] and [console.error].  The last one
    is not written by [server.js]: it is the report that Node prints for an
    ['error'] event that has no listener, after which the process exits. *)
Inductive LogLine : Type :=
| LogPreviewFailed (u : JSString)
| LogResendError
| LogEmailSent (data_id : option JSString)
| LogEmailFailed
| LogNewsletterSent
| LogConditionsNotMet
| LogCronError
| LogUncaughtError.

(** An HTTP response: the status and the JSON body. *)
Inductive Json : Type :=
| JError (msg : string)
| JSuccess (new_id : IdVal).

Record Response : Type := mkResponse {
  status : Z;
  json : Json
}.

(** The body of [POST /submit] ([req.body.url], [req.body.date]); a missing
    field is [None]. *)
Record Body : Type := mkBody {
  b_url : option JSString;
  b_date : option JSString
}.

(* ================================================================== *)
(** * Sorting *)

Section StableSort.
Context {A : Type}.

(** [after a b]: the order puts [a] strictly after [b]. *)
Variable after : A -> A -> bool.

Fixpoint insert_sorted (x : A) (l : list A) : list A :=
  match l with
  | [] => [x]
  | y :: l' => if after x y then y :: insert_sorted x l' else x :: l
  end.

(** A stable sort: elements that the order does not separate keep their
    order. *)
Definition stable_sort (l : list A) : list A :=
  fold_right insert_sorted [] l.
End StableSort.

(** [arr.sort(compareFn)]: [compareFn a b] is a number or NaN ([None]).
    For a consistent comparator the language fixes the result: the sorted
    arrangement in which elements that compare equal keep their order, and
    that is what this computes.  Where [compareFn] gives NaN it is not
    consistent, and the language leaves the order to the engine: the result
    is then still an arrangement of the same elements, but its order here
    (NaN counted as [0]) need not be the engine's.  The order of the result
    is therefore stated below for comparators without NaN only. *)
Definition Array_sort {A : Type} (compareFn : A -> A -> option Z)
  (arr : list A) : list A :=
  stable_sort (fun a b => num_gt (compareFn a b) 0) arr.

(** [ORDER BY key ASC] on TEXT keys, see [text_compare] for the keys on
    which this is SQLite's order.  Rows with equal keys come in the order
    of the scan, which is table order: SQLite's sorter merges its runs
    keeping the earlier row first. *)
Definition ORDER_BY_ASC {A : Type} (key : A -> JSString) (rows : list A)
  : list A :=
  stable_sort
    (fun a b => match text_compare (key a) (key b) with
                | Gt => true
                | _ => false
                end) rows.

(** [ORDER BY key DESC] on TEXT keys, rows with equal keys in table
    order. *)
Definition ORDER_BY_DESC {A : Type} (key : A -> JSString) (rows : list A)
  : list A :=
  stable_sort
    (fun a b => match text_compare (key a) (key b) with
                | Lt => true
                | _ => false
                end) rows.

(* ================================================================== *)
(** * The SQLite-backed server

    The first variant in [server.js], lines 1 to 360. *)

Module Sqlite.

(** [{...e, title, description, image}]; a [null] image is [None]. *)
Record Enriched : Type := mkEnriched {
  entry : Entry;
  title : JSString;
  description : JSString;
  image : option JSString
}.

(** The request handed to [resend.emails.send]: the subject counts the
    items, and the HTML body is the items in this order between a header and
    a footer that carry the issue date. *)
Record Email : Type := mkEmail {
  items : list Enriched;
  issueDate : JSString;
  subject_count : nat
}.

(** The database: table [entries] in rowid order, the value of the row
    ['last_email_sent'] of table [meta] if there is one, and the largest
    rowid handed out so far (AUTOINCREMENT). *)
Record Db : Type := mkDb {
  entries : list Entry;
  last_email_sent : option JSString;
  seq : Z
}.

Record World : Type := mkWorld {
  db : Db;
  outbox : list Email;
  console : list LogLine
}.

(** What the outside answers while one handler runs. *)
Record Env : Type := mkEnv {
  tz : Z;                          (* offset of local time from UTC, in ms *)
  now : Z;                         (* [new Date()] when the handler starts *)
  now_issue : Z;                   (* [new Date()] in [sendNewsletter] *)
  now_ledger : Z;                  (* [new Date()] in [updateLastEmailSent] *)
  current_timestamp : JSString;    (* CURRENT_TIMESTAMP of an INSERT *)
  all_error : option Error;        (* [err] of [db.all] *)
  get_error : bool;                (* [db.get] on [meta] fails *)
  mark_error : bool;               (* the UPDATE of [entries] fails *)
  ledger_error : bool;             (* the INSERT OR REPLACE fails, or the
                                      process has exited before it runs *)
  insert_error : option Error;     (* an error of the INSERT that is not a
                                      constraint violation *)
  getLinkPreview : JSString -> option Preview;   (* what the fetch of a URL
                                      gives in this run; [None]: it rejects *)
  resend_emails_send : Email -> SendOutcome
}.

Definition log (w : World) (l : list LogLine) : World :=
  mkWorld (db w) (outbox w) (console w ++ l).

Definition set_db (w : World) (d : Db) : World :=
  mkWorld d (outbox w) (console w).

Section Handlers.
(** [new Date(s)] on a string. *)
Variable Date_parse : JSString -> Date.
(** [Date.prototype.toISOString] on a time value. *)
Variable toISOString : Z -> JSString.

(** [getLastEmailSent] (lines 54-64): the Date of the stored value, or
    [null] when there is no row or the read fails. *)
Definition getLastEmailSent (env : Env) (d : Db) : option Date :=
  if get_error env then None
  else match last_email_sent d with
       | Some value => Some (Date_parse value)
       | None => None
       end.

(** [updateLastEmailSent] (lines 66-73), as the change of the database.
    [db.run] is given no callback: a statement that fails leaves the row as
    it was and is reported as an ['error'] event, see [uncaught]. *)
Definition updateLastEmailSent (env : Env) (d : Db) : Db :=
  if ledger_error env then d
  else mkDb (entries d) (Some (toISOString (now_ledger env))) (seq d).

(** [SELECT * FROM entries WHERE emailed = 0 ORDER BY event_date ASC]. *)
Definition SELECT_unemailed (d : Db) : list Entry :=
  ORDER_BY_ASC event_date
    (filter (fun e => is_zero (emailed e)) (entries d)).

(** [getUnemailedEntries] (lines 75-85): rejects with [err], or resolves
    to the rows. *)
Definition getUnemailedEntries (env : Env) (d : Db) : Result (list Entry) :=
  match all_error env with
  | Some err => Throw err
  | None => Ok (SELECT_unemailed d)
  end.

(** [markEntriesEmailed] (lines 87-93):
    [UPDATE entries SET emailed = 1 WHERE id IN (ids)], as the change of
    the database.  [db.run] is given no callback: a statement that fails
    leaves the table as it was and is reported as an ['error'] event, see
    [uncaught]. *)
Definition markEntriesEmailed (env : Env) (ids : list IdVal) (d : Db) : Db :=
  if mark_error env then d
  else mkDb
         (map (fun e =>
                 if existsb (IdVal_eqb (id e)) ids
                 then mkEntry (id e) (url e) (event_date e) (created_at e)
                        (Integer 1)
                 else e) (entries d))
         (last_email_sent d) (seq d).

(** The body of the [entries.map] callback of [sendNewsletter]
    (lines 104-123): the [try] branch and the [catch] branch. *)
Definition enrich (env : Env) (e : Entry) : Enriched :=
  match getLinkPreview env (url e) with
  | Some preview =>
      mkEnriched e
        (or_else (p_title preview) (url e))
        (or_else (p_description preview) [])
        (first_image (p_images preview))
  | None => mkEnriched e (url e) [] None
  end.

(** The lines that the failed fetches log, in entry order (the order in
    which the parallel fetches settle is not modelled). *)
Definition preview_logs (env : Env) (es : list Entry) : list LogLine :=
  flat_map (fun e => match getLinkPreview env (url e) with
                     | Some _ => []
                     | None => [LogPreviewFailed (url e)]
                     end) es.

(** The request that [sendNewsletter] builds from the entries. *)
Definition digest (env : Env) (es : list Entry) : Email :=
  let enriched := map (enrich env) es in
  mkEmail enriched (firstn 10 (toISOString (now_issue env)))
    (length enriched).

(** [sendNewsletter] (lines 99-232): [Ok false] is the early [return],
    [Ok true] the [return true], [Throw] the rethrown error. *)
Definition sendNewsletter (env : Env) (es : list Entry) (w : World)
  : World * Result bool :=
  if (length es =? 0)%nat then (w, Ok false)
  else
    let w1 := log w (preview_logs env es) in
    let email := digest env es in
    match resend_emails_send env email with
    | SendData data_id =>
        (mkWorld (db w1) (outbox w1 ++ [email])
           (console w1 ++ [LogEmailSent data_id]), Ok true)
    | SendError error =>
        (log w1 [LogResendError; LogEmailFailed], Throw error)
    | SendRejects err =>
        (log w1 [LogEmailFailed], Throw err)
    end.

(** [new Date(now.getTime() + 7 * 24 * 60 * 60 * 1000)] (lines 245-247). *)
Definition sevenDaysFromNow (now : Z) : Date :=
  TimeClip (now + 7 * 24 * 60 * 60 * 1000).

(** [entries.some((e) => new Date(e.event_date) <= sevenDaysFromNow)]
    (lines 249-251). *)
Definition conditionA (es : list Entry) (now : Z) : bool :=
  existsb (fun e => Date_le (Date_parse (event_date e))
                      (sevenDaysFromNow now)) es.

(** [entries.length >= 7] (line 253). *)
Definition conditionB (es : list Entry) : bool :=
  (7 <=? length es)%nat.

(** [!lastSent || now - lastSent > 21 * 24 * 60 * 60 * 1000]
    (lines 256-258); [None] is [null]. *)
Definition conditionC (lastSent : option Date) (now : Z) : bool :=
  match lastSent with
  | None => true
  | Some d => num_gt (Date_sub (TimeValue now) d) (21 * 24 * 60 * 60 * 1000)
  end.

(** What becomes of the two [db.run] calls of lines 263 and 264 once the
    handler has returned.  Neither has a callback, so the error of a failed
    statement is emitted as an ['error'] event; [server.js] registers no
    listener for it, the event is thrown as an uncaught exception, Node
    prints it and the process exits.  The database is a file and outlives
    the process. *)
Definition uncaught (env : Env) (w : World) : World :=
  if mark_error env || ledger_error env then log w [LogUncaughtError]
  else w.

(** [evaluateAndSend] (lines 239-272); the [catch] logs and returns. *)
Definition evaluateAndSend (env : Env) (w : World) : World :=
  match getUnemailedEntries env (db w) with
  | Throw err => log w [LogCronError]
  | Ok es =>
      if (length es =? 0)%nat then w
      else
        let a := conditionA es (now env) in
        let b := conditionB es in
        let lastSent := getLastEmailSent env (db w) in
        let c := conditionC lastSent (now env) in
        if a || b || c then
          match sendNewsletter env es w with
          | (w1, Throw err) => log w1 [LogCronError]
          | (w1, Ok _) =>
              let w2 := set_db w1 (markEntriesEmailed env (map id es) (db w1)) in
              let w3 := set_db w2 (updateLastEmailSent env (db w2)) in
              uncaught env (log w3 [LogNewsletterSent])
          end
        else log w [LogConditionsNotMet]
  end.

(** The verdict that [evaluateAndSend] reaches on the pending entries
    (lines 242 and 261): nothing is sent for an empty list (the early
    [return]), otherwise the three conditions are or-ed. *)
Definition shouldSend (es : list Entry) (lastSent : option Date) (now : Z)
  : bool :=
  if (length es =? 0)%nat then false
  else conditionA es now || conditionB es || conditionC lastSent now.

(** [INSERT INTO entries (url, event_date) VALUES (?, ?)] (lines 306-308)
    on the table of lines 32-38: [url] is
    UNIQUE, [id] is the next rowid, [created_at] and [emailed] take their
    defaults. *)
Definition INSERT_entry (env : Env) (u date : JSString) (d : Db)
  : Result (Z * Db) :=
  match insert_error env with
  | Some err => Throw err
  | None =>
      if array_includes (map url (entries d)) u
      then Throw (mkError
                    (lit "SQLITE_CONSTRAINT: UNIQUE constraint failed: entries.url"))
      else
        let lastID := seq d + 1 in
        Ok (lastID,
            mkDb (entries d ++
                    [mkEntry (IdNum lastID) u date (current_timestamp env)
                       (Integer 0)])
              (last_email_sent d) lastID)
  end.

(** The date test of [/submit] (lines 294-300): [submittedDate < today],
    both set to the start of their local day. *)
Definition submittedInPast (env : Env) (date : JSString) : bool :=
  let today := setHours0 (tz env) (TimeValue (now env)) in
  let submittedDate := setHours0 (tz env) (Date_parse date) in
  Date_lt submittedDate today.

(** [app.post("/submit", ...)] (lines 285-322). *)
Definition submit (env : Env) (body : Body) (d : Db) : Response * Db :=
  let url := option_map trim (b_url body) in
  let date := b_date body in
  match url, date with
  | Some url, Some date =>
      if negb (truthy url) || negb (truthy date)
      then (mkResponse 400 (JError "Missing url or date"), d)
      else
        if submittedInPast env date
        then (mkResponse 400 (JError "Date cannot be in the past"), d)
        else
          match INSERT_entry env url date d with
          | Throw err =>
              if includes (message err) (lit "UNIQUE")
              then (mkResponse 409 (JError "URL already submitted"), d)
              else (mkResponse 500 (JError "DB error"), d)
          | Ok (lastID, d') =>
              (mkResponse 200 (JSuccess (IdNum lastID)), d')
          end
  | _, _ => (mkResponse 400 (JError "Missing url or date"), d)
  end.

(** The answer of [/admin/entries]: the rows as JSON, or a status with a
    text. *)
Inductive AdminResponse : Type :=
| AdminRows (rows : list Entry)
| AdminFailure (status : Z) (text : string).

(** [app.get("/admin/entries", ...)] (lines 349-360):
    [SELECT * FROM entries ORDER BY created_at DESC]; [err] is the error of
    [db.all], if any. *)
Definition admin_entries (err : option Error) (d : Db) : AdminResponse :=
  match err with
  | Some _ => AdminFailure 500 "DB error"
  | None => AdminRows (ORDER_BY_DESC created_at (entries d))
  end.
End Handlers.

End Sqlite.

(* ================================================================== *)
(** * The Sheets-backed server

    The second variant in [server.js], lines 361 to 708. *)

Module Sheets.

(** One data row of the sheet [entries] (columns A to E, from row 2), as
    [values.get] returns it: [r[0]] to [r[4]] as strings, an empty or
    missing cell being the empty string. *)
Record Row : Type := mkRow {
  r0 : JSString;
  r1 : JSString;
  r2 : JSString;
  r3 : JSString;
  r4 : JSString
}.

(** [{...e, title, description}]: this server keeps no image. *)
Record Enriched : Type := mkEnriched {
  entry : Entry;
  title : JSString;
  description : JSString
}.

Record Email : Type := mkEmail {
  items : list Enriched;
  issueDate : JSString;
  subject_count : nat
}.

(** The spreadsheet, the in-memory [lastEmailSent] ([None] is [null]), the
    mails the provider accepted and the console. *)
Record World : Type := mkWorld {
  sheet : list Row;
  lastEmailSent : option Date;
  outbox : list Email;
  console : list LogLine
}.

Record Env : Type := mkEnv {
  tz : Z;                          (* offset of local time from UTC, in ms *)
  now : Z;                         (* [new Date()] when the handler starts *)
  now_issue : Z;                   (* [new Date()] in [sendNewsletter] *)
  now_ledger : Z;                  (* [new Date()] in [updateLastEmailSent] *)
  now_id : Z;                      (* [Date.now()] of [/submit] *)
  now_created : Z;                 (* [new Date()] of the appended row *)
  read_error : option Error;       (* [values.get] of [getUnemailedEntries] *)
  mark_get_error : option Error;   (* [values.get] of [markEntriesEmailed] *)
  mark_update_error : option Error;(* [values.update] *)
  submit_get_error : option Error; (* [values.get] of [/submit] *)
  append_error : option Error;     (* [values.append] *)
  getLinkPreview : JSString -> option Preview;   (* what the fetch of a URL
                                      gives in this run; [None]: it rejects *)
  resend_emails_send : Email -> SendOutcome
}.

Definition log (w : World) (l : list LogLine) : World :=
  mkWorld (sheet w) (lastEmailSent w) (outbox w) (console w ++ l).

Definition set_sheet (w : World) (s : list Row) : World :=
  mkWorld s (lastEmailSent w) (outbox w) (console w).

Section Handlers.
(** [new Date(s)] on a string. *)
Variable Date_parse : JSString -> Date.
(** [Number(s)] on a non-empty string. *)
Variable Number : JSString -> JSNumber.
(** [Date.prototype.toISOString] on a time value. *)
Variable toISOString : Z -> JSString.

(** [getLastEmailSent] (lines 399-401). *)
Definition getLastEmailSent (w : World) : option Date := lastEmailSent w.

(** [updateLastEmailSent] (lines 403-405). *)
Definition updateLastEmailSent (env : Env) (w : World) : World :=
  mkWorld (sheet w) (Some (TimeValue (now_ledger env))) (outbox w)
    (console w).

(** The object that the [rows.map] callback of [getUnemailedEntries]
    builds (lines 429-435); [Number(r[4] || 0)] is [0] on an empty cell. *)
Definition row_entry (r : Row) : Entry :=
  mkEntry (IdStr (r0 r)) (r1 r) (r2 r) (r3 r)
    (if truthy (r4 r) then Number (r4 r) else Integer 0).

(** [rows.map(...).filter(...).sort(...)] of [getUnemailedEntries]
    (lines 428-437). *)
Definition unemailed_of_rows (rows : list Row) : list Entry :=
  Array_sort
    (fun a b => Date_sub (Date_parse (event_date a))
                  (Date_parse (event_date b)))
    (filter (fun r => is_zero (emailed r)) (map row_entry rows)).

(** [getUnemailedEntries] (lines 420-438): the read of the sheet throws,
    or the pending entries are returned. *)
Definition getUnemailedEntries (env : Env) (w : World)
  : Result (list Entry) :=
  match read_error env with
  | Some err => Throw err
  | None => Ok (unemailed_of_rows (sheet w))
  end.

(** [markEntriesEmailed] (lines 440-461): reads the rows again, sets
    [r[4] = 1] where [ids.includes(r[0])], and writes all rows back. *)
Definition markEntriesEmailed (env : Env) (ids : list IdVal) (w : World)
  : World * Result unit :=
  match mark_get_error env with
  | Some err => (w, Throw err)
  | None =>
      let updated :=
        map (fun r =>
               if existsb (IdVal_eqb (IdStr (r0 r))) ids
               then mkRow (r0 r) (r1 r) (r2 r) (r3 r) (lit "1")
               else r) (sheet w) in
      match mark_update_error env with
      | Some err => (w, Throw err)
      | None => (set_sheet w updated, Ok tt)
      end
  end.

(** The body of the [entries.map] callback of [sendNewsletter]
    (lines 470-485): the [try] branch and the [catch] branch. *)
Definition enrich (env : Env) (e : Entry) : Enriched :=
  match getLinkPreview env (url e) with
  | Some preview =>
      mkEnriched e
        (or_else (p_title preview) (url e))
        (or_else (p_description preview) [])
  | None => mkEnriched e (url e) []
  end.

(** The request that [sendNewsletter] builds from the entries. *)
Definition digest (env : Env) (es : list Entry) : Email :=
  let enriched := map (enrich env) es in
  mkEmail enriched (firstn 10 (toISOString (now_issue env)))
    (length enriched).

(** [sendNewsletter] (lines 466-577): [Ok false] is the early [return],
    [Ok true] the normal end, [Throw] the error of the provider. *)
Definition sendNewsletter (env : Env) (es : list Entry) (w : World)
  : World * Result bool :=
  if (length es =? 0)%nat then (w, Ok false)
  else
    let email := digest env es in
    match resend_emails_send env email with
    | SendData data_id =>
        (mkWorld (sheet w) (lastEmailSent w) (outbox w ++ [email])
           (console w ++ [LogEmailSent data_id]), Ok true)
    | SendError error => (w, Throw error)
    | SendRejects err => (w, Throw err)
    end.

(** [new Date(now.getTime() + 7 * 24 * 60 * 60 * 1000)] (lines 588-590). *)
Definition sevenDaysFromNow (now : Z) : Date :=
  TimeClip (now + 7 * 24 * 60 * 60 * 1000).

(** [entries.some((e) => new Date(e.event_date) <= sevenDaysFromNow)]
    (lines 592-594). *)
Definition conditionA (es : list Entry) (now : Z) : bool :=
  existsb (fun e => Date_le (Date_parse (event_date e))
                      (sevenDaysFromNow now)) es.

(** [entries.length >= 7] (line 596). *)
Definition conditionB (es : list Entry) : bool :=
  (7 <=? length es)%nat.

(** [!lastSent || now - lastSent > 21 * 24 * 60 * 60 * 1000]
    (lines 599-601); [None] is [null]. *)
Definition conditionC (lastSent : option Date) (now : Z) : bool :=
  match lastSent with
  | None => true
  | Some d => num_gt (Date_sub (TimeValue now) d) (21 * 24 * 60 * 60 * 1000)
  end.

(** [evaluateAndSend] (lines 582-614); the [catch] logs and returns. *)
Definition evaluateAndSend (env : Env) (w : World) : World :=
  match getUnemailedEntries env w with
  | Throw err => log w [LogCronError]
  | Ok es =>
      if (length es =? 0)%nat then w
      else
        let a := conditionA es (now env) in
        let b := conditionB es in
        let lastSent := getLastEmailSent w in
        let c := conditionC lastSent (now env) in
        if a || b || c then
          match sendNewsletter env es w with
          | (w1, Throw err) => log w1 [LogCronError]
          | (w1, Ok _) =>
              match markEntriesEmailed env (map id es) w1 with
              | (w2, Throw err) => log w2 [LogCronError]
              | (w2, Ok _) =>
                  log (updateLastEmailSent env w2) [LogNewsletterSent]
              end
          end
        else log w [LogConditionsNotMet]
  end.

(** The verdict that [evaluateAndSend] reaches on the pending entries
    (lines 585 and 603): nothing is sent for an empty list (the early
    [return]), otherwise the three conditions are or-ed. *)
Definition shouldSend (es : list Entry) (lastSent : option Date) (now : Z)
  : bool :=
  if (length es =? 0)%nat then false
  else conditionA es now || conditionB es || conditionC lastSent now.

(** [(existing.data.values || []).flat()] on column B (line 655): a row
    whose cell is empty comes back as an empty array. *)
Definition column_B (s : list Row) : list JSString :=
  flat_map (fun r => if truthy (r1 r) then [r1 r] else []) s.

(** The date test of [/submit] (lines 636-642): [submittedDate < today],
    both set to the start of their local day. *)
Definition submittedInPast (env : Env) (date : JSString) : bool :=
  let today := setHours0 (tz env) (TimeValue (now env)) in
  let submittedDate := setHours0 (tz env) (Date_parse date) in
  Date_lt submittedDate today.

(** [app.post("/submit", ...)] (lines 627-677). *)
Definition submit (env : Env) (body : Body) (s : list Row)
  : Response * list Row :=
  let url := option_map trim (b_url body) in
  let date := b_date body in
  match url, date with
  | Some url, Some date =>
      if negb (truthy url) || negb (truthy date)
      then (mkResponse 400 (JError "Missing url or date"), s)
      else
        if submittedInPast env date
        then (mkResponse 400 (JError "Date cannot be in the past"), s)
        else
          match submit_get_error env with
          | Some err => (mkResponse 500 (JError "Sheets error"), s)
          | None =>
              let urls := column_B s in
              if array_includes urls url
              then (mkResponse 409 (JError "URL already submitted"), s)
              else
                let id := Z_toString (now_id env) in
                match append_error env with
                | Some err => (mkResponse 500 (JError "Sheets error"), s)
                | None =>
                    (mkResponse 200 (JSuccess (IdStr id)),
                     s ++ [mkRow id url date
                             (toISOString (now_created env)) (lit "0")])
                end
          end
  | _, _ => (mkResponse 400 (JError "Missing url or date"), s)
  end.
End Handlers.

End Sheets.

(* ================================================================== *)
(** * Vocabulary of the properties *)

(** The entries that are pending in a table or a sheet, in store order. *)
Definition unsent (es : list Entry) : list Entry :=
  filter (fun e => is_zero (emailed e)) es.









(** [a] stands before [b] in ascending order of [id]. *)
Definition id_lt (a b : Entry) : Prop := IdVal_ltb (id a) (id b) = true.

(** The rows are listed in ascending order of [id]: the order of a scan of
    the table [entries], whose [id] is the rowid, and the order of a sheet
    to which rows were appended with a clock that went forward. *)
Definition in_id_order (es : list Entry) : Prop := StronglySorted id_lt es.


(** [t] is a time value that a Date can hold. *)
Definition is_time_value (t : Z) : Prop := Z.abs t <= maxTime.

(** A string of WhiteSpace and LineTerminator code units only. *)
Definition blank (s : JSString) : Prop :=
  Forall (fun c => is_whitespace c = true) s.


(** A row without its flag. *)
Definition row_core (e : Entry) : IdVal * JSString * JSString * JSString :=
  (id e, url e, event_date e, created_at e).

Definition sheet_row_core (r : Sheets.Row)
  : JSString * JSString * JSString * JSString :=
  (Sheets.r0 r, Sheets.r1 r, Sheets.r2 r, Sheets.r3 r).

(** Every id of the table is a rowid that has been handed out. *)
Definition ids_below (d : Sqlite.Db) : Prop :=
  Forall (fun e => exists n, id e = IdNum n /\ n <= Sqlite.seq d)
    (Sqlite.entries d).

(** [a] was created not before [b], as TEXT values. *)
Definition created_ge (a b : Entry) : Prop :=
  text_leb (created_at b) (created_at a) = true.

(** The number of the local calendar day that contains the instant [t], in
    a zone whose local time is UTC plus [tz] milliseconds. *)
Definition local_day (tz t : Z) : Z := (t + tz) / msPerDay.

(** The time values for which the start of the local day is a time value
    too. *)
Definition in_calendar_range (t : Z) : Prop := Z.abs t <= maxTime - msPerDay.

(* ================================================================== *)
(** * Concrete built-ins and data for the examples *)

(** The civil date of a day number (days since 1970-01-01). *)
Definition civil_from_days (z : Z) : Z * Z * Z :=
  let z' := z + 719468 in
  let era := z' / 146097 in
  let doe := z' - era * 146097 in
  let yoe := (doe - doe / 1460 + doe / 36524 - doe / 146096) / 365 in
  let y := yoe + era * 400 in
  let doy := doe - (365 * yoe + yoe / 4 - yoe / 100) in
  let mp := (5 * doy + 2) / 153 in
  let d := doy - (153 * mp + 2) / 5 + 1 in
  let m := if mp <? 10 then mp + 3 else mp - 9 in
  (if m <=? 2 then y + 1 else y, m, d).

Definition pad (width : nat) (z : Z) : JSString :=
  let s := Z_toString z in
  repeat 48%N (width - length s) ++ s.

(** [toISOString] for the years 0000 to 9999. *)
Definition toISOString_utc (t : Z) : JSString :=
  let '(y, m, d) := civil_from_days (t / msPerDay) in
  let ms := t mod msPerDay in
  pad 4 y ++ lit "-" ++ pad 2 m ++ lit "-" ++ pad 2 d ++ lit "T"
    ++ pad 2 (ms / 3600000) ++ lit ":" ++ pad 2 ((ms / 60000) mod 60)
    ++ lit ":" ++ pad 2 ((ms / 1000) mod 60) ++ lit "."
    ++ pad 3 (ms mod 1000) ++ lit "Z".

Fixpoint decimal_value (acc : Z) (s : JSString) : option Z :=
  match s with
  | [] => Some acc
  | c :: s' =>
      match digit c with
      | Some v => decimal_value (10 * acc + v) s'
      | None => None
      end
  end.

(** [Number] on strings of decimal digits; other strings are outside the
    integers for this function. *)
Definition Number_decimal (s : JSString) : JSNumber :=
  match decimal_value 0 s with
  | Some z => Integer z
  | None => NotInteger
  end.

Definition two_digits (a b : N) : option Z :=
  match digit a, digit b with
  | Some x, Some y => Some (10 * x + y)
  | _, _ => None
  end.

(** The milliseconds of the day of [THH:mm:ss.sssZ]. *)
Definition iso_time (s : JSString) : option Z :=
  match s with
  | [t; h1; h2; c1; m1; m2; c2; s1; s2; dot; f1; f2; f3; z] =>
      match two_digits h1 h2, two_digits m1 m2, two_digits s1 s2,
            digit f1, digit f2, digit f3 with
      | Some h, Some m, Some sec, Some a, Some b, Some c =>
          if (N.eqb t 84 && N.eqb c1 58 && N.eqb c2 58 && N.eqb dot 46
              && N.eqb z 90 && (h <? 24) && (m <? 60) && (sec <? 60))%bool
          then Some (h * 3600000 + m * 60000 + sec * 1000
                     + 100 * a + 10 * b + c)
          else None
      | _, _, _, _, _, _ => None
      end
  | _ => None
  end.

(** [new Date(s)] on [YYYY-MM-DD] and on [YYYY-MM-DDTHH:mm:ss.sssZ]; any
    other string is an Invalid Date for this parser. *)
Definition Date_parse_utc (s : JSString) : Date :=
  match iso_ymd (firstn 10 s), skipn 10 s with
  | Some (y, m, d), [] => TimeValue (days_from_civil y m d * msPerDay)
  | Some (y, m, d), rest =>
      match iso_time rest with
      | Some ms => TimeValue (days_from_civil y m d * msPerDay + ms)
      | None => InvalidDate
      end
  | None, _ => InvalidDate
  end.

Module Examples.

Definition hour : Z := 60 * 60 * 1000.

(** 2025-01-10T09:00:00.000Z. *)
Definition now0 : Z := 1736499600000.

Definition accept_all {E : Type} (m : E) : SendOutcome :=
  SendData (Some (lit "re_1")).

Definition refuse_all {E : Type} (m : E) : SendOutcome :=
  SendError (mkError (lit "validation_error")).

Definition no_preview (u : JSString) : option Preview := None.

Definition some_preview (u : JSString) : option Preview :=
  Some (mkPreview (Some (lit "A call for papers")) (Some (lit "Deadline soon"))
          (Some [lit "https://example.org/a.png"])).

(** Fetching fails for [https://example.org/b] only. *)
Definition flaky_preview (u : JSString) : option Preview :=
  if JSString_eqb u (lit "https://example.org/b") then None
  else some_preview u.

Definition entry_of (n : Z) (u date : string) : Entry :=
  mkEntry (IdNum n) (lit u) (lit date) (lit "2025-01-02 08:00:00")
    (Integer 0).

Definition e_soon : Entry := entry_of 2 "https://example.org/a" "2025-01-13".
Definition e_late : Entry := entry_of 1 "https://example.org/b" "2025-03-20".


Definition sqlite_env (fetch : JSString -> option Preview)
  (send : Sqlite.Email -> SendOutcome) : Sqlite.Env :=
  Sqlite.mkEnv 0 now0 (now0 + 1) (now0 + 2) (lit "2025-01-10 09:00:00")
    None false false false None fetch send.

Definition sheets_env (fetch : JSString -> option Preview)
  (send : Sheets.Email -> SendOutcome) : Sheets.Env :=
  Sheets.mkEnv 0 now0 (now0 + 1) (now0 + 2) (now0 + 3) (now0 + 4)
    None None None None None fetch send.

Definition empty_db : Sqlite.Db := Sqlite.mkDb [] None 0.
Definition empty_sqlite : Sqlite.World := Sqlite.mkWorld empty_db [] [].
Definition empty_sheets : Sheets.World := Sheets.mkWorld [] None [] [].

(** A table with two pending rows and one row already mailed. *)
Definition db2 : Sqlite.Db :=
  Sqlite.mkDb
    [ e_late; e_soon;
      mkEntry (IdNum 3) (lit "https://example.org/c") (lit "2024-12-01")
        (lit "2024-11-02 08:00:00") (Integer 1) ]
    (Some (lit "2025-01-01T09:00:00.000Z")) 3.

Definition sqlite2 : Sqlite.World := Sqlite.mkWorld db2 [] [].

Definition row_of (i u date sent : string) : Sheets.Row :=
  Sheets.mkRow (lit i) (lit u) (lit date) (lit "2025-01-02T08:00:00.000Z")
    (lit sent).

(** A sheet with two pending rows and one row already mailed. *)
Definition sheet2 : list Sheets.Row :=
  [ row_of "1735804800000" "https://example.org/b" "2025-03-20" "0";
    row_of "1735804800500" "https://example.org/a" "2025-01-13" "0";
    row_of "1733000000000" "https://example.org/c" "2024-12-01" "1" ].

Definition sheets2 : Sheets.World :=
  Sheets.mkWorld sheet2 (Some (TimeValue (now0 - 9 * msPerDay))) [] [].






(** A table and a sheet in which every row has been mailed, the last
    send being thirty days old. *)
Definition db_all_sent : Sqlite.Db :=
  Sqlite.mkDb
    [ mkEntry (IdNum 1) (lit "https://example.org/a") (lit "2025-01-13")
        (lit "2024-12-02 08:00:00") (Integer 1) ]
    (Some (lit "2024-12-11T09:00:00.000Z")) 1.

Definition sqlite_all_sent : Sqlite.World :=
  Sqlite.mkWorld db_all_sent [] [].

Definition sheets_all_sent : Sheets.World :=
  Sheets.mkWorld
    [ row_of "1733126400000" "https://example.org/a" "2025-01-13" "1" ]
    (Some (TimeValue (now0 - 30 * msPerDay))) [] [].

(** The last send was yesterday. *)
Definition yesterday : option Date := Some (TimeValue (now0 - msPerDay)).


(** A server five hours west of Greenwich, at 2025-01-10T15:00:00Z, which
    is 10:00 of 10 January there. *)
Definition west : Z := - (5 * hour).
Definition now_west : Z := now0 + 6 * hour.

Definition sqlite_env_west : Sqlite.Env :=
  Sqlite.mkEnv west now_west (now_west + 1) (now_west + 2)
    (lit "2025-01-10 15:00:00") None false false false None no_preview
    accept_all.

Definition sheets_env_west : Sheets.Env :=
  Sheets.mkEnv west now_west (now_west + 1) (now_west + 2) (now_west + 3)
    (now_west + 4) None None None None None no_preview accept_all.

(** A submission dated 10 January 2025. *)
Definition body_today : Body :=
  mkBody (Some (lit "https://example.org/cfp")) (Some (lit "2025-01-10")).

(** The same URL with blanks around it. *)
Definition body_today_padded : Body :=
  mkBody (Some (lit "  https://example.org/cfp  ")) (Some (lit "2025-01-12")).


(** The UPDATE that marks the entries fails. *)
Definition sqlite_env_mark_fails : Sqlite.Env :=
  Sqlite.mkEnv 0 now0 (now0 + 1) (now0 + 2) (lit "2025-01-10 09:00:00")
    None false true false None flaky_preview accept_all.

(** The read of the ledger fails. *)
Definition sqlite_env_ledger_unreadable : Sqlite.Env :=
  Sqlite.mkEnv 0 now0 (now0 + 1) (now0 + 2) (lit "2025-01-10 09:00:00")
    None true false false None flaky_preview accept_all.

(** [values.update] of [markEntriesEmailed] throws. *)
Definition sheets_env_mark_fails : Sheets.Env :=
  Sheets.mkEnv 0 now0 (now0 + 1) (now0 + 2) (now0 + 3) (now0 + 4)
    None None (Some (mkError (lit "quota exceeded"))) None None
    flaky_preview accept_all.

(** A cycle ten days after [now0]. *)
Definition sqlite_env_later : Sqlite.Env :=
  Sqlite.mkEnv 0 (now0 + 10 * msPerDay) (now0 + 10 * msPerDay + 1)
    (now0 + 10 * msPerDay + 2) (lit "2025-01-20 09:00:00")
    None false false false None flaky_preview accept_all.

Definition sheets_env_later : Sheets.Env :=
  Sheets.mkEnv 0 (now0 + 10 * msPerDay) (now0 + 10 * msPerDay + 1)
    (now0 + 10 * msPerDay + 2) (now0 + 10 * msPerDay + 3)
    (now0 + 10 * msPerDay + 4) None None None None None
    flaky_preview accept_all.

End Examples.

(* ================================================================== *)
(** * The eligibility verdict *)

Lemma length_zero_false {A : Type} (x : A) (l : list A) :
  (length (x :: l) =? 0)%nat = false.
Proof. reflexivity. Qed.

Lemma nonempty_length {A : Type} (l : list A) :
  l <> [] -> (length l =? 0)%nat = false.
Proof. destruct l as [|x l]; [congruence | reflexivity]. Qed.

Lemma seven_days : 7 * 24 * 60 * 60 * 1000 = 7 * msPerDay.
Proof. reflexivity. Qed.

Lemma TimeClip_in_range (n : Z) :
  Z.abs n <= maxTime -> TimeClip n = TimeValue n.
Proof.
  intros H. unfold TimeClip.
  destruct (Z.leb_spec (Z.abs n) maxTime) as [_|Hgt]; [reflexivity | lia].
Qed.

Section Verdict.
Variable Date_parse : JSString -> Date.

Lemma Sqlite_conditionA_intro (es : list Entry) (now : Z) (e : Entry) (t : Z) :
  In e es ->
  Date_parse (event_date e) = TimeValue t ->
  Z.abs (now + 7 * msPerDay) <= maxTime ->
  t <= now + 7 * msPerDay ->
  Sqlite.conditionA Date_parse es now = true.
Proof.
  intros Hin Hparse Hrange Hle.
  unfold Sqlite.conditionA. apply existsb_exists.
  exists e. split; [assumption|].
  rewrite Hparse. unfold Sqlite.sevenDaysFromNow.
  rewrite seven_days, (TimeClip_in_range _ Hrange). simpl.
  now apply Z.leb_le.
Qed.



Lemma conditionC_stale (now t : Z) :
  now - t > 21 * msPerDay ->
  Sqlite.conditionC (Some (TimeValue t)) now = true
  /\ Sheets.conditionC (Some (TimeValue t)) now = true.
Proof.
  intros H. unfold Sqlite.conditionC, Sheets.conditionC, Date_sub, num_gt.
  split; apply Z.ltb_lt; unfold msPerDay in H; lia.
Qed.
End Verdict.

(** C1.  With no pending entry the verdict is [false] whatever [lastSent]
    and [now] are, and a cycle of either server leaves the store, the
    ledger and the outbox as they were: nothing is sent. *)
Theorem C1_empty_backlog_sends_nothing :
  forall (Date_parse : JSString -> Date) (Number : JSString -> JSNumber)
         (toISOString : Z -> JSString),
    (forall (lastSent : option Date) (now : Z),
        Sqlite.shouldSend Date_parse [] lastSent now = false
        /\ Sheets.shouldSend Date_parse [] lastSent now = false)
    /\ (forall (env : Sqlite.Env) (w : Sqlite.World),
          Sqlite.SELECT_unemailed (Sqlite.db w) = [] ->
          let w' := Sqlite.evaluateAndSend Date_parse toISOString env w in
          Sqlite.db w' = Sqlite.db w /\ Sqlite.outbox w' = Sqlite.outbox w)
    /\ (forall (env : Sheets.Env) (w : Sheets.World),
          Sheets.unemailed_of_rows Date_parse Number (Sheets.sheet w) = [] ->
          let w' := Sheets.evaluateAndSend Date_parse Number toISOString env w in
          Sheets.sheet w' = Sheets.sheet w
          /\ Sheets.lastEmailSent w' = Sheets.lastEmailSent w
          /\ Sheets.outbox w' = Sheets.outbox w).
Proof.
  intros Date_parse Number toISOString. repeat split.
  - unfold Sqlite.evaluateAndSend, Sqlite.getUnemailedEntries.
    destruct (Sqlite.all_error env); [reflexivity|].
    rewrite H. reflexivity.
  - unfold Sqlite.evaluateAndSend, Sqlite.getUnemailedEntries.
    destruct (Sqlite.all_error env); [reflexivity|].
    rewrite H. reflexivity.
  - unfold Sheets.evaluateAndSend, Sheets.getUnemailedEntries.
    destruct (Sheets.read_error env); [reflexivity|].
    rewrite H. reflexivity.
  - unfold Sheets.evaluateAndSend, Sheets.getUnemailedEntries.
    destruct (Sheets.read_error env); [reflexivity|].
    rewrite H. reflexivity.
  - unfold Sheets.evaluateAndSend, Sheets.getUnemailedEntries.
    destruct (Sheets.read_error env); [reflexivity|].
    rewrite H. reflexivity.
Qed.





(* ================================================================== *)
(** * The cycle follows the verdict *)

Section Cycle.
Variable Date_parse : JSString -> Date.
Variable Number : JSString -> JSNumber.
Variable toISOString : Z -> JSString.

(** An uncaught error changes neither the database nor the mails that
    have gone out. *)
Lemma Sqlite_uncaught_db (env : Sqlite.Env) (w : Sqlite.World) :
  Sqlite.db (Sqlite.uncaught env w) = Sqlite.db w.
Proof.
  unfold Sqlite.uncaught.
  destruct (Sqlite.mark_error env || Sqlite.ledger_error env); reflexivity.
Qed.

Lemma Sqlite_uncaught_outbox (env : Sqlite.Env) (w : Sqlite.World) :
  Sqlite.outbox (Sqlite.uncaught env w) = Sqlite.outbox w.
Proof.
  unfold Sqlite.uncaught.
  destruct (Sqlite.mark_error env || Sqlite.ledger_error env); reflexivity.
Qed.

(** A cycle of the SQLite server calls [sendNewsletter] exactly when the
    verdict on the pending entries is [true]. *)
Lemma Sqlite_cycle_by_verdict (env : Sqlite.Env) (w : Sqlite.World) :
  Sqlite.all_error env = None ->
  let es := Sqlite.SELECT_unemailed (Sqlite.db w) in
  let lastSent := Sqlite.getLastEmailSent Date_parse env (Sqlite.db w) in
  Sqlite.evaluateAndSend Date_parse toISOString env w =
  if Sqlite.shouldSend Date_parse es lastSent (Sqlite.now env) then
    match Sqlite.sendNewsletter toISOString env es w with
    | (w1, Throw _) => Sqlite.log w1 [LogCronError]
    | (w1, Ok _) =>
        Sqlite.uncaught env
          (Sqlite.log
             (Sqlite.set_db w1
                (Sqlite.updateLastEmailSent toISOString env
                   (Sqlite.markEntriesEmailed env (map id es) (Sqlite.db w1))))
             [LogNewsletterSent])
    end
  else if (length es =? 0)%nat then w
       else Sqlite.log w [LogConditionsNotMet].
Proof.
  intros Hread es lastSent.
  unfold Sqlite.evaluateAndSend, Sqlite.getUnemailedEntries, Sqlite.shouldSend.
  rewrite Hread. fold es. fold lastSent.
  destruct (length es =? 0)%nat; [reflexivity|].
  destruct (Sqlite.conditionA Date_parse es (Sqlite.now env)
            || Sqlite.conditionB es
            || Sqlite.conditionC lastSent (Sqlite.now env)); [|reflexivity].
  destruct (Sqlite.sendNewsletter toISOString env es w) as [w1 [ok|err]];
    reflexivity.
Qed.

Lemma Sheets_cycle_by_verdict (env : Sheets.Env) (w : Sheets.World) :
  Sheets.read_error env = None ->
  let es := Sheets.unemailed_of_rows Date_parse Number (Sheets.sheet w) in
  Sheets.evaluateAndSend Date_parse Number toISOString env w =
  if Sheets.shouldSend Date_parse es (Sheets.lastEmailSent w) (Sheets.now env)
  then
    match Sheets.sendNewsletter toISOString env es w with
    | (w1, Throw _) => Sheets.log w1 [LogCronError]
    | (w1, Ok _) =>
        match Sheets.markEntriesEmailed env (map id es) w1 with
        | (w2, Throw _) => Sheets.log w2 [LogCronError]
        | (w2, Ok _) =>
            Sheets.log (Sheets.updateLastEmailSent env w2) [LogNewsletterSent]
        end
    end
  else if (length es =? 0)%nat then w
       else Sheets.log w [LogConditionsNotMet].
Proof.
  intros Hread es.
  unfold Sheets.evaluateAndSend, Sheets.getUnemailedEntries, Sheets.shouldSend,
    Sheets.getLastEmailSent.
  rewrite Hread. fold es.
  destruct (length es =? 0)%nat; [reflexivity|].
  destruct (Sheets.conditionA Date_parse es (Sheets.now env)
            || Sheets.conditionB es
            || Sheets.conditionC (Sheets.lastEmailSent w) (Sheets.now env));
    reflexivity.
Qed.

(** When the provider does not accept the digest, [sendNewsletter]
    throws and has touched neither the store nor the outbox. *)
Lemma Sqlite_send_failure (env : Sqlite.Env) (es : list Entry)
      (w : Sqlite.World) :
  send_failed (Sqlite.resend_emails_send env (Sqlite.digest toISOString env es)) ->
  let r := Sqlite.sendNewsletter toISOString env es w in
  Sqlite.db (fst r) = Sqlite.db w
  /\ Sqlite.outbox (fst r) = Sqlite.outbox w
  /\ (es <> [] -> exists err, snd r = Throw err).
Proof.
  intros Hfail. unfold Sqlite.sendNewsletter.
  destruct es as [|e es]; [simpl; repeat split; congruence|].
  rewrite length_zero_false.
  destruct (Sqlite.resend_emails_send env
              (Sqlite.digest toISOString env (e :: es))) as [d|error|err];
    [destruct Hfail| |]; simpl; repeat split; eauto.
Qed.

Lemma Sheets_send_failure (env : Sheets.Env) (es : list Entry)
      (w : Sheets.World) :
  send_failed (Sheets.resend_emails_send env (Sheets.digest toISOString env es)) ->
  let r := Sheets.sendNewsletter toISOString env es w in
  fst r = w /\ (es <> [] -> exists err, snd r = Throw err).
Proof.
  intros Hfail. unfold Sheets.sendNewsletter.
  destruct es as [|e es]; [simpl; split; congruence|].
  rewrite length_zero_false.
  destruct (Sheets.resend_emails_send env
              (Sheets.digest toISOString env (e :: es))) as [d|error|err];
    [destruct Hfail| |]; simpl; split; eauto.
Qed.
End Cycle.

(** C6.  In a cycle in which the provider does not accept the digest
    (it answers with an error or the call rejects), no entry is marked as
    sent, the ledger keeps its value and nothing reaches the outbox. *)
Theorem C6_failed_dispatch_keeps_backlog :
  forall (Date_parse : JSString -> Date) (Number : JSString -> JSNumber)
         (toISOString : Z -> JSString),
    (forall (env : Sqlite.Env) (w : Sqlite.World),
        send_failed
          (Sqlite.resend_emails_send env
             (Sqlite.digest toISOString env
                (Sqlite.SELECT_unemailed (Sqlite.db w)))) ->
        let w' := Sqlite.evaluateAndSend Date_parse toISOString env w in
        map emailed (Sqlite.entries (Sqlite.db w'))
        = map emailed (Sqlite.entries (Sqlite.db w))
        /\ Sqlite.last_email_sent (Sqlite.db w')
           = Sqlite.last_email_sent (Sqlite.db w)
        /\ Sqlite.db w' = Sqlite.db w
        /\ Sqlite.outbox w' = Sqlite.outbox w)
    /\ (forall (env : Sheets.Env) (w : Sheets.World),
          send_failed
            (Sheets.resend_emails_send env
               (Sheets.digest toISOString env
                  (Sheets.unemailed_of_rows Date_parse Number (Sheets.sheet w)))) ->
          let w' := Sheets.evaluateAndSend Date_parse Number toISOString env w in
          map Sheets.r4 (Sheets.sheet w') = map Sheets.r4 (Sheets.sheet w)
          /\ Sheets.lastEmailSent w' = Sheets.lastEmailSent w
          /\ Sheets.sheet w' = Sheets.sheet w
          /\ Sheets.outbox w' = Sheets.outbox w).
Proof.
  intros Date_parse Number toISOString. split.
  - intros env w Hfail w'.
    assert (Hdb : Sqlite.db w' = Sqlite.db w /\ Sqlite.outbox w' = Sqlite.outbox w).
    { subst w'.
      destruct (Sqlite.all_error env) as [err|] eqn:Hread.
      - unfold Sqlite.evaluateAndSend, Sqlite.getUnemailedEntries.
        rewrite Hread. split; reflexivity.
      - rewrite (Sqlite_cycle_by_verdict Date_parse toISOString env w Hread).
        cbv zeta.
        set (es := Sqlite.SELECT_unemailed (Sqlite.db w)) in *.
        destruct (Sqlite.shouldSend Date_parse es _ _) eqn:Hv.
        + assert (Hne : es <> []).
          { intros E. unfold Sqlite.shouldSend in Hv. rewrite E in Hv.
            discriminate. }
          destruct (Sqlite_send_failure toISOString env es w Hfail)
            as [Hd [Ho [err Hr]]]; [exact Hne|].
          destruct (Sqlite.sendNewsletter toISOString env es w) as [w1 r].
          simpl in Hd, Ho, Hr. subst r. simpl. split; assumption.
        + destruct (length es =? 0)%nat; split; reflexivity. }
    destruct Hdb as [Hd Ho]. rewrite Hd. repeat split; assumption.
  - intros env w Hfail w'.
    assert (Hdb : Sheets.sheet w' = Sheets.sheet w
                  /\ Sheets.lastEmailSent w' = Sheets.lastEmailSent w
                  /\ Sheets.outbox w' = Sheets.outbox w).
    { subst w'.
      destruct (Sheets.read_error env) as [err|] eqn:Hread.
      - unfold Sheets.evaluateAndSend, Sheets.getUnemailedEntries.
        rewrite Hread. repeat split; reflexivity.
      - rewrite (Sheets_cycle_by_verdict Date_parse Number toISOString env w Hread).
        cbv zeta.
        set (es := Sheets.unemailed_of_rows Date_parse Number (Sheets.sheet w)) in *.
        destruct (Sheets.shouldSend Date_parse es _ _) eqn:Hv.
        + assert (Hne : es <> []).
          { intros E. unfold Sheets.shouldSend in Hv. rewrite E in Hv.
            discriminate. }
          destruct (Sheets_send_failure toISOString env es w Hfail)
            as [Hw [err Hr]]; [exact Hne|].
          destruct (Sheets.sendNewsletter toISOString env es w) as [w1 r].
          simpl in Hw, Hr. subst r w1. simpl. repeat split; reflexivity.
        + destruct (length es =? 0)%nat; repeat split; reflexivity. }
    destruct Hdb as [Hs [Hl Ho]]. rewrite Hs. repeat split; assumption.
Qed.

(* ================================================================== *)
(** * Enrichment *)

Lemma Sqlite_enrich_entry (env : Sqlite.Env) (es : list Entry) :
  map Sqlite.entry (map (Sqlite.enrich env) es) = es.
Proof.
  induction es as [|e es IH]; [reflexivity|].
  cbn [map]. rewrite IH. f_equal.
  unfold Sqlite.enrich. destruct (Sqlite.getLinkPreview env (url e)); reflexivity.
Qed.

Lemma Sheets_enrich_entry (env : Sheets.Env) (es : list Entry) :
  map Sheets.entry (map (Sheets.enrich env) es) = es.
Proof.
  induction es as [|e es IH]; [reflexivity|].
  cbn [map]. rewrite IH. f_equal.
  unfold Sheets.enrich. destruct (Sheets.getLinkPreview env (url e)); reflexivity.
Qed.

(** C7.  In the digest of either server every entry of the batch has its
    item, in the order of the batch; the item of an entry whose preview
    fetch fails has the raw URL as title, an empty description and (where
    the server keeps one) no image; and a digest that the provider accepts is
    sent whatever fetches have failed. *)
Theorem C7_failed_preview_falls_back :
  forall (toISOString : Z -> JSString),
    (forall (env : Sqlite.Env) (es : list Entry),
        let email := Sqlite.digest toISOString env es in
        map Sqlite.entry (Sqlite.items email) = es
        /\ (forall x, In x (Sqlite.items email) ->
              Sqlite.getLinkPreview env (url (Sqlite.entry x)) = None ->
              Sqlite.title x = url (Sqlite.entry x)
              /\ Sqlite.description x = []
              /\ Sqlite.image x = None)
        /\ (forall w data_id,
              es <> [] ->
              Sqlite.resend_emails_send env email = SendData data_id ->
              let r := Sqlite.sendNewsletter toISOString env es w in
              snd r = Ok true
              /\ Sqlite.outbox (fst r) = Sqlite.outbox w ++ [email]))
    /\ (forall (env : Sheets.Env) (es : list Entry),
          let email := Sheets.digest toISOString env es in
          map Sheets.entry (Sheets.items email) = es
          /\ (forall x, In x (Sheets.items email) ->
                Sheets.getLinkPreview env (url (Sheets.entry x)) = None ->
                Sheets.title x = url (Sheets.entry x)
                /\ Sheets.description x = [])
          /\ (forall w data_id,
                es <> [] ->
                Sheets.resend_emails_send env email = SendData data_id ->
                let r := Sheets.sendNewsletter toISOString env es w in
                snd r = Ok true
                /\ Sheets.outbox (fst r) = Sheets.outbox w ++ [email])).
Proof.
  intros toISOString. split.
  - intros env es email. split; [|split].
    + apply Sqlite_enrich_entry.
    + intros x Hin Hfetch. cbn in Hin. apply in_map_iff in Hin.
      destruct Hin as [e [Hx _]]. subst x. revert Hfetch.
      unfold Sqlite.enrich.
      destruct (Sqlite.getLinkPreview env (url e)) as [p|] eqn:Hp; cbn.
      * rewrite Hp. discriminate.
      * intros _. repeat split.
    + intros w data_id Hne Hsend r. subst r. unfold Sqlite.sendNewsletter.
      rewrite (nonempty_length es Hne). fold email. rewrite Hsend.
      split; reflexivity.
  - intros env es email. split; [|split].
    + apply Sheets_enrich_entry.
    + intros x Hin Hfetch. cbn in Hin. apply in_map_iff in Hin.
      destruct Hin as [e [Hx _]]. subst x. revert Hfetch.
      unfold Sheets.enrich.
      destruct (Sheets.getLinkPreview env (url e)) as [p|] eqn:Hp; cbn.
      * rewrite Hp. discriminate.
      * intros _. split; reflexivity.
    + intros w data_id Hne Hsend r. subst r. unfold Sheets.sendNewsletter.
      rewrite (nonempty_length es Hne). fold email. rewrite Hsend.
      split; reflexivity.
Qed.

(* ================================================================== *)
(** * The stable sort *)

Section StableSortFacts.
Context {A : Type}.
Variable after : A -> A -> bool.

Lemma insert_sorted_perm (x : A) (l : list A) :
  Permutation (x :: l) (insert_sorted after x l).
Proof.
  induction l as [|y l IH]; cbn [insert_sorted].
  - apply Permutation_refl.
  - destruct (after x y).
    + apply perm_trans with (y :: x :: l); [apply perm_swap|].
      now apply perm_skip.
    + apply Permutation_refl.
Qed.

Lemma stable_sort_perm (l : list A) : Permutation l (stable_sort after l).
Proof.
  induction l as [|x l IH]; cbn [stable_sort fold_right].
  - apply perm_nil.
  - apply perm_trans with (x :: stable_sort after l).
    + now apply perm_skip.
    + apply insert_sorted_perm.
Qed.

Lemma stable_sort_Forall (P : A -> Prop) (l : list A) :
  Forall P l -> Forall P (stable_sort after l).
Proof.
  intros H. apply Forall_forall. intros x Hx.
  eapply Forall_forall; [exact H|].
  eapply Permutation_in; [apply Permutation_sym, stable_sort_perm | exact Hx].
Qed.

(** Sortedness, for an order [R] that [after] decides on the elements
    that satisfy [ok]. *)
Section Sorted.
Variable ok : A -> Prop.
Variable R : A -> A -> Prop.
Hypothesis R_not_after :
  forall a b, ok a -> ok b -> after a b = false -> R a b.
Hypothesis R_after :
  forall a b, ok a -> ok b -> after a b = true -> R b a.
Hypothesis R_trans :
  forall a b c, ok a -> ok b -> ok c -> R a b -> R b c -> R a c.

Lemma insert_sorted_sorted (x : A) (l : list A) :
  ok x -> Forall ok l -> StronglySorted R l ->
  StronglySorted R (insert_sorted after x l).
Proof.
  intros Hx. induction l as [|y l IH]; intros Hok Hs; cbn [insert_sorted].
  - constructor; constructor.
  - inversion Hok as [|? ? Hy Hl]; subst.
    inversion Hs as [|? ? Hs' Hall]; subst.
    destruct (after x y) eqn:Haft.
    + constructor; [now apply IH|].
      apply Forall_forall. intros z Hz.
      apply (Permutation_in _ (Permutation_sym (insert_sorted_perm x l))) in Hz.
      destruct Hz as [<- | Hz].
      * now apply R_after.
      * eapply Forall_forall in Hall; eauto.
    + constructor; [assumption|].
      assert (Hxy : R x y) by now apply R_not_after.
      constructor; [assumption|].
      apply Forall_forall. intros z Hz.
      apply R_trans with y; try assumption.
      * eapply Forall_forall in Hl; eauto.
      * eapply Forall_forall in Hall; eauto.
Qed.

Lemma stable_sort_sorted (l : list A) :
  Forall ok l -> StronglySorted R (stable_sort after l).
Proof.
  induction l as [|x l IH]; intros Hok; cbn [stable_sort fold_right].
  - constructor.
  - inversion Hok; subst.
    apply insert_sorted_sorted; auto.
    now apply stable_sort_Forall.
Qed.
End Sorted.

(** Stability: the elements of a class that [after] does not separate
    come out in the order in which they went in. *)
Section Stable.
Variable p : A -> bool.
Hypothesis p_class :
  forall x y, p x = true -> p y = true -> after x y = false.


End Stable.
End StableSortFacts.

(** ** The order of TEXT values *)

Lemma text_compare_opp (a b : JSString) :
  text_compare b a = CompOpp (text_compare a b).
Proof.
  revert b. induction a as [|x a IH]; intros [|y b]; cbn [text_compare];
    try reflexivity.
  rewrite (N.compare_antisym x y).
  destruct (N.compare x y); cbn [CompOpp]; auto.
Qed.

Lemma text_leb_trans (a b c : JSString) :
  text_leb a b = true -> text_leb b c = true -> text_leb a c = true.
Proof.
  unfold text_leb. revert b c.
  induction a as [|x a IH]; intros [|y b] [|z c]; cbn [text_compare];
    try reflexivity; try discriminate.
  destruct (N.compare_spec x y) as [Hxy|Hxy|Hxy];
    destruct (N.compare_spec y z) as [Hyz|Hyz|Hyz];
    destruct (N.compare_spec x z) as [Hxz|Hxz|Hxz];
    try reflexivity; try discriminate; try lia.
  apply IH.
Qed.

Lemma text_leb_total (a b : JSString) :
  text_leb a b = false -> text_leb b a = true.
Proof.
  unfold text_leb. rewrite (text_compare_opp a b).
  destruct (text_compare a b); cbn [CompOpp]; congruence.
Qed.




(* ================================================================== *)
(** * The order of the digest *)


(** [ORDER BY event_date ASC] returns the rows it is given, in ascending
    order of the code units of their event date. *)
Lemma SELECT_unemailed_perm (d : Sqlite.Db) :
  Permutation (unsent (Sqlite.entries d)) (Sqlite.SELECT_unemailed d).
Proof. apply stable_sort_perm. Qed.



(** ** Rows with the same event date *)







Section SheetsOrder.
Variable Date_parse : JSString -> Date.
Variable Number : JSString -> JSNumber.

Lemma unemailed_of_rows_perm (rows : list Sheets.Row) :
  Permutation (unsent (map (Sheets.row_entry Number) rows))
    (Sheets.unemailed_of_rows Date_parse Number rows).
Proof. apply stable_sort_perm. Qed.




End SheetsOrder.

Section Sending.
Variable Date_parse : JSString -> Date.
Variable Number : JSString -> JSNumber.
Variable toISOString : Z -> JSString.

(** A cycle whose verdict is [true] hands the digest of all pending
    entries to the provider; when the provider accepts it, it is the mail
    that goes out. *)
Lemma Sqlite_cycle_sends (env : Sqlite.Env) (w : Sqlite.World)
      (data_id : option JSString) :
  let es := Sqlite.SELECT_unemailed (Sqlite.db w) in
  Sqlite.all_error env = None ->
  Sqlite.shouldSend Date_parse es
    (Sqlite.getLastEmailSent Date_parse env (Sqlite.db w)) (Sqlite.now env)
  = true ->
  Sqlite.resend_emails_send env (Sqlite.digest toISOString env es)
  = SendData data_id ->
  Sqlite.outbox (Sqlite.evaluateAndSend Date_parse toISOString env w)
  = Sqlite.outbox w ++ [Sqlite.digest toISOString env es].
Proof.
  intros es Hread Hv Hsend.
  rewrite (Sqlite_cycle_by_verdict Date_parse toISOString env w Hread).
  cbv zeta. fold es. rewrite Hv.
  assert (Hne : es <> []).
  { intros E. unfold Sqlite.shouldSend in Hv. rewrite E in Hv. discriminate. }
  unfold Sqlite.sendNewsletter. rewrite (nonempty_length es Hne), Hsend.
  rewrite Sqlite_uncaught_outbox. reflexivity.
Qed.

Lemma Sheets_cycle_sends (env : Sheets.Env) (w : Sheets.World)
      (data_id : option JSString) :
  let es := Sheets.unemailed_of_rows Date_parse Number (Sheets.sheet w) in
  Sheets.read_error env = None ->
  Sheets.shouldSend Date_parse es (Sheets.lastEmailSent w) (Sheets.now env)
  = true ->
  Sheets.resend_emails_send env (Sheets.digest toISOString env es)
  = SendData data_id ->
  Sheets.outbox (Sheets.evaluateAndSend Date_parse Number toISOString env w)
  = Sheets.outbox w ++ [Sheets.digest toISOString env es].
Proof.
  intros es Hread Hv Hsend.
  rewrite (Sheets_cycle_by_verdict Date_parse Number toISOString env w Hread).
  cbv zeta. fold es. rewrite Hv.
  assert (Hne : es <> []).
  { intros E. unfold Sheets.shouldSend in Hv. rewrite E in Hv. discriminate. }
  unfold Sheets.sendNewsletter. rewrite (nonempty_length es Hne), Hsend.
  unfold Sheets.markEntriesEmailed.
  destruct (Sheets.mark_get_error env); [reflexivity|].
  destruct (Sheets.mark_update_error env); reflexivity.
Qed.
End Sending.



(* ================================================================== *)
(** * [trim] *)

Lemma trimStart_blank (a s : JSString) :
  blank a -> trimStart (a ++ s) = trimStart s.
Proof.
  induction 1 as [|c a Hc _ IH]; [reflexivity|].
  cbn [app trimStart]. now rewrite Hc.
Qed.

Lemma trimStart_decompose (s : JSString) :
  exists a, s = a ++ trimStart s /\ blank a.
Proof.
  induction s as [|c s [a [Hs Ha]]].
  - exists []. split; [reflexivity | constructor].
  - cbn [trimStart]. destruct (is_whitespace c) eqn:Hc.
    + exists (c :: a). split.
      * cbn [app]. now rewrite <- Hs.
      * now constructor.
    + exists []. split; [reflexivity | constructor].
Qed.

Lemma trimStart_app (s b : JSString) :
  trimStart s <> [] -> trimStart (s ++ b) = trimStart s ++ b.
Proof.
  induction s as [|c s IH]; cbn [trimStart app]; [congruence|].
  destruct (is_whitespace c); [exact IH | reflexivity].
Qed.

Lemma trimStart_all_blank (s : JSString) :
  trimStart s = [] -> blank s.
Proof.
  induction s as [|c s IH]; cbn [trimStart]; [intros _; constructor|].
  destruct (is_whitespace c) eqn:Hc; [|discriminate].
  intros H. constructor; [exact Hc | exact (IH H)].
Qed.

Lemma blank_app (a b : JSString) : blank a -> blank b -> blank (a ++ b).
Proof. intros Ha Hb. apply Forall_app. now split. Qed.

Lemma blank_rev (a : JSString) : blank a -> blank (rev a).
Proof. intros Ha. now apply Forall_rev. Qed.

Lemma trimEnd_blank (s b : JSString) :
  blank b -> trimEnd (s ++ b) = trimEnd s.
Proof.
  intros Hb. unfold trimEnd. rewrite rev_app_distr.
  now rewrite trimStart_blank by now apply blank_rev.
Qed.

Lemma trimEnd_decompose (s : JSString) :
  exists b, s = trimEnd s ++ b /\ blank b.
Proof.
  unfold trimEnd. destruct (trimStart_decompose (rev s)) as [a [Hs Ha]].
  exists (rev a). split.
  - rewrite <- rev_app_distr, <- Hs. symmetry. apply rev_involutive.
  - now apply blank_rev.
Qed.

(** Blanks around a string do not change what [trim] returns. *)
Lemma trim_padding (a s b : JSString) :
  blank a -> blank b -> trim (a ++ s ++ b) = trim s.
Proof.
  intros Ha Hb. unfold trim. rewrite trimStart_blank by assumption.
  destruct (trimStart s) as [|c t] eqn:Hs.
  - assert (Hblank : blank (s ++ b))
      by (apply blank_app; [now apply trimStart_all_blank | assumption]).
    rewrite <- (app_nil_r (s ++ b)), (trimStart_blank _ [] Hblank).
    reflexivity.
  - rewrite trimStart_app by (rewrite Hs; discriminate).
    rewrite Hs. now apply trimEnd_blank.
Qed.

(** [trim] removes blanks at both ends and nothing else. *)
Lemma trim_decompose (s : JSString) :
  exists a b, s = a ++ trim s ++ b /\ blank a /\ blank b.
Proof.
  destruct (trimStart_decompose s) as [a [Hs Ha]].
  destruct (trimEnd_decompose (trimStart s)) as [b [Ht Hb]].
  exists a, b. unfold trim. rewrite <- Ht. auto.
Qed.

Lemma trim_same_iff_padding (u1 u2 : JSString) :
  trim u1 = trim u2 <->
  exists a1 b1 a2 b2 core,
    u1 = a1 ++ core ++ b1 /\ u2 = a2 ++ core ++ b2
    /\ blank a1 /\ blank b1 /\ blank a2 /\ blank b2.
Proof.
  split.
  - intros Heq.
    destruct (trim_decompose u1) as [a1 [b1 [H1 [Ha1 Hb1]]]].
    destruct (trim_decompose u2) as [a2 [b2 [H2 [Ha2 Hb2]]]].
    exists a1, b1, a2, b2, (trim u1). rewrite Heq at 2. auto 10.
  - intros [a1 [b1 [a2 [b2 [core [-> [-> [Ha1 [Hb1 [Ha2 Hb2]]]]]]]]]].
    now rewrite !trim_padding.
Qed.

(* ================================================================== *)
(** * The submission endpoint *)

Lemma JSString_eqb_refl (x : JSString) : JSString_eqb x x = true.
Proof.
  unfold JSString_eqb. destruct (list_eq_dec N.eq_dec x x); congruence.
Qed.

Lemma JSString_eqb_eq (x y : JSString) : JSString_eqb x y = true <-> x = y.
Proof.
  unfold JSString_eqb. destruct (list_eq_dec N.eq_dec x y); split; congruence.
Qed.

Lemma array_includes_In (l : list JSString) (x : JSString) :
  array_includes l x = true <-> In x l.
Proof.
  unfold array_includes. rewrite existsb_exists. split.
  - intros [y [Hy Heq]]. apply JSString_eqb_eq in Heq. now subst.
  - intros H. exists x. split; [assumption | apply JSString_eqb_refl].
Qed.

Lemma array_includes_not_In (l : list JSString) (x : JSString) :
  array_includes l x = false <-> ~ In x l.
Proof.
  rewrite <- array_includes_In. destruct (array_includes l x); split;
    congruence.
Qed.

Lemma includes_UNIQUE :
  includes (lit "SQLITE_CONSTRAINT: UNIQUE constraint failed: entries.url")
    (lit "UNIQUE") = true.
Proof. reflexivity. Qed.

(** ** The start of the local day *)

Lemma msPerDay_pos : 0 < msPerDay.
Proof. reflexivity. Qed.

Lemma local_midnight_bounds (tz t : Z) :
  t - msPerDay < local_day tz t * msPerDay - tz <= t.
Proof.
  unfold local_day.
  pose proof (Z.mul_div_le (t + tz) msPerDay msPerDay_pos).
  pose proof (Z.mul_succ_div_gt (t + tz) msPerDay msPerDay_pos).
  lia.
Qed.

Lemma setHours0_TimeValue (tz t : Z) :
  in_calendar_range t ->
  setHours0 tz (TimeValue t) = TimeValue (local_day tz t * msPerDay - tz).
Proof.
  unfold in_calendar_range. intros Hr. unfold setHours0.
  fold (local_day tz t). apply TimeClip_in_range.
  pose proof (local_midnight_bounds tz t). unfold maxTime, msPerDay in *. lia.
Qed.

(** Midnight UTC of day [day] lies in the local day [day] east of
    Greenwich, and in the local day before west of it. *)
Lemma local_day_of_utc_midnight_east (tz day : Z) :
  0 <= tz < msPerDay -> local_day tz (day * msPerDay) = day.
Proof.
  intros H. unfold local_day.
  rewrite Z.div_add_l by (unfold msPerDay; lia).
  rewrite Z.div_small by assumption. lia.
Qed.

Lemma local_day_of_utc_midnight_west (tz day : Z) :
  - msPerDay < tz < 0 -> local_day tz (day * msPerDay) = day - 1.
Proof.
  intros H. unfold local_day.
  rewrite Z.div_add_l by (unfold msPerDay; lia).
  assert (Hq : tz / msPerDay = -1).
  { symmetry. apply (Z.div_unique tz msPerDay (-1) (tz + msPerDay)); lia. }
  lia.
Qed.

Lemma Date_lt_local_midnights (tz s t : Z) :
  in_calendar_range s -> in_calendar_range t ->
  Date_lt (setHours0 tz (TimeValue s)) (setHours0 tz (TimeValue t))
  = (local_day tz s <? local_day tz t).
Proof.
  intros Hs Ht. rewrite !setHours0_TimeValue by assumption.
  unfold Date_lt.
  destruct (Z.ltb_spec (local_day tz s) (local_day tz t)) as [H|H].
  - apply Z.ltb_lt. unfold msPerDay. lia.
  - apply Z.ltb_ge. unfold msPerDay. lia.
Qed.

Section SubmitFacts.
Variable Date_parse : JSString -> Date.
Variable toISOString : Z -> JSString.

(** *** The date test, in calendar terms *)

Lemma Sqlite_submittedInPast_days (env : Sqlite.Env) (date : JSString)
      (day : Z) :
  Date_parse date = TimeValue (day * msPerDay) ->
  in_calendar_range (day * msPerDay) ->
  in_calendar_range (Sqlite.now env) ->
  Sqlite.submittedInPast Date_parse env date
  = (local_day (Sqlite.tz env) (day * msPerDay)
     <? local_day (Sqlite.tz env) (Sqlite.now env)).
Proof.
  intros Hp Hd Hn. unfold Sqlite.submittedInPast. rewrite Hp.
  now apply Date_lt_local_midnights.
Qed.

Lemma Sheets_submittedInPast_days (env : Sheets.Env) (date : JSString)
      (day : Z) :
  Date_parse date = TimeValue (day * msPerDay) ->
  in_calendar_range (day * msPerDay) ->
  in_calendar_range (Sheets.now env) ->
  Sheets.submittedInPast Date_parse env date
  = (local_day (Sheets.tz env) (day * msPerDay)
     <? local_day (Sheets.tz env) (Sheets.now env)).
Proof.
  intros Hp Hd Hn. unfold Sheets.submittedInPast. rewrite Hp.
  now apply Date_lt_local_midnights.
Qed.

(** A date before today's date is refused in every zone. *)
Lemma submittedInPast_before_today (tz now day : Z) :
  - msPerDay < tz < msPerDay ->
  day < local_day tz now ->
  (local_day tz (day * msPerDay) <? local_day tz now) = true.
Proof.
  intros Htz Hlt. apply Z.ltb_lt.
  destruct (Z_lt_le_dec tz 0) as [Hneg|Hpos].
  - rewrite local_day_of_utc_midnight_west by lia. lia.
  - rewrite local_day_of_utc_midnight_east by lia. lia.
Qed.

(** East of Greenwich (and on it) today's date and later dates pass. *)
Lemma submittedInPast_east (tz now day : Z) :
  0 <= tz < msPerDay ->
  local_day tz now <= day ->
  (local_day tz (day * msPerDay) <? local_day tz now) = false.
Proof.
  intros Htz Hle. apply Z.ltb_ge.
  rewrite local_day_of_utc_midnight_east by lia. lia.
Qed.

(** West of Greenwich today's date is taken for yesterday's. *)
Lemma submittedInPast_west_today (tz now : Z) :
  - msPerDay < tz < 0 ->
  (local_day tz (local_day tz now * msPerDay) <? local_day tz now) = true.
Proof.
  intros Htz. apply Z.ltb_lt.
  rewrite local_day_of_utc_midnight_west by lia. lia.
Qed.

(** *** The answers of the SQLite server *)

Lemma Sqlite_submit_missing (env : Sqlite.Env) (body : Body) (d : Sqlite.Db) :
  truthy_opt (option_map trim (b_url body)) = false
  \/ truthy_opt (b_date body) = false ->
  Sqlite.submit Date_parse env body d
  = (mkResponse 400 (JError "Missing url or date"), d).
Proof.
  unfold Sqlite.submit.
  destruct (b_url body) as [u|]; destruct (b_date body) as [date|];
    cbn [option_map truthy_opt]; try reflexivity.
  intros [H | H]; rewrite H; cbn [negb orb]; [reflexivity|].
  now rewrite orb_true_r.
Qed.

Lemma Sqlite_submit_checked (env : Sqlite.Env) (u date : JSString)
      (d : Sqlite.Db) :
  truthy (trim u) = true -> truthy date = true ->
  Sqlite.submit Date_parse env (mkBody (Some u) (Some date)) d
  = if Sqlite.submittedInPast Date_parse env date
    then (mkResponse 400 (JError "Date cannot be in the past"), d)
    else
      match Sqlite.INSERT_entry env (trim u) date d with
      | Throw err =>
          if includes (message err) (lit "UNIQUE")
          then (mkResponse 409 (JError "URL already submitted"), d)
          else (mkResponse 500 (JError "DB error"), d)
      | Ok (lastID, d') => (mkResponse 200 (JSuccess (IdNum lastID)), d')
      end.
Proof.
  intros Hu Hd. unfold Sqlite.submit. cbn [b_url b_date option_map].
  rewrite Hu, Hd. reflexivity.
Qed.

Lemma Sqlite_submit_duplicate (env : Sqlite.Env) (u date : JSString)
      (d : Sqlite.Db) :
  truthy (trim u) = true -> truthy date = true ->
  Sqlite.submittedInPast Date_parse env date = false ->
  Sqlite.insert_error env = None ->
  In (trim u) (map url (Sqlite.entries d)) ->
  Sqlite.submit Date_parse env (mkBody (Some u) (Some date)) d
  = (mkResponse 409 (JError "URL already submitted"), d).
Proof.
  intros Hu Hd Hpast Herr Hin.
  rewrite Sqlite_submit_checked by assumption. rewrite Hpast.
  unfold Sqlite.INSERT_entry. rewrite Herr.
  apply array_includes_In in Hin. rewrite Hin.
  cbn [message]. rewrite includes_UNIQUE. reflexivity.
Qed.

Lemma Sqlite_submit_stored (env : Sqlite.Env) (u date : JSString)
      (d : Sqlite.Db) :
  truthy (trim u) = true -> truthy date = true ->
  Sqlite.submittedInPast Date_parse env date = false ->
  Sqlite.insert_error env = None ->
  ~ In (trim u) (map url (Sqlite.entries d)) ->
  Sqlite.submit Date_parse env (mkBody (Some u) (Some date)) d
  = (mkResponse 200 (JSuccess (IdNum (Sqlite.seq d + 1))),
     Sqlite.mkDb
       (Sqlite.entries d ++
          [mkEntry (IdNum (Sqlite.seq d + 1)) (trim u) date
             (Sqlite.current_timestamp env) (Integer 0)])
       (Sqlite.last_email_sent d) (Sqlite.seq d + 1)).
Proof.
  intros Hu Hd Hpast Herr Hin.
  rewrite Sqlite_submit_checked by assumption. rewrite Hpast.
  unfold Sqlite.INSERT_entry. rewrite Herr.
  apply array_includes_not_In in Hin. rewrite Hin. reflexivity.
Qed.

Lemma Sqlite_submit_store_error (env : Sqlite.Env) (u date : JSString)
      (d : Sqlite.Db) (err : Error) :
  truthy (trim u) = true -> truthy date = true ->
  Sqlite.submittedInPast Date_parse env date = false ->
  Sqlite.insert_error env = Some err ->
  includes (message err) (lit "UNIQUE") = false ->
  Sqlite.submit Date_parse env (mkBody (Some u) (Some date)) d
  = (mkResponse 500 (JError "DB error"), d).
Proof.
  intros Hu Hd Hpast Herr Hmsg.
  rewrite Sqlite_submit_checked by assumption. rewrite Hpast.
  unfold Sqlite.INSERT_entry. rewrite Herr, Hmsg. reflexivity.
Qed.

(** A successful submission leaves the trimmed URL in the table. *)
Lemma Sqlite_submit_success_inv (env : Sqlite.Env) (u date : JSString)
      (d d' : Sqlite.Db) (i : IdVal) :
  Sqlite.submit Date_parse env (mkBody (Some u) (Some date)) d
  = (mkResponse 200 (JSuccess i), d') ->
  truthy (trim u) = true
  /\ In (trim u) (map url (Sqlite.entries d')).
Proof.
  unfold Sqlite.submit. cbn [b_url b_date option_map].
  destruct (truthy (trim u)) eqn:Hu; cbn [negb orb]; [|discriminate].
  destruct (truthy date); cbn [negb]; [|discriminate].
  destruct (Sqlite.submittedInPast Date_parse env date); [discriminate|].
  unfold Sqlite.INSERT_entry.
  destruct (Sqlite.insert_error env) as [err|].
  { destruct (includes (message err) (lit "UNIQUE")); discriminate. }
  destruct (array_includes (map url (Sqlite.entries d)) (trim u)).
  { cbn [message]. rewrite includes_UNIQUE. discriminate. }
  intros H. injection H as _ <-. split; [reflexivity|].
  cbn [Sqlite.entries]. rewrite map_app. apply in_or_app. right.
  left. reflexivity.
Qed.

(** *** The answers of the Sheets server *)

Lemma Sheets_submit_missing (env : Sheets.Env) (body : Body)
      (s : list Sheets.Row) :
  truthy_opt (option_map trim (b_url body)) = false
  \/ truthy_opt (b_date body) = false ->
  Sheets.submit Date_parse toISOString env body s
  = (mkResponse 400 (JError "Missing url or date"), s).
Proof.
  unfold Sheets.submit.
  destruct (b_url body) as [u|]; destruct (b_date body) as [date|];
    cbn [option_map truthy_opt]; try reflexivity.
  intros [H | H]; rewrite H; cbn [negb orb]; [reflexivity|].
  now rewrite orb_true_r.
Qed.

Lemma Sheets_submit_checked (env : Sheets.Env) (u date : JSString)
      (s : list Sheets.Row) :
  truthy (trim u) = true -> truthy date = true ->
  Sheets.submit Date_parse toISOString env (mkBody (Some u) (Some date)) s
  = if Sheets.submittedInPast Date_parse env date
    then (mkResponse 400 (JError "Date cannot be in the past"), s)
    else
      match Sheets.submit_get_error env with
      | Some _ => (mkResponse 500 (JError "Sheets error"), s)
      | None =>
          if array_includes (Sheets.column_B s) (trim u)
          then (mkResponse 409 (JError "URL already submitted"), s)
          else
            match Sheets.append_error env with
            | Some _ => (mkResponse 500 (JError "Sheets error"), s)
            | None =>
                (mkResponse 200
                   (JSuccess (IdStr (Z_toString (Sheets.now_id env)))),
                 s ++ [Sheets.mkRow (Z_toString (Sheets.now_id env))
                         (trim u) date
                         (toISOString (Sheets.now_created env)) (lit "0")])
            end
      end.
Proof.
  intros Hu Hd. unfold Sheets.submit. cbn [b_url b_date option_map].
  rewrite Hu, Hd. reflexivity.
Qed.

Lemma column_B_app (s t : list Sheets.Row) :
  Sheets.column_B (s ++ t) = Sheets.column_B s ++ Sheets.column_B t.
Proof. unfold Sheets.column_B. apply flat_map_app. Qed.

Lemma Sheets_submit_success_inv (env : Sheets.Env) (u date : JSString)
      (s s' : list Sheets.Row) (i : IdVal) :
  Sheets.submit Date_parse toISOString env (mkBody (Some u) (Some date)) s
  = (mkResponse 200 (JSuccess i), s') ->
  truthy (trim u) = true
  /\ In (trim u) (Sheets.column_B s').
Proof.
  unfold Sheets.submit. cbn [b_url b_date option_map].
  destruct (truthy (trim u)) eqn:Hu; cbn [negb orb]; [|discriminate].
  destruct (truthy date); cbn [negb]; [|discriminate].
  destruct (Sheets.submittedInPast Date_parse env date); [discriminate|].
  destruct (Sheets.submit_get_error env); [discriminate|].
  destruct (array_includes (Sheets.column_B s) (trim u)); [discriminate|].
  destruct (Sheets.append_error env); [discriminate|].
  intros H. injection H as _ <-. split; [reflexivity|].
  rewrite column_B_app. apply in_or_app. right.
  unfold Sheets.column_B. cbn [flat_map Sheets.r1]. rewrite Hu.
  left. reflexivity.
Qed.
End SubmitFacts.

Section DateTest.
Variable Date_parse : JSString -> Date.
Variable toISOString : Z -> JSString.

(** East of Greenwich the date test is the test of the calendar: a date
    is refused exactly when it is before today's. *)
Lemma Sqlite_date_test_east (env : Sqlite.Env) (date : JSString) (day : Z) :
  0 <= Sqlite.tz env < msPerDay ->
  Date_parse date = TimeValue (day * msPerDay) ->
  in_calendar_range (day * msPerDay) ->
  in_calendar_range (Sqlite.now env) ->
  Sqlite.submittedInPast Date_parse env date
  = (day <? local_day (Sqlite.tz env) (Sqlite.now env)).
Proof.
  intros Htz Hp Hd Hn.
  rewrite (Sqlite_submittedInPast_days Date_parse env date day Hp Hd Hn).
  now rewrite local_day_of_utc_midnight_east.
Qed.

Lemma Sheets_date_test_east (env : Sheets.Env) (date : JSString) (day : Z) :
  0 <= Sheets.tz env < msPerDay ->
  Date_parse date = TimeValue (day * msPerDay) ->
  in_calendar_range (day * msPerDay) ->
  in_calendar_range (Sheets.now env) ->
  Sheets.submittedInPast Date_parse env date
  = (day <? local_day (Sheets.tz env) (Sheets.now env)).
Proof.
  intros Htz Hp Hd Hn.
  rewrite (Sheets_submittedInPast_days Date_parse env date day Hp Hd Hn).
  now rewrite local_day_of_utc_midnight_east.
Qed.

(** West of Greenwich the test refuses today's date as well. *)
Lemma Sqlite_date_test_west (env : Sqlite.Env) (date : JSString) (day : Z) :
  - msPerDay < Sqlite.tz env < 0 ->
  Date_parse date = TimeValue (day * msPerDay) ->
  in_calendar_range (day * msPerDay) ->
  in_calendar_range (Sqlite.now env) ->
  Sqlite.submittedInPast Date_parse env date
  = (day <=? local_day (Sqlite.tz env) (Sqlite.now env)).
Proof.
  intros Htz Hp Hd Hn.
  rewrite (Sqlite_submittedInPast_days Date_parse env date day Hp Hd Hn).
  rewrite local_day_of_utc_midnight_west by assumption.
  destruct (Z.leb_spec day (local_day (Sqlite.tz env) (Sqlite.now env)));
    [apply Z.ltb_lt | apply Z.ltb_ge]; lia.
Qed.

Lemma Sheets_date_test_west (env : Sheets.Env) (date : JSString) (day : Z) :
  - msPerDay < Sheets.tz env < 0 ->
  Date_parse date = TimeValue (day * msPerDay) ->
  in_calendar_range (day * msPerDay) ->
  in_calendar_range (Sheets.now env) ->
  Sheets.submittedInPast Date_parse env date
  = (day <=? local_day (Sheets.tz env) (Sheets.now env)).
Proof.
  intros Htz Hp Hd Hn.
  rewrite (Sheets_submittedInPast_days Date_parse env date day Hp Hd Hn).
  rewrite local_day_of_utc_midnight_west by assumption.
  destruct (Z.leb_spec day (local_day (Sheets.tz env) (Sheets.now env)));
    [apply Z.ltb_lt | apply Z.ltb_ge]; lia.
Qed.

(** A date before today's date is answered 400 in every zone. *)
Lemma Sqlite_submit_past_date (env : Sqlite.Env) (u date : JSString)
      (d : Sqlite.Db) (day : Z) :
  truthy (trim u) = true -> truthy date = true ->
  - msPerDay < Sqlite.tz env < msPerDay ->
  Date_parse date = TimeValue (day * msPerDay) ->
  in_calendar_range (day * msPerDay) ->
  in_calendar_range (Sqlite.now env) ->
  day < local_day (Sqlite.tz env) (Sqlite.now env) ->
  Sqlite.submit Date_parse env (mkBody (Some u) (Some date)) d
  = (mkResponse 400 (JError "Date cannot be in the past"), d).
Proof.
  intros Hu Hdate Htz Hp Hd Hn Hlt.
  rewrite Sqlite_submit_checked by assumption.
  rewrite (Sqlite_submittedInPast_days Date_parse env date day Hp Hd Hn).
  now rewrite submittedInPast_before_today.
Qed.

Lemma Sheets_submit_past_date (env : Sheets.Env) (u date : JSString)
      (s : list Sheets.Row) (day : Z) :
  truthy (trim u) = true -> truthy date = true ->
  - msPerDay < Sheets.tz env < msPerDay ->
  Date_parse date = TimeValue (day * msPerDay) ->
  in_calendar_range (day * msPerDay) ->
  in_calendar_range (Sheets.now env) ->
  day < local_day (Sheets.tz env) (Sheets.now env) ->
  Sheets.submit Date_parse toISOString env (mkBody (Some u) (Some date)) s
  = (mkResponse 400 (JError "Date cannot be in the past"), s).
Proof.
  intros Hu Hdate Htz Hp Hd Hn Hlt.
  rewrite Sheets_submit_checked by assumption.
  rewrite (Sheets_submittedInPast_days Date_parse env date day Hp Hd Hn).
  now rewrite submittedInPast_before_today.
Qed.

(** West of Greenwich today's date is answered 400 as well. *)
Lemma Sqlite_submit_today_west (env : Sqlite.Env) (u date : JSString)
      (d : Sqlite.Db) :
  let today := local_day (Sqlite.tz env) (Sqlite.now env) in
  truthy (trim u) = true -> truthy date = true ->
  - msPerDay < Sqlite.tz env < 0 ->
  Date_parse date = TimeValue (today * msPerDay) ->
  in_calendar_range (today * msPerDay) ->
  in_calendar_range (Sqlite.now env) ->
  Sqlite.submit Date_parse env (mkBody (Some u) (Some date)) d
  = (mkResponse 400 (JError "Date cannot be in the past"), d).
Proof.
  intros today Hu Hdate Htz Hp Hd Hn.
  rewrite Sqlite_submit_checked by assumption.
  rewrite (Sqlite_date_test_west env date today Htz Hp Hd Hn).
  unfold today. now rewrite Z.leb_refl.
Qed.

Lemma Sheets_submit_today_west (env : Sheets.Env) (u date : JSString)
      (s : list Sheets.Row) :
  let today := local_day (Sheets.tz env) (Sheets.now env) in
  truthy (trim u) = true -> truthy date = true ->
  - msPerDay < Sheets.tz env < 0 ->
  Date_parse date = TimeValue (today * msPerDay) ->
  in_calendar_range (today * msPerDay) ->
  in_calendar_range (Sheets.now env) ->
  Sheets.submit Date_parse toISOString env (mkBody (Some u) (Some date)) s
  = (mkResponse 400 (JError "Date cannot be in the past"), s).
Proof.
  intros today Hu Hdate Htz Hp Hd Hn.
  rewrite Sheets_submit_checked by assumption.
  rewrite (Sheets_date_test_west env date today Htz Hp Hd Hn).
  unfold today. now rewrite Z.leb_refl.
Qed.
End DateTest.

(** C8, where the servers depart from it.  On a server five hours west of
    Greenwich, at 10:00 local time of 10 January 2025, a submission of a new
    URL dated 2025-01-10, which is today's date there, is answered 400
    "Date cannot be in the past" by both servers and is not stored. *)
Theorem C8_today_refused_west_of_Greenwich :
  local_day Examples.west Examples.now_west = days_from_civil 2025 1 10
  /\ Date_parse_iso (lit "2025-01-10")
     = TimeValue (days_from_civil 2025 1 10 * msPerDay)
  /\ Sqlite.submit Date_parse_iso Examples.sqlite_env_west Examples.body_today
       Examples.empty_db
     = (mkResponse 400 (JError "Date cannot be in the past"),
        Examples.empty_db)
  /\ Sheets.submit Date_parse_iso toISOString_utc Examples.sheets_env_west
       Examples.body_today []
     = (mkResponse 400 (JError "Date cannot be in the past"), []).
Proof. repeat split; vm_compute; reflexivity. Qed.

(** C10.  Both servers use the trimmed URL for every test and for the
    stored row: two bodies whose URLs have the same trimmed form get the
    same answer and leave the same store, a stored row holds the trimmed
    URL, and after a successful submission a later one whose URL has the
    same trimmed form, and which passes the tests on the fields and on the
    date while the store answers, gets 409 "URL already submitted". *)
Theorem C10_url_is_trimmed_before_use :
  forall (Date_parse : JSString -> Date) (toISOString : Z -> JSString),
    (forall (env : Sqlite.Env) (d : Sqlite.Db) (u u' : JSString)
            (date : option JSString),
        trim u = trim u' ->
        Sqlite.submit Date_parse env (mkBody (Some u) date) d
        = Sqlite.submit Date_parse env (mkBody (Some u') date) d)
    /\ (forall (env1 env2 : Sqlite.Env) (d d' : Sqlite.Db)
               (u1 u2 date1 date2 : JSString) (i : IdVal),
          Sqlite.submit Date_parse env1 (mkBody (Some u1) (Some date1)) d
          = (mkResponse 200 (JSuccess i), d') ->
          trim u2 = trim u1 ->
          truthy date2 = true ->
          Sqlite.submittedInPast Date_parse env2 date2 = false ->
          Sqlite.insert_error env2 = None ->
          In (trim u1) (map url (Sqlite.entries d'))
          /\ Sqlite.submit Date_parse env2 (mkBody (Some u2) (Some date2)) d'
             = (mkResponse 409 (JError "URL already submitted"), d'))
    /\ (forall (env : Sheets.Env) (s : list Sheets.Row) (u u' : JSString)
               (date : option JSString),
          trim u = trim u' ->
          Sheets.submit Date_parse toISOString env (mkBody (Some u) date) s
          = Sheets.submit Date_parse toISOString env (mkBody (Some u') date) s)
    /\ (forall (env1 env2 : Sheets.Env) (s s' : list Sheets.Row)
               (u1 u2 date1 date2 : JSString) (i : IdVal),
          Sheets.submit Date_parse toISOString env1
            (mkBody (Some u1) (Some date1)) s
          = (mkResponse 200 (JSuccess i), s') ->
          trim u2 = trim u1 ->
          truthy date2 = true ->
          Sheets.submittedInPast Date_parse env2 date2 = false ->
          Sheets.submit_get_error env2 = None ->
          In (trim u1) (map Sheets.r1 s')
          /\ Sheets.submit Date_parse toISOString env2
               (mkBody (Some u2) (Some date2)) s'
             = (mkResponse 409 (JError "URL already submitted"), s')).
Proof.
  intros Date_parse toISOString. split; [| split; [| split]].
  - intros env d u u' date Heq. unfold Sqlite.submit.
    cbn [b_url b_date option_map]. rewrite Heq. reflexivity.
  - intros env1 env2 d d' u1 u2 date1 date2 i H1 Heq Hd2 Hpast Herr.
    destruct (Sqlite_submit_success_inv Date_parse env1 u1 date1 d d' i H1)
      as [Hu Hin].
    split; [exact Hin|].
    apply Sqlite_submit_duplicate; try assumption; rewrite Heq; assumption.
  - intros env s u u' date Heq. unfold Sheets.submit.
    cbn [b_url b_date option_map]. rewrite Heq. reflexivity.
  - intros env1 env2 s s' u1 u2 date1 date2 i H1 Heq Hd2 Hpast Herr.
    destruct (Sheets_submit_success_inv Date_parse toISOString env1 u1 date1
                s s' i H1) as [Hu Hin].
    split.
    + unfold Sheets.column_B in Hin. apply in_flat_map in Hin.
      destruct Hin as [r [Hr Hx]]. apply in_map_iff. exists r.
      destruct (truthy (Sheets.r1 r)); [|destruct Hx].
      destruct Hx as [Hx | []]. split; assumption.
    + rewrite Sheets_submit_checked by (try rewrite Heq; assumption).
      rewrite Hpast, Herr, Heq.
      apply array_includes_In in Hin. rewrite Hin. reflexivity.
Qed.

(* ================================================================== *)
(** * Instances *)

(** C1 on a table and on a sheet whose rows have all been mailed. *)
Lemma C1_empty_backlog_instance :
  (Sqlite.SELECT_unemailed (Sqlite.db Examples.sqlite_all_sent) = []
   /\ let w' := Sqlite.evaluateAndSend Date_parse_iso toISOString_utc
                  (Examples.sqlite_env Examples.no_preview Examples.accept_all)
                  Examples.sqlite_all_sent in
      Sqlite.db w' = Sqlite.db Examples.sqlite_all_sent
      /\ Sqlite.outbox w' = Sqlite.outbox Examples.sqlite_all_sent)
  /\ (Sheets.unemailed_of_rows Date_parse_iso Number_decimal
        (Sheets.sheet Examples.sheets_all_sent) = []
      /\ let w' := Sheets.evaluateAndSend Date_parse_iso Number_decimal
                     toISOString_utc
                     (Examples.sheets_env Examples.no_preview Examples.accept_all)
                     Examples.sheets_all_sent in
         Sheets.sheet w' = Sheets.sheet Examples.sheets_all_sent
         /\ Sheets.lastEmailSent w' = Sheets.lastEmailSent Examples.sheets_all_sent
         /\ Sheets.outbox w' = Sheets.outbox Examples.sheets_all_sent).
Proof.
  pose proof (C1_empty_backlog_sends_nothing Date_parse_iso Number_decimal
                toISOString_utc) as [_ [Hq Hs]].
  split.
  - assert (H : Sqlite.SELECT_unemailed (Sqlite.db Examples.sqlite_all_sent) = [])
      by reflexivity.
    split; [exact H|]. exact (Hq _ _ H).
  - assert (H : Sheets.unemailed_of_rows Date_parse_iso Number_decimal
                  (Sheets.sheet Examples.sheets_all_sent) = [])
      by reflexivity.
    split; [exact H|]. exact (Hs _ _ H).
Defined.





(** C6 on a table and on a sheet with an urgent pending entry, when the
    provider answers with an error. *)
Lemma C6_failed_dispatch_instance :
  (let env := Examples.sqlite_env Examples.flaky_preview Examples.refuse_all in
   let w := Examples.sqlite2 in
   Sqlite.shouldSend Date_parse_iso (Sqlite.SELECT_unemailed (Sqlite.db w))
     (Sqlite.getLastEmailSent Date_parse_iso env (Sqlite.db w))
     (Sqlite.now env) = true
   /\ let w' := Sqlite.evaluateAndSend Date_parse_iso toISOString_utc env w in
      map emailed (Sqlite.entries (Sqlite.db w'))
      = map emailed (Sqlite.entries (Sqlite.db w))
      /\ Sqlite.last_email_sent (Sqlite.db w')
         = Sqlite.last_email_sent (Sqlite.db w)
      /\ Sqlite.db w' = Sqlite.db w
      /\ Sqlite.outbox w' = Sqlite.outbox w)
  /\ (let env := Examples.sheets_env Examples.flaky_preview Examples.refuse_all in
      let w := Examples.sheets2 in
      Sheets.shouldSend Date_parse_iso
        (Sheets.unemailed_of_rows Date_parse_iso Number_decimal (Sheets.sheet w))
        (Sheets.lastEmailSent w) (Sheets.now env) = true
      /\ let w' := Sheets.evaluateAndSend Date_parse_iso Number_decimal
                     toISOString_utc env w in
         map Sheets.r4 (Sheets.sheet w') = map Sheets.r4 (Sheets.sheet w)
         /\ Sheets.lastEmailSent w' = Sheets.lastEmailSent w
         /\ Sheets.sheet w' = Sheets.sheet w
         /\ Sheets.outbox w' = Sheets.outbox w).
Proof.
  pose proof (C6_failed_dispatch_keeps_backlog Date_parse_iso Number_decimal
                toISOString_utc) as [Hq Hs].
  split.
  - intros env w. split; [vm_compute; reflexivity|].
    exact (Hq env w I).
  - intros env w. split; [vm_compute; reflexivity|].
    exact (Hs env w I).
Defined.

(** C7 on a batch of two entries, the fetch failing for the second. *)
Lemma C7_failed_preview_instance :
  (let env := Examples.sqlite_env Examples.flaky_preview Examples.accept_all in
   let es := [Examples.e_soon; Examples.e_late] in
   let x := Sqlite.enrich env Examples.e_late in
   Sqlite.getLinkPreview env (url Examples.e_late) = None
   /\ map Sqlite.entry (Sqlite.items (Sqlite.digest toISOString_utc env es)) = es
   /\ (Sqlite.title x = lit "https://example.org/b"
       /\ Sqlite.description x = []
       /\ Sqlite.image x = None)
   /\ let r := Sqlite.sendNewsletter toISOString_utc env es
                 Examples.empty_sqlite in
      snd r = Ok true
      /\ Sqlite.outbox (fst r) = [Sqlite.digest toISOString_utc env es])
  /\ (let env := Examples.sheets_env Examples.flaky_preview Examples.accept_all in
      let es := [Examples.e_soon; Examples.e_late] in
      let x := Sheets.enrich env Examples.e_late in
      Sheets.getLinkPreview env (url Examples.e_late) = None
      /\ map Sheets.entry (Sheets.items (Sheets.digest toISOString_utc env es))
         = es
      /\ (Sheets.title x = lit "https://example.org/b"
          /\ Sheets.description x = [])
      /\ let r := Sheets.sendNewsletter toISOString_utc env es
                    Examples.empty_sheets in
         snd r = Ok true
         /\ Sheets.outbox (fst r) = [Sheets.digest toISOString_utc env es]).
Proof.
  pose proof (C7_failed_preview_falls_back toISOString_utc) as [Hq Hs].
  split.
  - intros env es x.
    destruct (Hq env es) as [Hall [Hfall Hsend]].
    split; [reflexivity|]. split; [exact Hall|]. split.
    + exact (Hfall x (or_intror (or_introl eq_refl)) eq_refl).
    + exact (Hsend Examples.empty_sqlite (Some (lit "re_1"))
               ltac:(discriminate) eq_refl).
  - intros env es x.
    destruct (Hs env es) as [Hall [Hfall Hsend]].
    split; [reflexivity|]. split; [exact Hall|]. split.
    + exact (Hfall x (or_intror (or_introl eq_refl)) eq_refl).
    + exact (Hsend Examples.empty_sheets (Some (lit "re_1"))
               ltac:(discriminate) eq_refl).
Defined.

(** C10 on a first submission of a URL and a second one of the same URL
    with blanks around it. *)
Lemma C10_trimmed_url_instance :
  (let env := Examples.sqlite_env Examples.no_preview Examples.accept_all in
   let d' := snd (Sqlite.submit Date_parse_iso env Examples.body_today
                    Examples.empty_db) in
   In (lit "https://example.org/cfp") (map url (Sqlite.entries d'))
   /\ Sqlite.submit Date_parse_iso env Examples.body_today_padded d'
      = (mkResponse 409 (JError "URL already submitted"), d'))
  /\ (let env := Examples.sheets_env Examples.no_preview Examples.accept_all in
      let s' := snd (Sheets.submit Date_parse_iso toISOString_utc env
                       Examples.body_today []) in
      In (lit "https://example.org/cfp") (map Sheets.r1 s')
      /\ Sheets.submit Date_parse_iso toISOString_utc env
           Examples.body_today_padded s'
         = (mkResponse 409 (JError "URL already submitted"), s')).
Proof.
  pose proof (C10_url_is_trimmed_before_use Date_parse_iso toISOString_utc)
    as [_ [Hq [_ Hs]]].
  split.
  - intros env d'.
    exact (Hq env env Examples.empty_db d'
             (lit "https://example.org/cfp")
             (lit "  https://example.org/cfp  ")
             (lit "2025-01-10") (lit "2025-01-12") (IdNum 1)
             eq_refl eq_refl eq_refl eq_refl eq_refl).
  - intros env s'.
    exact (Hs env env [] s'
             (lit "https://example.org/cfp")
             (lit "  https://example.org/cfp  ")
             (lit "2025-01-10") (lit "2025-01-12")
             (IdStr (Z_toString (Examples.now0 + 3)))
             eq_refl eq_refl eq_refl eq_refl eq_refl).
Defined.

(* ================================================================== *)
(** * More on the verdict *)

Lemma existsb_Permutation {A : Type} (f : A -> bool) (l l' : list A) :
  Permutation l l' -> existsb f l = existsb f l'.
Proof.
  induction 1 as [| x l l' _ IH | x y l | l l' l'' _ IH1 _ IH2];
    cbn [existsb].
  - reflexivity.
  - now rewrite IH.
  - destruct (f x), (f y); reflexivity.
  - now rewrite IH1.
Qed.


Section VerdictFacts.
Variable Date_parse : JSString -> Date.

Lemma Sqlite_conditionA_inv (es : list Entry) (now : Z) :
  Sqlite.conditionA Date_parse es now = true ->
  exists e t, In e es /\ Date_parse (event_date e) = TimeValue t
              /\ t <= now + 7 * msPerDay.
Proof.
  unfold Sqlite.conditionA. intros H. apply existsb_exists in H.
  destruct H as [e [Hin Hle]]. exists e.
  destruct (Date_parse (event_date e)) as [|t]; [discriminate|].
  exists t. split; [exact Hin|]. split; [reflexivity|].
  unfold Sqlite.sevenDaysFromNow, TimeClip in Hle. rewrite seven_days in Hle.
  destruct (Z.abs (now + 7 * msPerDay) <=? maxTime); [|discriminate].
  now apply Z.leb_le.
Qed.

Lemma conditionC_inv (lastSent : option Date) (now : Z) :
  Sqlite.conditionC lastSent now = true ->
  lastSent = None
  \/ exists t, lastSent = Some (TimeValue t) /\ now - t > 21 * msPerDay.
Proof.
  unfold Sqlite.conditionC. destruct lastSent as [[|t]|]; [discriminate| |auto].
  unfold Date_sub, num_gt. intros H. apply Z.ltb_lt in H.
  right. exists t. split; [reflexivity|]. unfold msPerDay. lia.
Qed.


Lemma Sqlite_shouldSend_Permutation (es es' : list Entry)
      (lastSent : option Date) (now : Z) :
  Permutation es es' ->
  Sqlite.shouldSend Date_parse es lastSent now
  = Sqlite.shouldSend Date_parse es' lastSent now.
Proof.
  intros Hp. unfold Sqlite.shouldSend, Sqlite.conditionA, Sqlite.conditionB.
  rewrite (Permutation_length Hp).
  now rewrite (existsb_Permutation _ es es' Hp).
Qed.

Lemma Sqlite_shouldSend_later (es : list Entry) (lastSent : option Date)
      (now now' : Z) :
  now <= now' ->
  is_time_value (now' + 7 * msPerDay) ->
  Sqlite.shouldSend Date_parse es lastSent now = true ->
  Sqlite.shouldSend Date_parse es lastSent now' = true.
Proof.
  intros Hle Hrange. unfold Sqlite.shouldSend.
  destruct (length es =? 0)%nat; [discriminate|].
  rewrite !orb_true_iff. intros [[HA | HB] | HC].
  - left. left. destruct (Sqlite_conditionA_inv es now HA) as [e [t [Hin [Hp Ht]]]].
    apply (Sqlite_conditionA_intro Date_parse es now' e t Hin Hp Hrange). lia.
  - left. right. exact HB.
  - right. destruct (conditionC_inv lastSent now HC) as [-> | [t [-> Hgt]]].
    + reflexivity.
    + apply (conditionC_stale now' t). lia.
Qed.
End VerdictFacts.



(** X3.  The verdict does not depend on the order of the pending
    entries. *)
Theorem verdict_ignores_order :
  forall (Date_parse : JSString -> Date) (es es' : list Entry)
         (lastSent : option Date) (now : Z),
    Permutation es es' ->
    Sqlite.shouldSend Date_parse es lastSent now
    = Sqlite.shouldSend Date_parse es' lastSent now
    /\ Sheets.shouldSend Date_parse es lastSent now
       = Sheets.shouldSend Date_parse es' lastSent now.
Proof.
  intros Date_parse es es' lastSent now Hp.
  change Sheets.shouldSend with Sqlite.shouldSend.
  split; now apply Sqlite_shouldSend_Permutation.
Qed.

(** X4.  A backlog that is due stays due: with the same pending entries
    and the same last send, a verdict [true] at [now] is [true] at every
    later [now'] (for which [now' + 7 days] is a time value). *)
Theorem verdict_stays_true_later :
  forall (Date_parse : JSString -> Date) (es : list Entry)
         (lastSent : option Date) (now now' : Z),
    now <= now' ->
    is_time_value (now' + 7 * msPerDay) ->
    (Sqlite.shouldSend Date_parse es lastSent now = true ->
     Sqlite.shouldSend Date_parse es lastSent now' = true)
    /\ (Sheets.shouldSend Date_parse es lastSent now = true ->
        Sheets.shouldSend Date_parse es lastSent now' = true).
Proof.
  intros Date_parse es lastSent now now' Hle Hrange.
  change Sheets.shouldSend with Sqlite.shouldSend.
  split; now apply Sqlite_shouldSend_later.
Qed.

(* ================================================================== *)
(** * What a cycle does to the store *)

Lemma IdVal_eqb_refl (i : IdVal) : IdVal_eqb i i = true.
Proof.
  destruct i as [n|s]; cbn [IdVal_eqb];
    [apply Z.eqb_refl | apply JSString_eqb_refl].
Qed.

Lemma existsb_IdVal_In (i : IdVal) (ids : list IdVal) :
  In i ids -> existsb (IdVal_eqb i) ids = true.
Proof.
  intros H. apply existsb_exists. exists i. split; [exact H|].
  apply IdVal_eqb_refl.
Qed.

Lemma filter_map_none {A B : Type} (p : B -> bool) (f : A -> B) (l : list A) :
  (forall x, In x l -> p (f x) = false) -> filter p (map f l) = [].
Proof.
  induction l as [|x l IH]; intros H; [reflexivity|].
  cbn [map filter]. rewrite (H x (or_introl eq_refl)).
  apply IH. intros y Hy. apply H. now right.
Qed.

Lemma Forall2_map_right {A B : Type} (R : A -> B -> Prop) (f : A -> B)
      (l : list A) :
  (forall x, R x (f x)) -> Forall2 R l (map f l).
Proof.
  intros H. induction l as [|x l IH]; cbn [map]; constructor; auto.
Qed.

Lemma In_unsent (e : Entry) (es : list Entry) :
  In e (unsent es) <-> In e es /\ is_zero (emailed e) = true.
Proof. unfold unsent. apply filter_In. Qed.

Lemma In_SELECT_unemailed (e : Entry) (d : Sqlite.Db) :
  In e (Sqlite.SELECT_unemailed d)
  <-> In e (Sqlite.entries d) /\ is_zero (emailed e) = true.
Proof.
  rewrite <- In_unsent. split; intros H.
  - eapply Permutation_in;
      [apply Permutation_sym, SELECT_unemailed_perm | exact H].
  - eapply Permutation_in; [apply SELECT_unemailed_perm | exact H].
Qed.

Lemma SELECT_unemailed_none (d : Sqlite.Db) :
  unsent (Sqlite.entries d) = [] -> Sqlite.SELECT_unemailed d = [].
Proof.
  intros H. unfold Sqlite.SELECT_unemailed. fold (unsent (Sqlite.entries d)).
  rewrite H. reflexivity.
Qed.

(** ** [markEntriesEmailed] and [updateLastEmailSent] of the SQLite server *)

Lemma Sqlite_mark_row_core (env : Sqlite.Env) (ids : list IdVal)
      (d : Sqlite.Db) :
  map row_core (Sqlite.entries (Sqlite.markEntriesEmailed env ids d))
  = map row_core (Sqlite.entries d)
  /\ Sqlite.seq (Sqlite.markEntriesEmailed env ids d) = Sqlite.seq d
  /\ Sqlite.last_email_sent (Sqlite.markEntriesEmailed env ids d)
     = Sqlite.last_email_sent d.
Proof.
  unfold Sqlite.markEntriesEmailed.
  destruct (Sqlite.mark_error env); [repeat split; reflexivity|].
  cbn [Sqlite.entries Sqlite.seq Sqlite.last_email_sent].
  split; [|split; reflexivity].
  rewrite map_map. apply map_ext. intros e.
  destruct (existsb (IdVal_eqb (id e)) ids); reflexivity.
Qed.

Lemma Sqlite_mark_no_new_pending (env : Sqlite.Env) (ids : list IdVal)
      (d : Sqlite.Db) (e : Entry) :
  In e (Sqlite.entries (Sqlite.markEntriesEmailed env ids d)) ->
  is_zero (emailed e) = true ->
  In e (Sqlite.entries d).
Proof.
  unfold Sqlite.markEntriesEmailed.
  destruct (Sqlite.mark_error env); [auto|].
  cbn [Sqlite.entries]. intros Hin Hz. apply in_map_iff in Hin.
  destruct Hin as [e0 [He Hin]].
  destruct (existsb (IdVal_eqb (id e0)) ids).
  - subst e. discriminate.
  - now subst e.
Qed.

Lemma Sqlite_mark_clears (env : Sqlite.Env) (ids : list IdVal)
      (d : Sqlite.Db) :
  Sqlite.mark_error env = false ->
  (forall e, In e (Sqlite.entries d) -> is_zero (emailed e) = true ->
             In (id e) ids) ->
  unsent (Sqlite.entries (Sqlite.markEntriesEmailed env ids d)) = [].
Proof.
  intros Herr Hids. unfold Sqlite.markEntriesEmailed. rewrite Herr.
  cbn [Sqlite.entries]. unfold unsent.
  apply (filter_map_none (fun e => is_zero (emailed e))).
  intros e He.
  destruct (existsb (IdVal_eqb (id e)) ids) eqn:Hex; [reflexivity|].
  destruct (is_zero (emailed e)) eqn:Hz; [|reflexivity].
  rewrite (existsb_IdVal_In _ _ (Hids e He Hz)) in Hex. discriminate.
Qed.

Lemma Sqlite_update_entries (toISOString : Z -> JSString) (env : Sqlite.Env)
      (d : Sqlite.Db) :
  Sqlite.entries (Sqlite.updateLastEmailSent toISOString env d)
  = Sqlite.entries d
  /\ Sqlite.seq (Sqlite.updateLastEmailSent toISOString env d) = Sqlite.seq d.
Proof.
  unfold Sqlite.updateLastEmailSent.
  destruct (Sqlite.ledger_error env); split; reflexivity.
Qed.

(** ** [markEntriesEmailed] of the Sheets server *)

Lemma Sheets_mark_cases (env : Sheets.Env) (ids : list IdVal)
      (w : Sheets.World) :
  let r := Sheets.markEntriesEmailed env ids w in
  (fst r = w /\ exists err, snd r = Throw err
                /\ (Sheets.mark_get_error env = Some err
                    \/ Sheets.mark_update_error env = Some err))
  \/ (Sheets.mark_get_error env = None
      /\ Sheets.mark_update_error env = None
      /\ snd r = Ok tt
      /\ fst r
         = Sheets.set_sheet w
             (map (fun r =>
                     if existsb (IdVal_eqb (IdStr (Sheets.r0 r))) ids
                     then Sheets.mkRow (Sheets.r0 r) (Sheets.r1 r)
                            (Sheets.r2 r) (Sheets.r3 r) (lit "1")
                     else r) (Sheets.sheet w))).
Proof.
  unfold Sheets.markEntriesEmailed.
  destruct (Sheets.mark_get_error env) as [e1|] eqn:H1.
  { left. split; [reflexivity|]. exists e1. auto. }
  destruct (Sheets.mark_update_error env) as [e2|] eqn:H2.
  { left. split; [reflexivity|]. exists e2. auto. }
  right. repeat split.
Qed.

Section CycleStates.
Variable Date_parse : JSString -> Date.
Variable Number : JSString -> JSNumber.
Variable toISOString : Z -> JSString.

(** A cycle of the SQLite server leaves the database as it was, or marks
    the pending entries and updates the ledger; it adds at most one mail,
    the digest of the pending entries. *)
Lemma Sqlite_cycle_cases (env : Sqlite.Env) (w : Sqlite.World) :
  let es := Sqlite.SELECT_unemailed (Sqlite.db w) in
  let w' := Sqlite.evaluateAndSend Date_parse toISOString env w in
  (Sqlite.db w' = Sqlite.db w /\ Sqlite.outbox w' = Sqlite.outbox w)
  \/ (es <> []
      /\ Sqlite.db w'
         = Sqlite.updateLastEmailSent toISOString env
             (Sqlite.markEntriesEmailed env (map id es) (Sqlite.db w))
      /\ Sqlite.outbox w'
         = Sqlite.outbox w ++ [Sqlite.digest toISOString env es]).
Proof.
  intros es w'. subst w'.
  unfold Sqlite.evaluateAndSend, Sqlite.getUnemailedEntries.
  destruct (Sqlite.all_error env); [left; split; reflexivity|].
  fold es. destruct es as [|e0 es0] eqn:Hes; [left; split; reflexivity|].
  rewrite length_zero_false.
  match goal with |- context [if ?c then _ else _] => destruct c end;
    [|left; split; reflexivity].
  unfold Sqlite.sendNewsletter. rewrite length_zero_false.
  destruct (Sqlite.resend_emails_send env
              (Sqlite.digest toISOString env (e0 :: es0)));
    [right | left; split; reflexivity | left; split; reflexivity].
  split; [discriminate|].
  rewrite Sqlite_uncaught_db, Sqlite_uncaught_outbox. split; reflexivity.
Qed.

Lemma Sqlite_cycle_success_db (env : Sqlite.Env) (w : Sqlite.World)
      (data_id : option JSString) :
  let es := Sqlite.SELECT_unemailed (Sqlite.db w) in
  Sqlite.all_error env = None ->
  Sqlite.shouldSend Date_parse es
    (Sqlite.getLastEmailSent Date_parse env (Sqlite.db w)) (Sqlite.now env)
  = true ->
  Sqlite.resend_emails_send env (Sqlite.digest toISOString env es)
  = SendData data_id ->
  Sqlite.db (Sqlite.evaluateAndSend Date_parse toISOString env w)
  = Sqlite.updateLastEmailSent toISOString env
      (Sqlite.markEntriesEmailed env (map id es) (Sqlite.db w)).
Proof.
  intros es Hread Hv Hsend.
  rewrite (Sqlite_cycle_by_verdict Date_parse toISOString env w Hread).
  cbv zeta. fold es. rewrite Hv.
  assert (Hne : es <> []).
  { intros E. unfold Sqlite.shouldSend in Hv. rewrite E in Hv. discriminate. }
  unfold Sqlite.sendNewsletter. rewrite (nonempty_length es Hne), Hsend.
  rewrite Sqlite_uncaught_db. reflexivity.
Qed.

Lemma Sqlite_cycle_nothing_pending (env : Sqlite.Env) (w : Sqlite.World) :
  Sqlite.SELECT_unemailed (Sqlite.db w) = [] ->
  Sqlite.db (Sqlite.evaluateAndSend Date_parse toISOString env w) = Sqlite.db w
  /\ Sqlite.outbox (Sqlite.evaluateAndSend Date_parse toISOString env w)
     = Sqlite.outbox w.
Proof.
  intros H. destruct (Sqlite_cycle_cases env w) as [Hsame | [Hne _]].
  - exact Hsame.
  - cbv zeta in Hne. rewrite H in Hne. congruence.
Qed.

(** The same for the Sheets server, where marking can throw after the
    mail has gone. *)
Lemma Sheets_cycle_cases (env : Sheets.Env) (w : Sheets.World) :
  let es := Sheets.unemailed_of_rows Date_parse Number (Sheets.sheet w) in
  let w' := Sheets.evaluateAndSend Date_parse Number toISOString env w in
  let marked :=
    map (fun r =>
           if existsb (IdVal_eqb (IdStr (Sheets.r0 r))) (map id es)
           then Sheets.mkRow (Sheets.r0 r) (Sheets.r1 r) (Sheets.r2 r)
                  (Sheets.r3 r) (lit "1")
           else r) (Sheets.sheet w) in
  (Sheets.sheet w' = Sheets.sheet w
   /\ Sheets.lastEmailSent w' = Sheets.lastEmailSent w
   /\ Sheets.outbox w' = Sheets.outbox w)
  \/ (es <> []
      /\ Sheets.outbox w'
         = Sheets.outbox w ++ [Sheets.digest toISOString env es]
      /\ ((Sheets.sheet w' = Sheets.sheet w
           /\ Sheets.lastEmailSent w' = Sheets.lastEmailSent w
           /\ (Sheets.mark_get_error env <> None
               \/ Sheets.mark_update_error env <> None))
          \/ (Sheets.sheet w' = marked
              /\ Sheets.lastEmailSent w'
                 = Some (TimeValue (Sheets.now_ledger env))
              /\ Sheets.mark_get_error env = None
              /\ Sheets.mark_update_error env = None))).
Proof.
  intros es w' marked. subst w'.
  unfold Sheets.evaluateAndSend, Sheets.getUnemailedEntries.
  destruct (Sheets.read_error env); [left; repeat split; reflexivity|].
  fold es. destruct es as [|e0 es0] eqn:Hes; [left; repeat split; reflexivity|].
  rewrite length_zero_false.
  match goal with |- context [if ?c then _ else _] => destruct c end;
    [|left; repeat split; reflexivity].
  unfold Sheets.sendNewsletter. rewrite length_zero_false.
  destruct (Sheets.resend_emails_send env
              (Sheets.digest toISOString env (e0 :: es0)));
    [right | left; repeat split; reflexivity | left; repeat split; reflexivity].
  split; [discriminate|].
  unfold Sheets.markEntriesEmailed.
  destruct (Sheets.mark_get_error env) as [e1|] eqn:H1.
  { split; [reflexivity|]. left. repeat split. left. discriminate. }
  destruct (Sheets.mark_update_error env) as [e2|] eqn:H2.
  { split; [reflexivity|]. left. repeat split. right. discriminate. }
  split; [reflexivity|]. right. repeat split.
Qed.
End CycleStates.

Section AfterACycle.
Variable Date_parse : JSString -> Date.
Variable Number : JSString -> JSNumber.
Variable toISOString : Z -> JSString.

Lemma Sqlite_success_nothing_pending (env : Sqlite.Env) (w : Sqlite.World)
      (data_id : option JSString) :
  let es := Sqlite.SELECT_unemailed (Sqlite.db w) in
  Sqlite.all_error env = None ->
  Sqlite.shouldSend Date_parse es
    (Sqlite.getLastEmailSent Date_parse env (Sqlite.db w)) (Sqlite.now env)
  = true ->
  Sqlite.resend_emails_send env (Sqlite.digest toISOString env es)
  = SendData data_id ->
  Sqlite.mark_error env = false ->
  Sqlite.SELECT_unemailed
    (Sqlite.db (Sqlite.evaluateAndSend Date_parse toISOString env w)) = [].
Proof.
  intros es Hread Hv Hsend Hmark.
  rewrite (Sqlite_cycle_success_db Date_parse toISOString env w data_id
             Hread Hv Hsend).
  apply SELECT_unemailed_none.
  rewrite (proj1 (Sqlite_update_entries toISOString env _)).
  apply Sqlite_mark_clears; [exact Hmark|].
  intros e He Hz. apply in_map. apply In_SELECT_unemailed. now split.
Qed.

Lemma Sheets_marked_nothing_pending (rows : list Sheets.Row) :
  is_zero (Number (lit "1")) = false ->
  let es := Sheets.unemailed_of_rows Date_parse Number rows in
  Sheets.unemailed_of_rows Date_parse Number
    (map (fun r =>
            if existsb (IdVal_eqb (IdStr (Sheets.r0 r))) (map id es)
            then Sheets.mkRow (Sheets.r0 r) (Sheets.r1 r) (Sheets.r2 r)
                   (Sheets.r3 r) (lit "1")
            else r) rows) = [].
Proof.
  intros Hone es. unfold Sheets.unemailed_of_rows at 1.
  rewrite map_map.
  rewrite (filter_map_none (fun e => is_zero (emailed e))); [reflexivity|].
  intros r Hr.
  destruct (existsb (IdVal_eqb (IdStr (Sheets.r0 r))) (map id es)) eqn:Hex.
  - exact Hone.
  - destruct (is_zero (emailed (Sheets.row_entry Number r))) eqn:Hz;
      [|reflexivity].
    assert (Hin : In (Sheets.row_entry Number r) es).
    { eapply Permutation_in; [apply unemailed_of_rows_perm|].
      apply In_unsent. split; [now apply in_map | exact Hz]. }
    apply (in_map id) in Hin.
    change (id (Sheets.row_entry Number r)) with (IdStr (Sheets.r0 r)) in Hin.
    rewrite (existsb_IdVal_In _ _ Hin) in Hex. discriminate.
Qed.

Lemma Sheets_cycle_nothing_pending (env : Sheets.Env) (w : Sheets.World) :
  Sheets.unemailed_of_rows Date_parse Number (Sheets.sheet w) = [] ->
  let w' := Sheets.evaluateAndSend Date_parse Number toISOString env w in
  Sheets.sheet w' = Sheets.sheet w
  /\ Sheets.lastEmailSent w' = Sheets.lastEmailSent w
  /\ Sheets.outbox w' = Sheets.outbox w.
Proof.
  intros H w'.
  destruct (Sheets_cycle_cases Date_parse Number toISOString env w)
    as [Hsame | [Hne _]].
  - exact Hsame.
  - cbv zeta in Hne. rewrite H in Hne. congruence.
Qed.

Lemma Sheets_cycle_success_state (env : Sheets.Env) (w : Sheets.World)
      (data_id : option JSString) :
  let es := Sheets.unemailed_of_rows Date_parse Number (Sheets.sheet w) in
  let w' := Sheets.evaluateAndSend Date_parse Number toISOString env w in
  Sheets.read_error env = None ->
  Sheets.shouldSend Date_parse es (Sheets.lastEmailSent w) (Sheets.now env)
  = true ->
  Sheets.resend_emails_send env (Sheets.digest toISOString env es)
  = SendData data_id ->
  Sheets.mark_get_error env = None ->
  Sheets.mark_update_error env = None ->
  Sheets.sheet w'
  = map (fun r =>
           if existsb (IdVal_eqb (IdStr (Sheets.r0 r))) (map id es)
           then Sheets.mkRow (Sheets.r0 r) (Sheets.r1 r) (Sheets.r2 r)
                  (Sheets.r3 r) (lit "1")
           else r) (Sheets.sheet w)
  /\ Sheets.lastEmailSent w' = Some (TimeValue (Sheets.now_ledger env))
  /\ Sheets.outbox w' = Sheets.outbox w ++ [Sheets.digest toISOString env es].
Proof.
  intros es w' Hread Hv Hsend Hg Hu. subst w'.
  rewrite (Sheets_cycle_by_verdict Date_parse Number toISOString env w Hread).
  cbv zeta. fold es. rewrite Hv.
  assert (Hne : es <> []).
  { intros E. unfold Sheets.shouldSend in Hv. rewrite E in Hv. discriminate. }
  unfold Sheets.sendNewsletter. rewrite (nonempty_length es Hne), Hsend.
  unfold Sheets.markEntriesEmailed. rewrite Hg, Hu.
  repeat split.
Qed.
End AfterACycle.

(** X5.  A cycle of the SQLite server that sends (the provider accepts
    the digest and the UPDATE goes through) leaves no entry pending; it puts
    the digest in the outbox and, when the ledger write goes through, sets
    the ledger to the time of the send. *)
Theorem Sqlite_sending_cycle_clears_backlog :
  forall (Date_parse : JSString -> Date) (toISOString : Z -> JSString)
         (env : Sqlite.Env) (w : Sqlite.World) (data_id : option JSString),
    let es := Sqlite.SELECT_unemailed (Sqlite.db w) in
    let w' := Sqlite.evaluateAndSend Date_parse toISOString env w in
    Sqlite.all_error env = None ->
    Sqlite.shouldSend Date_parse es
      (Sqlite.getLastEmailSent Date_parse env (Sqlite.db w)) (Sqlite.now env)
    = true ->
    Sqlite.resend_emails_send env (Sqlite.digest toISOString env es)
    = SendData data_id ->
    Sqlite.mark_error env = false ->
    Sqlite.SELECT_unemailed (Sqlite.db w') = []
    /\ Sqlite.outbox w' = Sqlite.outbox w ++ [Sqlite.digest toISOString env es]
    /\ (Sqlite.ledger_error env = false ->
        Sqlite.last_email_sent (Sqlite.db w')
        = Some (toISOString (Sqlite.now_ledger env))).
Proof.
  intros Date_parse toISOString env w data_id es w' Hread Hv Hsend Hmark.
  split; [| split].
  - exact (Sqlite_success_nothing_pending Date_parse toISOString env w data_id
             Hread Hv Hsend Hmark).
  - exact (Sqlite_cycle_sends Date_parse toISOString env w data_id
             Hread Hv Hsend).
  - intros Hledger. subst w'.
    rewrite (Sqlite_cycle_success_db Date_parse toISOString env w data_id
               Hread Hv Hsend).
    unfold Sqlite.updateLastEmailSent. rewrite Hledger. reflexivity.
Qed.

(** X6.  No double send in the SQLite server: after a cycle that sends and
    marks, a second cycle, whatever the outside answers, sends nothing and
    leaves the database as it is; the two cycles send exactly one mail. *)
Theorem Sqlite_second_cycle_sends_nothing :
  forall (Date_parse : JSString -> Date) (toISOString : Z -> JSString)
         (env env2 : Sqlite.Env) (w : Sqlite.World)
         (data_id : option JSString),
    let es := Sqlite.SELECT_unemailed (Sqlite.db w) in
    let w' := Sqlite.evaluateAndSend Date_parse toISOString env w in
    let w'' := Sqlite.evaluateAndSend Date_parse toISOString env2 w' in
    Sqlite.all_error env = None ->
    Sqlite.shouldSend Date_parse es
      (Sqlite.getLastEmailSent Date_parse env (Sqlite.db w)) (Sqlite.now env)
    = true ->
    Sqlite.resend_emails_send env (Sqlite.digest toISOString env es)
    = SendData data_id ->
    Sqlite.mark_error env = false ->
    Sqlite.db w'' = Sqlite.db w'
    /\ Sqlite.outbox w''
       = Sqlite.outbox w ++ [Sqlite.digest toISOString env es].
Proof.
  intros Date_parse toISOString env env2 w data_id es w' w''
         Hread Hv Hsend Hmark.
  pose proof (Sqlite_success_nothing_pending Date_parse toISOString env w
                data_id Hread Hv Hsend Hmark) as Hnone.
  destruct (Sqlite_cycle_nothing_pending Date_parse toISOString env2 w' Hnone)
    as [Hdb Hout].
  split; [exact Hdb|]. subst w''. rewrite Hout.
  exact (Sqlite_cycle_sends Date_parse toISOString env w data_id
           Hread Hv Hsend).
Qed.

(** X7.  A cycle of the Sheets server that sends and marks (with [Number]
    reading the written flag ["1"] as a number other than [0]) leaves no
    entry pending and sets the in-memory ledger to the time of the send; a
    second cycle then sends nothing. *)
Theorem Sheets_sending_cycle_clears_backlog :
  forall (Date_parse : JSString -> Date) (Number : JSString -> JSNumber)
         (toISOString : Z -> JSString)
         (env env2 : Sheets.Env) (w : Sheets.World)
         (data_id : option JSString),
    let es := Sheets.unemailed_of_rows Date_parse Number (Sheets.sheet w) in
    let w' := Sheets.evaluateAndSend Date_parse Number toISOString env w in
    let w'' := Sheets.evaluateAndSend Date_parse Number toISOString env2 w' in
    is_zero (Number (lit "1")) = false ->
    Sheets.read_error env = None ->
    Sheets.shouldSend Date_parse es (Sheets.lastEmailSent w) (Sheets.now env)
    = true ->
    Sheets.resend_emails_send env (Sheets.digest toISOString env es)
    = SendData data_id ->
    Sheets.mark_get_error env = None ->
    Sheets.mark_update_error env = None ->
    Sheets.unemailed_of_rows Date_parse Number (Sheets.sheet w') = []
    /\ Sheets.lastEmailSent w' = Some (TimeValue (Sheets.now_ledger env))
    /\ Sheets.outbox w' = Sheets.outbox w ++ [Sheets.digest toISOString env es]
    /\ Sheets.sheet w'' = Sheets.sheet w'
    /\ Sheets.outbox w'' = Sheets.outbox w'.
Proof.
  intros Date_parse Number toISOString env env2 w data_id es w' w''
         Hone Hread Hv Hsend Hg Hu.
  destruct (Sheets_cycle_success_state Date_parse Number toISOString env w
              data_id Hread Hv Hsend Hg Hu) as [Hsheet [Hledger Hout]].
  assert (Hnone : Sheets.unemailed_of_rows Date_parse Number (Sheets.sheet w')
                  = []).
  { subst w'. rewrite Hsheet.
    exact (Sheets_marked_nothing_pending Date_parse Number (Sheets.sheet w)
             Hone). }
  destruct (Sheets_cycle_nothing_pending Date_parse Number toISOString env2 w'
              Hnone) as [Hs2 [_ Ho2]].
  repeat (split; [assumption|]). exact Ho2.
Qed.

(** X8.  In the Sheets server a failure of [markEntriesEmailed] comes
    after the mail: when the provider has accepted the digest and the read
    or the write of the sheet then throws, the digest is in the outbox while
    no row is marked and the ledger keeps its value, so the same entries
    are pending at the next cycle. *)
Theorem Sheets_mark_failure_after_send :
  forall (Date_parse : JSString -> Date) (Number : JSString -> JSNumber)
         (toISOString : Z -> JSString)
         (env : Sheets.Env) (w : Sheets.World) (data_id : option JSString),
    let es := Sheets.unemailed_of_rows Date_parse Number (Sheets.sheet w) in
    let w' := Sheets.evaluateAndSend Date_parse Number toISOString env w in
    Sheets.read_error env = None ->
    Sheets.shouldSend Date_parse es (Sheets.lastEmailSent w) (Sheets.now env)
    = true ->
    Sheets.resend_emails_send env (Sheets.digest toISOString env es)
    = SendData data_id ->
    Sheets.mark_get_error env <> None
    \/ Sheets.mark_update_error env <> None ->
    Sheets.outbox w' = Sheets.outbox w ++ [Sheets.digest toISOString env es]
    /\ Sheets.sheet w' = Sheets.sheet w
    /\ Sheets.lastEmailSent w' = Sheets.lastEmailSent w
    /\ Sheets.unemailed_of_rows Date_parse Number (Sheets.sheet w') = es.
Proof.
  intros Date_parse Number toISOString env w data_id es w'
         Hread Hv Hsend Hfail.
  assert (Hout : Sheets.outbox w'
                 = Sheets.outbox w ++ [Sheets.digest toISOString env es])
    by exact (Sheets_cycle_sends Date_parse Number toISOString env w data_id
                Hread Hv Hsend).
  assert (Hst : Sheets.sheet w' = Sheets.sheet w
                /\ Sheets.lastEmailSent w' = Sheets.lastEmailSent w).
  { destruct (Sheets_cycle_cases Date_parse Number toISOString env w)
      as [[Hs [Hl Ho]] | [_ [_ [[Hs [Hl _]] | [_ [_ [Hg Hu]]]]]]].
    - split; assumption.
    - split; assumption.
    - destruct Hfail as [Hf | Hf]; contradiction. }
  destruct Hst as [Hs Hl].
  split; [exact Hout|]. split; [exact Hs|]. split; [exact Hl|].
  rewrite Hs. reflexivity.
Qed.


(** X10.  A cycle never adds, removes or rewrites a row: in both servers
    the rows keep their id, URL, event date and creation time, in the same
    order.  In the SQLite server a row that is pending after the cycle is a
    row that was pending before; in the Sheets server the flag of a row is
    what it was or ["1"]. *)
Theorem cycle_only_sets_flags :
  forall (Date_parse : JSString -> Date) (Number : JSString -> JSNumber)
         (toISOString : Z -> JSString),
    (forall (env : Sqlite.Env) (w : Sqlite.World),
        let w' := Sqlite.evaluateAndSend Date_parse toISOString env w in
        map row_core (Sqlite.entries (Sqlite.db w'))
        = map row_core (Sqlite.entries (Sqlite.db w))
        /\ Sqlite.seq (Sqlite.db w') = Sqlite.seq (Sqlite.db w)
        /\ (forall e, In e (unsent (Sqlite.entries (Sqlite.db w'))) ->
                      In e (unsent (Sqlite.entries (Sqlite.db w)))))
    /\ (forall (env : Sheets.Env) (w : Sheets.World),
          let w' := Sheets.evaluateAndSend Date_parse Number toISOString env w in
          map sheet_row_core (Sheets.sheet w')
          = map sheet_row_core (Sheets.sheet w)
          /\ Forall2 (fun r r' => Sheets.r4 r' = Sheets.r4 r
                                  \/ Sheets.r4 r' = lit "1")
               (Sheets.sheet w) (Sheets.sheet w')).
Proof.
  intros Date_parse Number toISOString. split.
  - intros env w w'.
    destruct (Sqlite_cycle_cases Date_parse toISOString env w)
      as [[Hdb _] | [_ [Hdb _]]]; fold w' in Hdb; rewrite Hdb.
    + repeat split. auto.
    + destruct (Sqlite_update_entries toISOString env
                  (Sqlite.markEntriesEmailed env
                     (map id (Sqlite.SELECT_unemailed (Sqlite.db w)))
                     (Sqlite.db w))) as [He Hs].
      rewrite He, Hs.
      destruct (Sqlite_mark_row_core env
                  (map id (Sqlite.SELECT_unemailed (Sqlite.db w)))
                  (Sqlite.db w)) as [Hc [Hq _]].
      split; [exact Hc|]. split; [exact Hq|].
      intros e He'. apply In_unsent in He'. destruct He' as [Hin Hz].
      apply In_unsent. split; [|exact Hz].
      eapply Sqlite_mark_no_new_pending; eauto.
  - intros env w w'.
    assert (Hcases : Sheets.sheet w' = Sheets.sheet w
                     \/ exists ids,
                         Sheets.sheet w'
                         = map (fun r =>
                                  if existsb (IdVal_eqb (IdStr (Sheets.r0 r))) ids
                                  then Sheets.mkRow (Sheets.r0 r) (Sheets.r1 r)
                                         (Sheets.r2 r) (Sheets.r3 r) (lit "1")
                                  else r) (Sheets.sheet w)).
    { destruct (Sheets_cycle_cases Date_parse Number toISOString env w)
        as [[Hs _] | [_ [_ [[Hs _] | [Hs _]]]]]; fold w' in Hs.
      - now left.
      - now left.
      - right. eexists. exact Hs. }
    destruct Hcases as [Hs | [ids Hs]]; rewrite Hs.
    + split; [reflexivity|].
      rewrite <- (map_id (Sheets.sheet w)) at 2.
      apply Forall2_map_right. intros r. now left.
    + split.
      * rewrite map_map. apply map_ext. intros r.
        destruct (existsb (IdVal_eqb (IdStr (Sheets.r0 r))) ids); reflexivity.
      * apply Forall2_map_right. intros r.
        destruct (existsb (IdVal_eqb (IdStr (Sheets.r0 r))) ids);
          [right | left]; reflexivity.
Qed.

(** X11.  A cycle sends at most one mail, and never an empty one: the
    outbox is what it was, or it has one more mail whose items are the
    pending entries, at least one, in their order. *)
Theorem cycle_sends_at_most_one_digest :
  forall (Date_parse : JSString -> Date) (Number : JSString -> JSNumber)
         (toISOString : Z -> JSString),
    (forall (env : Sqlite.Env) (w : Sqlite.World),
        let w' := Sqlite.evaluateAndSend Date_parse toISOString env w in
        Sqlite.outbox w' = Sqlite.outbox w
        \/ exists email,
            Sqlite.outbox w' = Sqlite.outbox w ++ [email]
            /\ Sqlite.items email <> []
            /\ map Sqlite.entry (Sqlite.items email)
               = Sqlite.SELECT_unemailed (Sqlite.db w)
            /\ Sqlite.subject_count email = length (Sqlite.items email))
    /\ (forall (env : Sheets.Env) (w : Sheets.World),
          let w' := Sheets.evaluateAndSend Date_parse Number toISOString env w in
          Sheets.outbox w' = Sheets.outbox w
          \/ exists email,
              Sheets.outbox w' = Sheets.outbox w ++ [email]
              /\ Sheets.items email <> []
              /\ map Sheets.entry (Sheets.items email)
                 = Sheets.unemailed_of_rows Date_parse Number (Sheets.sheet w)
              /\ Sheets.subject_count email = length (Sheets.items email)).
Proof.
  intros Date_parse Number toISOString. split.
  - intros env w w'.
    destruct (Sqlite_cycle_cases Date_parse toISOString env w)
      as [[_ Ho] | [Hne [_ Ho]]]; fold w' in Ho; [now left|].
    right. eexists. split; [exact Ho|]. split; [|split].
    + cbn [Sqlite.digest Sqlite.items]. intros E.
      apply map_eq_nil in E. contradiction.
    + apply Sqlite_enrich_entry.
    + reflexivity.
  - intros env w w'.
    destruct (Sheets_cycle_cases Date_parse Number toISOString env w)
      as [[_ [_ Ho]] | [Hne [Ho _]]]; fold w' in Ho; [now left|].
    right. eexists. split; [exact Ho|]. split; [|split].
    + cbn [Sheets.digest Sheets.items]. intros E.
      apply map_eq_nil in E. contradiction.
    + apply Sheets_enrich_entry.
    + reflexivity.
Qed.

(* ================================================================== *)
(** * More on the submission endpoint *)

Lemma trim_blank (u : JSString) : blank u -> trim u = [].
Proof.
  intros H. unfold trim.
  rewrite <- (app_nil_r u), (trimStart_blank u [] H). reflexivity.
Qed.

Lemma NoDup_snoc {A : Type} (l : list A) (x : A) :
  NoDup l -> ~ In x l -> NoDup (l ++ [x]).
Proof.
  intros Hl Hx.
  apply (Permutation_NoDup (Permutation_cons_append l x)).
  now constructor.
Qed.

Section SubmitCases.
Variable Date_parse : JSString -> Date.
Variable toISOString : Z -> JSString.

(** The answers of [/submit] in the SQLite server, with what each leaves
    in the table. *)
Lemma Sqlite_submit_cases (env : Sqlite.Env) (body : Body) (d : Sqlite.Db) :
  let r := Sqlite.submit Date_parse env body d in
  (exists u date,
      b_url body = Some u /\ b_date body = Some date
      /\ truthy (trim u) = true /\ truthy date = true
      /\ Sqlite.submittedInPast Date_parse env date = false
      /\ ~ In (trim u) (map url (Sqlite.entries d))
      /\ fst r = mkResponse 200 (JSuccess (IdNum (Sqlite.seq d + 1)))
      /\ snd r
         = Sqlite.mkDb
             (Sqlite.entries d ++
                [mkEntry (IdNum (Sqlite.seq d + 1)) (trim u) date
                   (Sqlite.current_timestamp env) (Integer 0)])
             (Sqlite.last_email_sent d) (Sqlite.seq d + 1))
  \/ (snd r = d
      /\ exists code msg,
          fst r = mkResponse code (JError msg)
          /\ (code = 400 \/ code = 409 \/ code = 500)).
Proof.
  unfold Sqlite.submit.
  destruct (b_url body) as [u|]; destruct (b_date body) as [date|];
    cbn [option_map];
    try (right; split; [reflexivity|]; do 2 eexists; split;
         [reflexivity | auto]).
  destruct (truthy (trim u)) eqn:Hu; cbn [negb orb];
    [|right; split; [reflexivity|]; do 2 eexists; split;
      [reflexivity | auto]].
  destruct (truthy date) eqn:Hd; cbn [negb];
    [|right; split; [reflexivity|]; do 2 eexists; split;
      [reflexivity | auto]].
  destruct (Sqlite.submittedInPast Date_parse env date) eqn:Hpast;
    [right; split; [reflexivity|]; do 2 eexists; split;
     [reflexivity | auto]|].
  unfold Sqlite.INSERT_entry.
  destruct (Sqlite.insert_error env) as [err|].
  { destruct (includes (message err) (lit "UNIQUE"));
      right; (split; [reflexivity|]); do 2 eexists; (split;
        [reflexivity | auto]). }
  destruct (array_includes (map url (Sqlite.entries d)) (trim u)) eqn:Hin.
  { cbn [message]. rewrite includes_UNIQUE.
    right. split; [reflexivity|]. do 2 eexists. split; [reflexivity | auto]. }
  left. exists u, date. apply array_includes_not_In in Hin.
  repeat (split; [first [reflexivity | assumption]|]). reflexivity.
Qed.

Lemma Sheets_submit_cases (env : Sheets.Env) (body : Body)
      (s : list Sheets.Row) :
  let r := Sheets.submit Date_parse toISOString env body s in
  (exists u date,
      b_url body = Some u /\ b_date body = Some date
      /\ truthy (trim u) = true /\ truthy date = true
      /\ Sheets.submittedInPast Date_parse env date = false
      /\ ~ In (trim u) (Sheets.column_B s)
      /\ fst r
         = mkResponse 200 (JSuccess (IdStr (Z_toString (Sheets.now_id env))))
      /\ snd r
         = s ++ [Sheets.mkRow (Z_toString (Sheets.now_id env)) (trim u) date
                   (toISOString (Sheets.now_created env)) (lit "0")])
  \/ (snd r = s
      /\ exists code msg,
          fst r = mkResponse code (JError msg)
          /\ (code = 400 \/ code = 409 \/ code = 500)).
Proof.
  unfold Sheets.submit.
  destruct (b_url body) as [u|]; destruct (b_date body) as [date|];
    cbn [option_map];
    try (right; split; [reflexivity|]; do 2 eexists; split;
         [reflexivity | auto]).
  destruct (truthy (trim u)) eqn:Hu; cbn [negb orb];
    [|right; split; [reflexivity|]; do 2 eexists; split;
      [reflexivity | auto]].
  destruct (truthy date) eqn:Hd; cbn [negb];
    [|right; split; [reflexivity|]; do 2 eexists; split;
      [reflexivity | auto]].
  destruct (Sheets.submittedInPast Date_parse env date) eqn:Hpast;
    [right; split; [reflexivity|]; do 2 eexists; split;
     [reflexivity | auto]|].
  destruct (Sheets.submit_get_error env);
    [right; split; [reflexivity|]; do 2 eexists; split;
     [reflexivity | auto]|].
  destruct (array_includes (Sheets.column_B s) (trim u)) eqn:Hin;
    [right; split; [reflexivity|]; do 2 eexists; split;
     [reflexivity | auto]|].
  destruct (Sheets.append_error env);
    [right; split; [reflexivity|]; do 2 eexists; split;
     [reflexivity | auto]|].
  left. exists u, date. apply array_includes_not_In in Hin.
  repeat (split; [first [reflexivity | assumption]|]). reflexivity.
Qed.

(** A date after today's is not before today in any zone. *)
Lemma local_day_after_today (tz now day : Z) :
  - msPerDay < tz < msPerDay ->
  local_day tz now < day ->
  (local_day tz (day * msPerDay) <? local_day tz now) = false.
Proof.
  intros Htz Hlt. apply Z.ltb_ge.
  destruct (Z_lt_le_dec tz 0) as [Hneg|Hpos].
  - rewrite local_day_of_utc_midnight_west by lia. lia.
  - rewrite local_day_of_utc_midnight_east by lia. lia.
Qed.
End SubmitCases.

(** X12.  [/submit] answers 200, 400, 409 or 500 and never touches a
    stored row: with 200 the store is the old one followed by one pending
    row that holds the trimmed URL and the date as sent (in the SQLite
    server with the next rowid as id, the ledger unchanged); with any other
    answer the store is unchanged. *)
Theorem submit_appends_one_row_or_nothing :
  forall (Date_parse : JSString -> Date) (toISOString : Z -> JSString),
    (forall (env : Sqlite.Env) (body : Body) (d : Sqlite.Db),
        let r := Sqlite.submit Date_parse env body d in
        (exists u date,
            b_url body = Some u /\ b_date body = Some date
            /\ fst r = mkResponse 200 (JSuccess (IdNum (Sqlite.seq d + 1)))
            /\ snd r
               = Sqlite.mkDb
                   (Sqlite.entries d ++
                      [mkEntry (IdNum (Sqlite.seq d + 1)) (trim u) date
                         (Sqlite.current_timestamp env) (Integer 0)])
                   (Sqlite.last_email_sent d) (Sqlite.seq d + 1))
        \/ (snd r = d
            /\ exists code msg,
                fst r = mkResponse code (JError msg)
                /\ (code = 400 \/ code = 409 \/ code = 500)))
    /\ (forall (env : Sheets.Env) (body : Body) (s : list Sheets.Row),
          let r := Sheets.submit Date_parse toISOString env body s in
          (exists u date,
              b_url body = Some u /\ b_date body = Some date
              /\ fst r
                 = mkResponse 200
                     (JSuccess (IdStr (Z_toString (Sheets.now_id env))))
              /\ snd r
                 = s ++ [Sheets.mkRow (Z_toString (Sheets.now_id env))
                           (trim u) date
                           (toISOString (Sheets.now_created env)) (lit "0")])
          \/ (snd r = s
              /\ exists code msg,
                  fst r = mkResponse code (JError msg)
                  /\ (code = 400 \/ code = 409 \/ code = 500))).
Proof.
  intros Date_parse toISOString. split.
  - intros env body d r.
    destruct (Sqlite_submit_cases Date_parse env body d)
      as [[u [date [Hu [Hd [_ [_ [_ [_ [Hr Hs]]]]]]]]] | Hno].
    + left. exists u, date. auto.
    + right. exact Hno.
  - intros env body s r.
    destruct (Sheets_submit_cases Date_parse toISOString env body s)
      as [[u [date [Hu [Hd [_ [_ [_ [_ [Hr Hs]]]]]]]]] | Hno].
    + left. exists u, date. auto.
    + right. exact Hno.
Qed.

(** X13.  [/submit] keeps the URLs unique: a table (a column B) without a
    repeated URL has none after a submission, whatever the answer. *)
Theorem submit_keeps_urls_unique :
  forall (Date_parse : JSString -> Date) (toISOString : Z -> JSString),
    (forall (env : Sqlite.Env) (body : Body) (d : Sqlite.Db),
        NoDup (map url (Sqlite.entries d)) ->
        NoDup (map url (Sqlite.entries
                          (snd (Sqlite.submit Date_parse env body d)))))
    /\ (forall (env : Sheets.Env) (body : Body) (s : list Sheets.Row),
          NoDup (Sheets.column_B s) ->
          NoDup (Sheets.column_B
                   (snd (Sheets.submit Date_parse toISOString env body s)))).
Proof.
  intros Date_parse toISOString. split.
  - intros env body d Hnd.
    destruct (Sqlite_submit_cases Date_parse env body d)
      as [[u [date [_ [_ [_ [_ [_ [Hnew [_ Hs]]]]]]]]] | [Hs _]];
      cbv zeta in Hs; rewrite Hs; [|exact Hnd].
    cbn [Sqlite.entries]. rewrite map_app. cbn [map url].
    now apply NoDup_snoc.
  - intros env body s Hnd.
    destruct (Sheets_submit_cases Date_parse toISOString env body s)
      as [[u [date [_ [_ [Hu [_ [_ [Hnew [_ Hs]]]]]]]]] | [Hs _]];
      cbv zeta in Hs; rewrite Hs; [|exact Hnd].
    rewrite column_B_app. unfold Sheets.column_B at 2.
    cbn [flat_map Sheets.r1 app]. rewrite Hu. cbn [app].
    now apply NoDup_snoc.
Qed.

(** X14.  In the SQLite server the ids stay distinct rowids: when every id
    of the table is a rowid at most [seq] and no id is repeated, the same
    holds after a submission, and the id of a stored submission is larger
    than every id of the table before. *)
Theorem Sqlite_submit_keeps_ids_fresh :
  forall (Date_parse : JSString -> Date)
         (env : Sqlite.Env) (body : Body) (d : Sqlite.Db),
    let r := Sqlite.submit Date_parse env body d in
    ids_below d ->
    NoDup (map id (Sqlite.entries d)) ->
    ids_below (snd r)
    /\ NoDup (map id (Sqlite.entries (snd r)))
    /\ (forall i, json (fst r) = JSuccess i ->
          exists n, i = IdNum n
                    /\ forall e m, In e (Sqlite.entries d) ->
                                   id e = IdNum m -> m < n).
Proof.
  intros Date_parse env body d r Hbelow Hnd.
  destruct (Sqlite_submit_cases Date_parse env body d)
    as [[u [date [_ [_ [_ [_ [_ [_ [Hr Hs]]]]]]]]] | [Hs [code [msg [Hr _]]]]];
    fold r in Hr, Hs; rewrite Hs, Hr.
  - assert (Hold : forall e m, In e (Sqlite.entries d) -> id e = IdNum m ->
                               m <= Sqlite.seq d).
    { intros e m He Hid. unfold ids_below in Hbelow.
      eapply Forall_forall in Hbelow; [|exact He].
      destruct Hbelow as [n [Hn Hle]]. congruence. }
    split; [|split].
    + unfold ids_below. cbn [Sqlite.entries Sqlite.seq].
      apply Forall_app. split.
      * unfold ids_below in Hbelow.
        eapply Forall_impl; [|exact Hbelow].
        intros e [n [Hn Hle]]. exists n. split; [exact Hn | lia].
      * constructor; [|constructor]. eexists. split; [reflexivity | lia].
    + cbn [Sqlite.entries]. rewrite map_app. cbn [map id].
      apply NoDup_snoc; [exact Hnd|].
      intros Hin. apply in_map_iff in Hin. destruct Hin as [e [Hid He]].
      specialize (Hold e _ He Hid). lia.
    + cbn [json fst]. intros i Hi. injection Hi as <-.
      eexists. split; [reflexivity|]. intros e m He Hid.
      specialize (Hold e m He Hid). lia.
  - split; [exact Hbelow|]. split; [exact Hnd|].
    cbn [json fst]. discriminate.
Qed.

(** X15.  A URL made of blanks only is a missing URL: both servers answer
    400 "Missing url or date" and store nothing. *)
Theorem submit_blank_url_is_missing :
  forall (Date_parse : JSString -> Date) (toISOString : Z -> JSString)
         (u : JSString) (date : option JSString),
    blank u ->
    (forall (env : Sqlite.Env) (d : Sqlite.Db),
        Sqlite.submit Date_parse env (mkBody (Some u) date) d
        = (mkResponse 400 (JError "Missing url or date"), d))
    /\ (forall (env : Sheets.Env) (s : list Sheets.Row),
          Sheets.submit Date_parse toISOString env (mkBody (Some u) date) s
          = (mkResponse 400 (JError "Missing url or date"), s)).
Proof.
  intros Date_parse toISOString u date Hblank.
  pose proof (trim_blank u Hblank) as Ht. split.
  - intros env d. apply Sqlite_submit_missing. left.
    cbn [b_url option_map truthy_opt]. now rewrite Ht.
  - intros env s. apply Sheets_submit_missing. left.
    cbn [b_url option_map truthy_opt]. now rewrite Ht.
Qed.

(** X16.  Blanks around the URL change nothing: a submission whose URL is
    [u] with blanks before and after it gets the answer of the submission
    of [u] and leaves the same store. *)
Theorem submit_ignores_blanks_around_url :
  forall (Date_parse : JSString -> Date) (toISOString : Z -> JSString)
         (a u b : JSString) (date : option JSString),
    blank a -> blank b ->
    (forall (env : Sqlite.Env) (d : Sqlite.Db),
        Sqlite.submit Date_parse env (mkBody (Some (a ++ u ++ b)) date) d
        = Sqlite.submit Date_parse env (mkBody (Some u) date) d)
    /\ (forall (env : Sheets.Env) (s : list Sheets.Row),
          Sheets.submit Date_parse toISOString env
            (mkBody (Some (a ++ u ++ b)) date) s
          = Sheets.submit Date_parse toISOString env (mkBody (Some u) date) s).
Proof.
  intros Date_parse toISOString a u b date Ha Hb.
  pose proof (trim_padding a u b Ha Hb) as Ht. split.
  - intros env d. unfold Sqlite.submit. cbn [b_url b_date option_map].
    now rewrite Ht.
  - intros env s. unfold Sheets.submit. cbn [b_url b_date option_map].
    now rewrite Ht.
Qed.

(** X17.  A date that does not parse is not refused: [NaN < today] is
    false, so a submission of a new URL with such a date is stored as it is
    and answered 200. *)
Theorem submit_stores_unparseable_date :
  forall (Date_parse : JSString -> Date) (toISOString : Z -> JSString)
         (u date : JSString),
    truthy (trim u) = true -> truthy date = true ->
    Date_parse date = InvalidDate ->
    (forall (env : Sqlite.Env) (d : Sqlite.Db),
        Sqlite.insert_error env = None ->
        ~ In (trim u) (map url (Sqlite.entries d)) ->
        let r := Sqlite.submit Date_parse env (mkBody (Some u) (Some date)) d in
        status (fst r) = 200
        /\ In date (map event_date (Sqlite.entries (snd r))))
    /\ (forall (env : Sheets.Env) (s : list Sheets.Row),
          Sheets.submit_get_error env = None ->
          Sheets.append_error env = None ->
          ~ In (trim u) (Sheets.column_B s) ->
          let r := Sheets.submit Date_parse toISOString env
                     (mkBody (Some u) (Some date)) s in
          status (fst r) = 200
          /\ In date (map Sheets.r2 (snd r))).
Proof.
  intros Date_parse toISOString u date Hu Hd Hinv. split.
  - intros env d Herr Hnew r. subst r.
    assert (Hpast : Sqlite.submittedInPast Date_parse env date = false)
      by (unfold Sqlite.submittedInPast; now rewrite Hinv).
    rewrite (Sqlite_submit_stored Date_parse env u date d Hu Hd Hpast Herr Hnew).
    cbn [fst snd status Sqlite.entries]. split; [reflexivity|].
    rewrite map_app. apply in_or_app. right. left. reflexivity.
  - intros env s Hget Happ Hnew r. subst r.
    assert (Hpast : Sheets.submittedInPast Date_parse env date = false)
      by (unfold Sheets.submittedInPast; now rewrite Hinv).
    rewrite (Sheets_submit_checked Date_parse toISOString env u date s Hu Hd).
    rewrite Hpast, Hget. apply array_includes_not_In in Hnew.
    rewrite Hnew, Happ. cbn [fst snd status]. split; [reflexivity|].
    rewrite map_app. apply in_or_app. right. left. reflexivity.
Qed.

(** X18.  The dates that pass.  A new URL dated after today's local date
    is stored in every zone, and one dated today is stored on UTC and east
    of it: the answer is 200 with the id of the new row. *)
Theorem submit_accepts_today_and_later :
  forall (Date_parse : JSString -> Date) (toISOString : Z -> JSString)
         (u date : JSString) (day : Z),
    truthy (trim u) = true -> truthy date = true ->
    Date_parse date = TimeValue (day * msPerDay) ->
    in_calendar_range (day * msPerDay) ->
    (forall (env : Sqlite.Env) (d : Sqlite.Db),
        let today := local_day (Sqlite.tz env) (Sqlite.now env) in
        - msPerDay < Sqlite.tz env < msPerDay ->
        in_calendar_range (Sqlite.now env) ->
        today < day \/ (0 <= Sqlite.tz env /\ today <= day) ->
        Sqlite.insert_error env = None ->
        ~ In (trim u) (map url (Sqlite.entries d)) ->
        fst (Sqlite.submit Date_parse env (mkBody (Some u) (Some date)) d)
        = mkResponse 200 (JSuccess (IdNum (Sqlite.seq d + 1))))
    /\ (forall (env : Sheets.Env) (s : list Sheets.Row),
          let today := local_day (Sheets.tz env) (Sheets.now env) in
          - msPerDay < Sheets.tz env < msPerDay ->
          in_calendar_range (Sheets.now env) ->
          today < day \/ (0 <= Sheets.tz env /\ today <= day) ->
          Sheets.submit_get_error env = None ->
          Sheets.append_error env = None ->
          ~ In (trim u) (Sheets.column_B s) ->
          fst (Sheets.submit Date_parse toISOString env
                 (mkBody (Some u) (Some date)) s)
          = mkResponse 200
              (JSuccess (IdStr (Z_toString (Sheets.now_id env))))).
Proof.
  intros Date_parse toISOString u date day Hu Hd Hp Hday. split.
  - intros env d today Htz Hnow Hok Herr Hnew.
    assert (Hpast : Sqlite.submittedInPast Date_parse env date = false).
    { rewrite (Sqlite_submittedInPast_days Date_parse env date day Hp Hday Hnow).
      destruct Hok as [Hlt | [Heast Hle]].
      - now apply local_day_after_today.
      - apply submittedInPast_east; [lia | exact Hle]. }
    now rewrite (Sqlite_submit_stored Date_parse env u date d Hu Hd Hpast
                   Herr Hnew).
  - intros env s today Htz Hnow Hok Hget Happ Hnew.
    assert (Hpast : Sheets.submittedInPast Date_parse env date = false).
    { rewrite (Sheets_submittedInPast_days Date_parse env date day Hp Hday Hnow).
      destruct Hok as [Hlt | [Heast Hle]].
      - now apply local_day_after_today.
      - apply submittedInPast_east; [lia | exact Hle]. }
    rewrite (Sheets_submit_checked Date_parse toISOString env u date s Hu Hd).
    rewrite Hpast, Hget. apply array_includes_not_In in Hnew.
    now rewrite Hnew, Happ.
Qed.

(** X19.  What is submitted is pending: after a submission answered 200
    the next read of the pending entries holds an entry with the answered
    id, the trimmed URL and the date as sent (in the Sheets server with
    [Number] reading the written flag ["0"] as [0]). *)
Theorem submitted_entry_is_pending :
  forall (Date_parse : JSString -> Date) (Number : JSString -> JSNumber)
         (toISOString : Z -> JSString) (u date : JSString) (i : IdVal),
    (forall (env : Sqlite.Env) (d d' : Sqlite.Db),
        Sqlite.submit Date_parse env (mkBody (Some u) (Some date)) d
        = (mkResponse 200 (JSuccess i), d') ->
        exists e, In e (Sqlite.SELECT_unemailed d')
                  /\ id e = i /\ url e = trim u /\ event_date e = date)
    /\ (forall (env : Sheets.Env) (s s' : list Sheets.Row),
          is_zero (Number (lit "0")) = true ->
          Sheets.submit Date_parse toISOString env
            (mkBody (Some u) (Some date)) s
          = (mkResponse 200 (JSuccess i), s') ->
          exists e, In e (Sheets.unemailed_of_rows Date_parse Number s')
                    /\ id e = i /\ url e = trim u /\ event_date e = date).
Proof.
  intros Date_parse Number toISOString u date i. split.
  - intros env d d' H.
    destruct (Sqlite_submit_cases Date_parse env (mkBody (Some u) (Some date)) d)
      as [[u0 [date0 [Hu [Hd [_ [_ [_ [_ [Hr Hs]]]]]]]]]
         | [_ [code [msg [Hr _]]]]];
      cbv zeta in *; rewrite H in *; cbn [fst snd b_url b_date] in *.
    + injection Hu as <-. injection Hd as <-. injection Hr as Hi.
      subst i.
      exists (mkEntry (IdNum (Sqlite.seq d + 1)) (trim u) date
                (Sqlite.current_timestamp env) (Integer 0)).
      split; [|repeat split].
      apply In_SELECT_unemailed. rewrite Hs. cbn [Sqlite.entries].
      split; [apply in_or_app; right; left; reflexivity | reflexivity].
    + discriminate.
  - intros env s s' Hzero H.
    destruct (Sheets_submit_cases Date_parse toISOString env
                (mkBody (Some u) (Some date)) s)
      as [[u0 [date0 [Hu [Hd [_ [_ [_ [_ [Hr Hs]]]]]]]]]
         | [_ [code [msg [Hr _]]]]];
      cbv zeta in *; rewrite H in *; cbn [fst snd b_url b_date] in *.
    + injection Hu as <-. injection Hd as <-. injection Hr as Hi.
      subst i.
      exists (Sheets.row_entry Number
                (Sheets.mkRow (Z_toString (Sheets.now_id env)) (trim u) date
                   (toISOString (Sheets.now_created env)) (lit "0"))).
      split; [|repeat split].
      eapply Permutation_in; [apply unemailed_of_rows_perm|].
      apply In_unsent. split.
      * apply in_map. rewrite Hs. apply in_or_app. right. left. reflexivity.
      * exact Hzero.
    + discriminate.
Qed.

(* ================================================================== *)
(** * The listing of the entries, the items of a digest, the ledger *)

Lemma ORDER_BY_DESC_sorted {A : Type} (key : A -> JSString) (rows : list A) :
  StronglySorted (fun a b => text_leb (key b) (key a) = true)
    (ORDER_BY_DESC key rows).
Proof.
  unfold ORDER_BY_DESC.
  apply stable_sort_sorted with (ok := fun _ => True).
  - intros a b _ _ H. unfold text_leb.
    rewrite (text_compare_opp (key a) (key b)).
    destruct (text_compare (key a) (key b)); cbn [CompOpp];
      [reflexivity | discriminate | reflexivity].
  - intros a b _ _ H. unfold text_leb.
    destruct (text_compare (key a) (key b));
      [discriminate | reflexivity | discriminate].
  - intros a b c _ _ _ H1 H2. eapply text_leb_trans; eauto.
  - apply Forall_forall. intros; exact I.
Qed.

(** X20.  [/admin/entries] of the SQLite server lists every row of the
    table, once each, latest creation time first, and answers 500
    "DB error" when the query fails. *)
Theorem admin_lists_all_rows_latest_first :
  (forall (d : Sqlite.Db),
      exists rows,
        Sqlite.admin_entries None d = Sqlite.AdminRows rows
        /\ Permutation (Sqlite.entries d) rows
        /\ StronglySorted created_ge rows)
  /\ (forall (err : Error) (d : Sqlite.Db),
        Sqlite.admin_entries (Some err) d = Sqlite.AdminFailure 500 "DB error").
Proof.
  split.
  - intros d. eexists. split; [reflexivity|]. split.
    + apply stable_sort_perm.
    + apply (ORDER_BY_DESC_sorted created_at).
  - reflexivity.
Qed.


(** X22.  After a send the staleness condition is quiet for twenty-one
    days.  In the Sheets server, and in the SQLite server when the ledger
    write goes through and the stored ISO string parses back to the time it
    was made from, a cycle that sends leaves a ledger for which
    [conditionC] is [false] at every [now] at most twenty-one days after
    the send. *)
Theorem staleness_is_quiet_after_a_send :
  forall (Date_parse : JSString -> Date) (Number : JSString -> JSNumber)
         (toISOString : Z -> JSString),
    (forall (env env2 : Sqlite.Env) (w : Sqlite.World)
            (data_id : option JSString),
        let es := Sqlite.SELECT_unemailed (Sqlite.db w) in
        let w' := Sqlite.evaluateAndSend Date_parse toISOString env w in
        Sqlite.all_error env = None ->
        Sqlite.shouldSend Date_parse es
          (Sqlite.getLastEmailSent Date_parse env (Sqlite.db w))
          (Sqlite.now env) = true ->
        Sqlite.resend_emails_send env (Sqlite.digest toISOString env es)
        = SendData data_id ->
        Sqlite.ledger_error env = false ->
        Date_parse (toISOString (Sqlite.now_ledger env))
        = TimeValue (Sqlite.now_ledger env) ->
        Sqlite.get_error env2 = false ->
        Sqlite.now env2 - Sqlite.now_ledger env <= 21 * msPerDay ->
        Sqlite.conditionC
          (Sqlite.getLastEmailSent Date_parse env2 (Sqlite.db w'))
          (Sqlite.now env2) = false)
    /\ (forall (env env2 : Sheets.Env) (w : Sheets.World)
               (data_id : option JSString),
          let es := Sheets.unemailed_of_rows Date_parse Number (Sheets.sheet w) in
          let w' := Sheets.evaluateAndSend Date_parse Number toISOString env w in
          Sheets.read_error env = None ->
          Sheets.shouldSend Date_parse es (Sheets.lastEmailSent w)
            (Sheets.now env) = true ->
          Sheets.resend_emails_send env (Sheets.digest toISOString env es)
          = SendData data_id ->
          Sheets.mark_get_error env = None ->
          Sheets.mark_update_error env = None ->
          Sheets.now env2 - Sheets.now_ledger env <= 21 * msPerDay ->
          Sheets.conditionC (Sheets.getLastEmailSent w') (Sheets.now env2)
          = false).
Proof.
  intros Date_parse Number toISOString. split.
  - intros env env2 w data_id es w' Hread Hv Hsend Hled Hround Hget Hclose.
    subst w'.
    rewrite (Sqlite_cycle_success_db Date_parse toISOString env w data_id
               Hread Hv Hsend).
    unfold Sqlite.getLastEmailSent, Sqlite.updateLastEmailSent.
    rewrite Hget, Hled. cbn [Sqlite.last_email_sent]. rewrite Hround.
    unfold Sqlite.conditionC, Date_sub, num_gt.
    apply Z.ltb_ge. unfold msPerDay in Hclose. lia.
  - intros env env2 w data_id es w' Hread Hv Hsend Hg Hu Hclose.
    destruct (Sheets_cycle_success_state Date_parse Number toISOString env w
                data_id Hread Hv Hsend Hg Hu) as [_ [Hledger _]].
    unfold Sheets.getLastEmailSent. fold w' in Hledger. rewrite Hledger.
    unfold Sheets.conditionC, Date_sub, num_gt.
    apply Z.ltb_ge. unfold msPerDay in Hclose. lia.
Qed.

(** X23.  A ledger that cannot be read counts as no last send: when
    [db.get] fails, [getLastEmailSent] resolves to [null], so any pending
    entry gives the verdict [true], whatever the ledger holds. *)
Theorem unreadable_ledger_counts_as_never_sent :
  forall (Date_parse : JSString -> Date) (env : Sqlite.Env) (d : Sqlite.Db)
         (es : list Entry) (now : Z),
    Sqlite.get_error env = true ->
    es <> [] ->
    Sqlite.getLastEmailSent Date_parse env d = None
    /\ Sqlite.shouldSend Date_parse es
         (Sqlite.getLastEmailSent Date_parse env d) now = true.
Proof.
  intros Date_parse env d es now Herr Hne.
  assert (Hnull : Sqlite.getLastEmailSent Date_parse env d = None)
    by (unfold Sqlite.getLastEmailSent; now rewrite Herr).
  split; [exact Hnull|]. rewrite Hnull. unfold Sqlite.shouldSend.
  rewrite (nonempty_length es Hne). apply orb_true_r.
Qed.

(* ================================================================== *)
(** * Thresholds, flags and the two renderings *)

(** X24.  The thresholds are inclusive for urgency and exclusive for
    staleness: an entry dated exactly seven days after [now] is urgent and
    one dated a millisecond later is not; a last send exactly twenty-one
    days old is not stale and one a millisecond older is. *)
Theorem thresholds_at_the_boundary :
  forall (Date_parse : JSString -> Date) (e : Entry) (now : Z),
    is_time_value (now + 7 * msPerDay) ->
    (Date_parse (event_date e) = TimeValue (now + 7 * msPerDay) ->
     Sqlite.conditionA Date_parse [e] now = true
     /\ Sheets.conditionA Date_parse [e] now = true)
    /\ (Date_parse (event_date e) = TimeValue (now + 7 * msPerDay + 1) ->
        Sqlite.conditionA Date_parse [e] now = false
        /\ Sheets.conditionA Date_parse [e] now = false)
    /\ (Sqlite.conditionC (Some (TimeValue (now - 21 * msPerDay))) now = false
        /\ Sheets.conditionC (Some (TimeValue (now - 21 * msPerDay))) now
           = false)
    /\ (Sqlite.conditionC (Some (TimeValue (now - 21 * msPerDay - 1))) now
        = true
        /\ Sheets.conditionC (Some (TimeValue (now - 21 * msPerDay - 1))) now
           = true).
Proof.
  intros Date_parse e now Hrange.
  change Sheets.conditionA with Sqlite.conditionA.
  change Sheets.conditionC with Sqlite.conditionC.
  split; [| split; [| split]].
  - intros Hp. split;
      apply (Sqlite_conditionA_intro Date_parse [e] now e _
               (or_introl eq_refl) Hp Hrange); lia.
  - intros Hp. unfold Sqlite.conditionA, Sqlite.sevenDaysFromNow.
    cbn [existsb]. rewrite Hp, seven_days, (TimeClip_in_range _ Hrange).
    unfold Date_le. rewrite orb_false_r.
    split; apply Z.leb_gt; lia.
  - unfold Sqlite.conditionC, Date_sub, num_gt.
    split; apply Z.ltb_ge; unfold msPerDay; lia.
  - unfold Sqlite.conditionC, Date_sub, num_gt.
    split; apply Z.ltb_lt; unfold msPerDay; lia.
Qed.

(** X25.  Which rows of the sheet are pending.  A row whose flag cell is
    empty is pending, and every pending entry is the entry of a row whose
    flag cell is empty or reads as the number [0]: a row with any other
    flag, or one that is not a number, is never sent. *)
Theorem Sheets_pending_rows_by_flag :
  forall (Date_parse : JSString -> Date) (Number : JSString -> JSNumber)
         (rows : list Sheets.Row),
    (forall r, In r rows -> Sheets.r4 r = [] ->
               In (Sheets.row_entry Number r)
                 (Sheets.unemailed_of_rows Date_parse Number rows))
    /\ (forall e, In e (Sheets.unemailed_of_rows Date_parse Number rows) ->
          exists r, In r rows /\ e = Sheets.row_entry Number r
                    /\ (Sheets.r4 r = []
                        \/ is_zero (Number (Sheets.r4 r)) = true)).
Proof.
  intros Date_parse Number rows. split.
  - intros r Hr Hflag.
    eapply Permutation_in; [apply unemailed_of_rows_perm|].
    apply In_unsent. split; [now apply in_map|].
    unfold Sheets.row_entry. cbn [emailed]. rewrite Hflag. reflexivity.
  - intros e He.
    apply (Permutation_in _
             (Permutation_sym (unemailed_of_rows_perm Date_parse Number rows)))
      in He.
    apply In_unsent in He. destruct He as [Hin Hz].
    apply in_map_iff in Hin. destruct Hin as [r [<- Hr]].
    exists r. split; [exact Hr|]. split; [reflexivity|].
    unfold Sheets.row_entry in Hz. cbn [emailed] in Hz.
    destruct (Sheets.r4 r) as [|c s]; [now left|].
    right. exact Hz.
Qed.

(** X26.  The two servers give an entry the same title and the same
    description when the fetch of its preview has the same outcome in
    both. *)
Theorem both_servers_render_the_same_item :
  forall (envq : Sqlite.Env) (envs : Sheets.Env) (e : Entry),
    Sqlite.getLinkPreview envq (url e) = Sheets.getLinkPreview envs (url e) ->
    Sqlite.entry (Sqlite.enrich envq e) = Sheets.entry (Sheets.enrich envs e)
    /\ Sqlite.title (Sqlite.enrich envq e) = Sheets.title (Sheets.enrich envs e)
    /\ Sqlite.description (Sqlite.enrich envq e)
       = Sheets.description (Sheets.enrich envs e).
Proof.
  intros envq envs e H. unfold Sqlite.enrich, Sheets.enrich. rewrite H.
  destruct (Sheets.getLinkPreview envs (url e)); repeat split.
Qed.

(** ** The order of the table *)

Lemma StronglySorted_snoc {A : Type} (R : A -> A -> Prop) (l : list A)
      (y : A) :
  StronglySorted R l -> Forall (fun x => R x y) l ->
  StronglySorted R (l ++ [y]).
Proof.
  induction 1 as [|x l Hl IH Hx]; intros Hy; cbn [app].
  - constructor; constructor.
  - inversion Hy as [|x0 l0 Hxy Hly]; subst.
    constructor; [exact (IH Hly)|].
    apply Forall_app. split; [exact Hx|]. constructor; [exact Hxy|constructor].
Qed.

Lemma in_id_order_by_ids (l l' : list Entry) :
  map id l = map id l' -> in_id_order l -> in_id_order l'.
Proof.
  unfold in_id_order. revert l'.
  induction l as [|x l IH]; intros [|x' l'] Hmap Hs; try discriminate.
  - constructor.
  - cbn [map] in Hmap. injection Hmap as Hx Hl.
    inversion Hs as [|x0 l0 Hsl Hall]; subst.
    constructor; [exact (IH l' Hl Hsl)|].
    apply Forall_forall. intros y' Hy'.
    assert (Hin : In (id y') (map id l)).
    { rewrite Hl. now apply in_map. }
    apply in_map_iff in Hin. destruct Hin as [y [Hid Hy]].
    eapply Forall_forall in Hall; [|exact Hy].
    unfold id_lt in *. rewrite <- Hx, <- Hid. exact Hall.
Qed.

(** X27.  The table of the SQLite server stays in ascending order of id:
    a submission that is stored appends its row with an id above all
    others, and a cycle changes flags only. *)
Theorem Sqlite_table_stays_in_id_order :
  forall (Date_parse : JSString -> Date) (toISOString : Z -> JSString),
    (forall (env : Sqlite.Env) (body : Body) (d : Sqlite.Db),
        ids_below d ->
        in_id_order (Sqlite.entries d) ->
        in_id_order (Sqlite.entries (snd (Sqlite.submit Date_parse env body d))))
    /\ (forall (env : Sqlite.Env) (w : Sqlite.World),
          in_id_order (Sqlite.entries (Sqlite.db w)) ->
          in_id_order
            (Sqlite.entries
               (Sqlite.db (Sqlite.evaluateAndSend Date_parse toISOString
                             env w)))).
Proof.
  intros Date_parse toISOString. split.
  - intros env body d Hbelow Hord.
    destruct (Sqlite_submit_cases Date_parse env body d)
      as [[u [date [_ [_ [_ [_ [_ [_ [_ Hs]]]]]]]]] | [Hs _]]; rewrite Hs.
    + cbn [Sqlite.entries]. apply StronglySorted_snoc; [exact Hord|].
      unfold ids_below in Hbelow.
      eapply Forall_impl; [|exact Hbelow].
      intros e [n [Hn Hle]]. unfold id_lt. cbn [id]. rewrite Hn.
      cbn [IdVal_ltb]. apply Z.ltb_lt. lia.
    + exact Hord.
  - intros env w Hord.
    destruct (Sqlite_cycle_cases Date_parse toISOString env w)
      as [[Hdb _] | [_ [Hdb _]]]; rewrite Hdb; [exact Hord|].
    rewrite (proj1 (Sqlite_update_entries toISOString env _)).
    eapply in_id_order_by_ids; [|exact Hord].
    pose proof (proj1 (Sqlite_mark_row_core env
                         (map id (Sqlite.SELECT_unemailed (Sqlite.db w)))
                         (Sqlite.db w))) as Hcore.
    apply (f_equal (map (fun c : IdVal * JSString * JSString * JSString =>
                           fst (fst (fst c))))) in Hcore.
    rewrite !map_map in Hcore. cbn [row_core fst] in Hcore.
    symmetry. exact Hcore.
Qed.

(* ================================================================== *)
(** * Further instances *)



(** X3 on two entries in their two orders. *)
Lemma verdict_order_instance :
  Permutation [Examples.e_late; Examples.e_soon]
    [Examples.e_soon; Examples.e_late]
  /\ Sqlite.shouldSend Date_parse_iso [Examples.e_late; Examples.e_soon]
       Examples.yesterday Examples.now0
     = Sqlite.shouldSend Date_parse_iso [Examples.e_soon; Examples.e_late]
         Examples.yesterday Examples.now0.
Proof.
  assert (H : Permutation [Examples.e_late; Examples.e_soon]
                [Examples.e_soon; Examples.e_late]) by apply perm_swap.
  split; [exact H|].
  exact (proj1 (verdict_ignores_order Date_parse_iso _ _ Examples.yesterday
                  Examples.now0 H)).
Defined.

(** X4 on an urgent entry, one day later. *)
Lemma verdict_later_instance :
  Sqlite.shouldSend Date_parse_iso [Examples.e_soon] Examples.yesterday
    (Examples.now0 + msPerDay) = true.
Proof.
  apply (proj1 (verdict_stays_true_later Date_parse_iso [Examples.e_soon]
                  Examples.yesterday Examples.now0 (Examples.now0 + msPerDay)
                  ltac:(vm_compute; discriminate)
                  ltac:(vm_compute; discriminate))).
  vm_compute; reflexivity.
Defined.

(** X5 and X6 on a table with two pending rows. *)
Lemma Sqlite_sending_cycle_instance :
  let env := Examples.sqlite_env Examples.flaky_preview Examples.accept_all in
  let w' := Sqlite.evaluateAndSend Date_parse_iso toISOString_utc env
              Examples.sqlite2 in
  Sqlite.SELECT_unemailed (Sqlite.db w') = []
  /\ Sqlite.outbox w'
     = [Sqlite.digest toISOString_utc env [Examples.e_soon; Examples.e_late]]
  /\ Sqlite.last_email_sent (Sqlite.db w')
     = Some (lit "2025-01-10T09:00:00.002Z").
Proof.
  intros env w'.
  destruct (Sqlite_sending_cycle_clears_backlog Date_parse_iso toISOString_utc
              env Examples.sqlite2 (Some (lit "re_1")) eq_refl
              ltac:(vm_compute; reflexivity) eq_refl eq_refl)
    as [Hnone [Hout Hledger]].
  split; [exact Hnone|]. split; [exact Hout|]. exact (Hledger eq_refl).
Defined.

Lemma Sqlite_second_cycle_instance :
  let env := Examples.sqlite_env Examples.flaky_preview Examples.accept_all in
  let w' := Sqlite.evaluateAndSend Date_parse_iso toISOString_utc env
              Examples.sqlite2 in
  let w'' := Sqlite.evaluateAndSend Date_parse_iso toISOString_utc
               Examples.sqlite_env_later w' in
  Sqlite.db w'' = Sqlite.db w'
  /\ Sqlite.outbox w''
     = [Sqlite.digest toISOString_utc env [Examples.e_soon; Examples.e_late]].
Proof.
  intros env w' w''.
  exact (Sqlite_second_cycle_sends_nothing Date_parse_iso toISOString_utc
           env Examples.sqlite_env_later Examples.sqlite2 (Some (lit "re_1"))
           eq_refl ltac:(vm_compute; reflexivity) eq_refl eq_refl).
Defined.

(** X7 on a sheet with two pending rows. *)
Lemma Sheets_sending_cycle_instance :
  let env := Examples.sheets_env Examples.flaky_preview Examples.accept_all in
  let w' := Sheets.evaluateAndSend Date_parse_iso Number_decimal
              toISOString_utc env Examples.sheets2 in
  let w'' := Sheets.evaluateAndSend Date_parse_iso Number_decimal
               toISOString_utc Examples.sheets_env_later w' in
  is_zero (Number_decimal (lit "1")) = false
  /\ Sheets.unemailed_of_rows Date_parse_iso Number_decimal (Sheets.sheet w')
     = []
  /\ Sheets.lastEmailSent w' = Some (TimeValue (Examples.now0 + 2))
  /\ Sheets.outbox w'' = Sheets.outbox w'.
Proof.
  intros env w' w''.
  assert (Hone : is_zero (Number_decimal (lit "1")) = false) by reflexivity.
  destruct (Sheets_sending_cycle_clears_backlog Date_parse_iso Number_decimal
              toISOString_utc env Examples.sheets_env_later Examples.sheets2
              (Some (lit "re_1")) Hone eq_refl
              ltac:(vm_compute; reflexivity) eq_refl eq_refl eq_refl)
    as [Hnone [Hledger [_ [_ Hout]]]].
  split; [exact Hone|]. split; [exact Hnone|]. split; [exact Hledger|].
  exact Hout.
Defined.

(** X8 on the same sheet when the write of the flags throws. *)
Lemma Sheets_mark_failure_instance :
  let env := Examples.sheets_env_mark_fails in
  let w' := Sheets.evaluateAndSend Date_parse_iso Number_decimal
              toISOString_utc env Examples.sheets2 in
  length (Sheets.outbox w') = 1%nat
  /\ Sheets.sheet w' = Sheets.sheet Examples.sheets2
  /\ Sheets.lastEmailSent w' = Sheets.lastEmailSent Examples.sheets2.
Proof.
  intros env w'.
  assert (Hfail : Sheets.mark_get_error env <> None
                  \/ Sheets.mark_update_error env <> None)
    by (right; discriminate).
  destruct (Sheets_mark_failure_after_send Date_parse_iso Number_decimal
              toISOString_utc env Examples.sheets2 (Some (lit "re_1"))
              eq_refl ltac:(vm_compute; reflexivity) eq_refl Hfail)
    as [Hout [Hs [Hl _]]].
  fold w' in Hout. rewrite Hout. split; [reflexivity|].
  split; [exact Hs | exact Hl].
Defined.


(** X13 and X14 on a submission to the table with three rows. *)
Lemma submit_urls_unique_instance :
  let env := Examples.sqlite_env Examples.no_preview Examples.accept_all in
  NoDup (map url (Sqlite.entries Examples.db2))
  /\ NoDup (map url (Sqlite.entries
                       (snd (Sqlite.submit Date_parse_iso env
                               Examples.body_today Examples.db2)))).
Proof.
  intros env.
  assert (H : NoDup (map url (Sqlite.entries Examples.db2))).
  { repeat constructor; cbn; intros H;
      repeat (destruct H as [H | H]; [discriminate|]); exact H. }
  split; [exact H|].
  exact (proj1 (submit_keeps_urls_unique Date_parse_iso toISOString_utc)
           env Examples.body_today Examples.db2 H).
Defined.

Lemma Sqlite_submit_ids_instance :
  let env := Examples.sqlite_env Examples.no_preview Examples.accept_all in
  let r := Sqlite.submit Date_parse_iso env Examples.body_today Examples.db2 in
  ids_below Examples.db2
  /\ json (fst r) = JSuccess (IdNum 4)
  /\ ids_below (snd r)
  /\ NoDup (map id (Sqlite.entries (snd r))).
Proof.
  intros env r.
  assert (Hb : ids_below Examples.db2).
  { unfold ids_below. repeat constructor; eexists;
      (split; [reflexivity | vm_compute; discriminate]). }
  assert (Hn : NoDup (map id (Sqlite.entries Examples.db2))).
  { repeat constructor; cbn; intros H;
      repeat (destruct H as [H | H]; [discriminate|]); exact H. }
  destruct (Sqlite_submit_keeps_ids_fresh Date_parse_iso env
              Examples.body_today Examples.db2 Hb Hn) as [Hb' [Hn' _]].
  split; [exact Hb|]. split; [reflexivity|]. split; [exact Hb' | exact Hn'].
Defined.

(** X15 on a URL of three spaces. *)
Lemma submit_blank_url_instance :
  Sqlite.submit Date_parse_iso
    (Examples.sqlite_env Examples.no_preview Examples.accept_all)
    (mkBody (Some (lit "   ")) (Some (lit "2025-01-12"))) Examples.empty_db
  = (mkResponse 400 (JError "Missing url or date"), Examples.empty_db).
Proof.
  apply (proj1 (submit_blank_url_is_missing Date_parse_iso toISOString_utc
                  (lit "   ") (Some (lit "2025-01-12"))
                  ltac:(repeat constructor))).
Defined.

(** X16 on a URL between a tab and a line feed. *)
Lemma submit_blanks_around_instance :
  Sqlite.submit Date_parse_iso
    (Examples.sqlite_env Examples.no_preview Examples.accept_all)
    (mkBody (Some ([9%N] ++ lit "https://example.org/cfp" ++ [10%N]))
       (Some (lit "2025-01-12"))) Examples.empty_db
  = Sqlite.submit Date_parse_iso
      (Examples.sqlite_env Examples.no_preview Examples.accept_all)
      (mkBody (Some (lit "https://example.org/cfp")) (Some (lit "2025-01-12")))
      Examples.empty_db.
Proof.
  apply (proj1 (submit_ignores_blanks_around_url Date_parse_iso
                  toISOString_utc [9%N] (lit "https://example.org/cfp")
                  [10%N] (Some (lit "2025-01-12"))
                  ltac:(repeat constructor) ltac:(repeat constructor))).
Defined.

(** X17 on a submission dated "someday". *)
Lemma submit_unparseable_date_instance :
  let r := Sqlite.submit Date_parse_iso
             (Examples.sqlite_env Examples.no_preview Examples.accept_all)
             (mkBody (Some (lit "https://example.org/d")) (Some (lit "someday")))
             Examples.empty_db in
  status (fst r) = 200
  /\ In (lit "someday") (map event_date (Sqlite.entries (snd r))).
Proof.
  exact (proj1 (submit_stores_unparseable_date Date_parse_iso toISOString_utc
                  (lit "https://example.org/d") (lit "someday")
                  eq_refl eq_refl eq_refl)
           (Examples.sqlite_env Examples.no_preview Examples.accept_all)
           Examples.empty_db eq_refl ltac:(intros [])).
Defined.

(** X18 on UTC with today's date, and five hours west of Greenwich with
    tomorrow's. *)
Lemma submit_accepted_dates_instance :
  fst (Sqlite.submit Date_parse_iso
         (Examples.sqlite_env Examples.no_preview Examples.accept_all)
         Examples.body_today Examples.empty_db)
  = mkResponse 200 (JSuccess (IdNum 1))
  /\ fst (Sqlite.submit Date_parse_iso Examples.sqlite_env_west
            (mkBody (Some (lit "https://example.org/cfp"))
               (Some (lit "2025-01-11"))) Examples.empty_db)
     = mkResponse 200 (JSuccess (IdNum 1)).
Proof.
  split.
  - pose (env := Examples.sqlite_env Examples.no_preview Examples.accept_all).
    assert (Hday : in_calendar_range (20098 * msPerDay))
      by (vm_compute; discriminate).
    assert (Htz : - msPerDay < Sqlite.tz env < msPerDay)
      by (vm_compute; split; reflexivity).
    assert (Hnow : in_calendar_range (Sqlite.now env))
      by (vm_compute; discriminate).
    assert (Hok : local_day (Sqlite.tz env) (Sqlite.now env) < 20098
                  \/ (0 <= Sqlite.tz env
                      /\ local_day (Sqlite.tz env) (Sqlite.now env) <= 20098))
      by (right; split; vm_compute; discriminate).
    assert (Hnew : ~ In (trim (lit "https://example.org/cfp"))
                     (map url (Sqlite.entries Examples.empty_db)))
      by (intros []).
    exact (proj1 (submit_accepts_today_and_later Date_parse_iso
                    toISOString_utc (lit "https://example.org/cfp")
                    (lit "2025-01-10") 20098 eq_refl eq_refl eq_refl Hday)
             env Examples.empty_db Htz Hnow Hok eq_refl Hnew).
  - pose (env := Examples.sqlite_env_west).
    assert (Hday : in_calendar_range (20099 * msPerDay))
      by (vm_compute; discriminate).
    assert (Htz : - msPerDay < Sqlite.tz env < msPerDay)
      by (vm_compute; split; reflexivity).
    assert (Hnow : in_calendar_range (Sqlite.now env))
      by (vm_compute; discriminate).
    assert (Hok : local_day (Sqlite.tz env) (Sqlite.now env) < 20099
                  \/ (0 <= Sqlite.tz env
                      /\ local_day (Sqlite.tz env) (Sqlite.now env) <= 20099))
      by (left; vm_compute; reflexivity).
    assert (Hnew : ~ In (trim (lit "https://example.org/cfp"))
                     (map url (Sqlite.entries Examples.empty_db)))
      by (intros []).
    exact (proj1 (submit_accepts_today_and_later Date_parse_iso
                    toISOString_utc (lit "https://example.org/cfp")
                    (lit "2025-01-11") 20099 eq_refl eq_refl eq_refl Hday)
             env Examples.empty_db Htz Hnow Hok eq_refl Hnew).
Defined.

(** X19 on a first submission to an empty table and to an empty sheet. *)
Lemma submitted_entry_pending_instance :
  (exists e,
      In e (Sqlite.SELECT_unemailed
              (snd (Sqlite.submit Date_parse_iso
                      (Examples.sqlite_env Examples.no_preview Examples.accept_all)
                      Examples.body_today Examples.empty_db)))
      /\ id e = IdNum 1 /\ url e = lit "https://example.org/cfp"
      /\ event_date e = lit "2025-01-10")
  /\ (exists e,
        In e (Sheets.unemailed_of_rows Date_parse_iso Number_decimal
                (snd (Sheets.submit Date_parse_iso toISOString_utc
                        (Examples.sheets_env Examples.no_preview
                           Examples.accept_all)
                        Examples.body_today [])))
        /\ id e = IdStr (lit "1736499600003")
        /\ url e = lit "https://example.org/cfp"
        /\ event_date e = lit "2025-01-10").
Proof.
  pose proof (submitted_entry_is_pending Date_parse_iso Number_decimal
                toISOString_utc (lit "https://example.org/cfp")
                (lit "2025-01-10")) as H.
  split.
  - exact (proj1 (H (IdNum 1))
             (Examples.sqlite_env Examples.no_preview Examples.accept_all)
             Examples.empty_db _ eq_refl).
  - exact (proj2 (H (IdStr (lit "1736499600003")))
             (Examples.sheets_env Examples.no_preview Examples.accept_all)
             [] _ eq_refl eq_refl).
Defined.


(** X22 on a send at [now0] and a cycle ten days later. *)
Lemma staleness_quiet_instance :
  let env := Examples.sqlite_env Examples.flaky_preview Examples.accept_all in
  let w' := Sqlite.evaluateAndSend Date_parse_utc toISOString_utc env
              Examples.sqlite2 in
  Date_parse_utc (toISOString_utc (Sqlite.now_ledger env))
  = TimeValue (Sqlite.now_ledger env)
  /\ Sqlite.conditionC
       (Sqlite.getLastEmailSent Date_parse_utc Examples.sqlite_env_later
          (Sqlite.db w'))
       (Sqlite.now Examples.sqlite_env_later) = false.
Proof.
  intros env w'.
  assert (Hround : Date_parse_utc (toISOString_utc (Sqlite.now_ledger env))
                   = TimeValue (Sqlite.now_ledger env))
    by (vm_compute; reflexivity).
  split; [exact Hround|].
  exact (proj1 (staleness_is_quiet_after_a_send Date_parse_utc Number_decimal
                  toISOString_utc)
           env Examples.sqlite_env_later Examples.sqlite2 (Some (lit "re_1"))
           eq_refl ltac:(vm_compute; reflexivity) eq_refl eq_refl Hround
           eq_refl ltac:(vm_compute; discriminate)).
Defined.

(** X23 on a ledger written the day before that cannot be read. *)
Lemma unreadable_ledger_instance :
  Sqlite.last_email_sent Examples.db2 = Some (lit "2025-01-01T09:00:00.000Z")
  /\ Sqlite.shouldSend Date_parse_utc [Examples.e_late]
       (Sqlite.getLastEmailSent Date_parse_utc
          Examples.sqlite_env_ledger_unreadable Examples.db2)
       Examples.now0 = true.
Proof.
  split; [reflexivity|].
  exact (proj2 (unreadable_ledger_counts_as_never_sent Date_parse_utc
                  Examples.sqlite_env_ledger_unreadable Examples.db2
                  [Examples.e_late] Examples.now0 eq_refl
                  ltac:(discriminate))).
Defined.

(** X24 four days before the date of an entry, and at [now0]. *)
Lemma thresholds_instance :
  (Sqlite.conditionA Date_parse_iso [Examples.e_soon] 1736121600000 = true
   /\ Sheets.conditionA Date_parse_iso [Examples.e_soon] 1736121600000 = true)
  /\ Sqlite.conditionC (Some (TimeValue (Examples.now0 - 21 * msPerDay)))
       Examples.now0 = false
  /\ Sqlite.conditionC (Some (TimeValue (Examples.now0 - 21 * msPerDay - 1)))
       Examples.now0 = true.
Proof.
  assert (Hr : is_time_value (1736121600000 + 7 * msPerDay))
    by (vm_compute; discriminate).
  assert (Hr0 : is_time_value (Examples.now0 + 7 * msPerDay))
    by (vm_compute; discriminate).
  split.
  - exact (proj1 (thresholds_at_the_boundary Date_parse_iso Examples.e_soon
                    1736121600000 Hr) eq_refl).
  - destruct (thresholds_at_the_boundary Date_parse_iso Examples.e_soon
                Examples.now0 Hr0) as [_ [_ [[Hq _] [Hq' _]]]].
    split; [exact Hq | exact Hq'].
Defined.

(** X10 on the table with two pending rows when the UPDATE fails. *)
Lemma cycle_flags_instance :
  let w' := Sqlite.evaluateAndSend Date_parse_iso toISOString_utc
              Examples.sqlite_env_mark_fails Examples.sqlite2 in
  map row_core (Sqlite.entries (Sqlite.db w'))
  = map row_core (Sqlite.entries Examples.db2)
  /\ In Examples.e_soon (unsent (Sqlite.entries Examples.db2)).
Proof.
  intros w'.
  destruct (proj1 (cycle_only_sets_flags Date_parse_iso Number_decimal
                     toISOString_utc)
              Examples.sqlite_env_mark_fails Examples.sqlite2)
    as [Hcore [_ Hpending]].
  split; [exact Hcore|].
  apply Hpending. vm_compute. right. left. reflexivity.
Defined.

(** X25 on a sheet with a row whose flag cell is empty. *)
Lemma Sheets_pending_rows_instance :
  let r := Examples.row_of "1735804800700" "https://example.org/e"
             "2025-02-01" "" in
  In (Sheets.row_entry Number_decimal r)
    (Sheets.unemailed_of_rows Date_parse_iso Number_decimal
       (r :: Examples.sheet2)).
Proof.
  intros r.
  exact (proj1 (Sheets_pending_rows_by_flag Date_parse_iso Number_decimal
                  (r :: Examples.sheet2)) r (or_introl eq_refl) eq_refl).
Defined.

(** X26 on an entry whose fetch fails in both servers. *)
Lemma same_item_instance :
  let envq := Examples.sqlite_env Examples.flaky_preview Examples.accept_all in
  let envs := Examples.sheets_env Examples.flaky_preview Examples.accept_all in
  Sqlite.title (Sqlite.enrich envq Examples.e_late)
  = Sheets.title (Sheets.enrich envs Examples.e_late).
Proof.
  intros envq envs.
  exact (proj1 (proj2 (both_servers_render_the_same_item envq envs
                         Examples.e_late eq_refl))).
Defined.

(** X27 on a submission to the table with three rows and on a cycle that
    mails two of them. *)
Lemma Sqlite_table_order_instance :
  let env := Examples.sqlite_env Examples.no_preview Examples.accept_all in
  in_id_order (Sqlite.entries Examples.db2)
  /\ in_id_order
       (Sqlite.entries
          (snd (Sqlite.submit Date_parse_iso env Examples.body_today
                  Examples.db2)))
  /\ in_id_order
       (Sqlite.entries
          (Sqlite.db (Sqlite.evaluateAndSend Date_parse_iso toISOString_utc
                        env Examples.sqlite2))).
Proof.
  intros env.
  assert (Hord : in_id_order (Sqlite.entries Examples.db2)).
  { repeat constructor; vm_compute; reflexivity. }
  assert (Hbelow : ids_below Examples.db2).
  { repeat constructor; eexists; (split; [reflexivity | vm_compute; discriminate]). }
  destruct (Sqlite_table_stays_in_id_order Date_parse_iso toISOString_utc)
    as [Hsub Hcyc].
  split; [exact Hord|]. split.
  - exact (Hsub env Examples.body_today Examples.db2 Hbelow Hord).
  - exact (Hcyc env Examples.sqlite2 Hord).
Defined.
